(** * bcdi.experiment.experiment_utils: experimental geometry and detector masks

    A shallow embedding of [src/bcdi/experiment/experiment_utils.py]:
    the class [Setup] (validated properties, the transfer matrix of
    [update_coords], [voxel_sizes], [orthogonalize], [detector_frame]) and
    [Detector.mask_detector].

    Conventions of the embedding.
    - Python floats are idealised as real numbers ([R]); [np.pi] is [PI],
      [np.cos]/[np.sin] are [cos]/[sin], [np.radians x] is [x * PI / 180],
      [np.linalg.norm] of a vector is the square root of the sum of squares
      and [np.linalg.inv] fails exactly when the determinant is zero.
      The reals stand for finite floats of moderate magnitude: rounding,
      overflow to [inf], underflow to [0.0] and [nan] are not modelled. A
      statement whose outcome would change with them either carries the
      range of its numbers ([1e-30] to [1e30]) as a hypothesis or asserts
      only what holds of every float.
    - A Python exception is a value of [exn]; a computation that may raise
      returns a [result].
    - Printing ([verbose]) and plotting ([debugging]) have no effect on the
      returned values and are left out. *)

From Stdlib Require Import Reals RNsatz Lra Lia ZArith List String Bool Psatz.
From stdpp Require Import gmap strings.
Import ListNotations.

#[local] Set Warnings "-register-all".

(** ** Python values, exceptions *)

Module Py.

(** The exception classes raised by the module, by the interpreter on its
    behalf, and by numpy ([LinAlgError]). *)
Inductive exn : Set :=
| Exception
| TypeError
| ValueError
| AttributeError
| AssertionError
| IndexError
| ZeroDivisionError
| NotImplementedError
| LinAlgError.

Inductive result (A : Type) : Type :=
| Ok (a : A)
| Raise (e : exn).

Arguments Ok {A} a.
Arguments Raise {A} e.

#[export] Instance result_ret : MRet result := fun A a => Ok a.
#[export] Instance result_bind : MBind result :=
  fun A B f c => match c with Ok a => f a | Raise e => Raise e end.

(** [assert c] *)
Definition assert (c : bool) : result unit :=
  if c then Ok tt else Raise AssertionError.

(** [if c: raise e] *)
Definition raise_if (c : bool) (e : exn) : result unit :=
  if c then Raise e else Ok tt.

(** The dynamically typed values that reach the module. *)
Inductive pyval : Type :=
| PyNone
| PyBool (b : bool)
| PyNum (x : R)
| PyStr (s : string)
| PyTuple (l : list pyval)
| PyList (l : list pyval)
| PyDict (l : list (pyval * pyval)).

(** [isinstance(v, Number)]: [bool] is a subclass of [int]. *)
Definition as_number (v : pyval) : option R :=
  match v with
  | PyNum x => Some x
  | PyBool b => Some (if b then 1%R else 0%R)
  | _ => None
  end.

Definition is_number (v : pyval) : bool :=
  match as_number v with Some _ => true | None => false end.

(** [isinstance(v, (tuple, list))], giving the items. *)
Definition as_sequence (v : pyval) : option (list pyval) :=
  match v with
  | PyTuple l | PyList l => Some l
  | _ => None
  end.

Definition is_bool (v : pyval) : bool :=
  match v with PyBool _ => true | _ => false end.

Definition is_dict (v : pyval) : bool :=
  match v with PyDict _ => true | _ => false end.

Definition is_sequence (v : pyval) : bool :=
  match as_sequence v with Some _ => true | None => false end.

Definition Reqb (x y : R) : bool := if Req_dec_T x y then true else false.
Definition Rleb (x y : R) : bool := if Rle_dec x y then true else false.
Definition Rltb (x y : R) : bool := if Rlt_dec x y then true else false.

(** Truth value of an object, as tested by [if v:] and [not v]. *)
Definition truthy (v : pyval) : bool :=
  match v with
  | PyNone => false
  | PyBool b => b
  | PyNum x => negb (Reqb x 0)
  | PyStr s => negb (String.eqb s EmptyString)
  | PyTuple l | PyList l => negb (Nat.eqb (length l) 0)
  | PyDict l => negb (Nat.eqb (length l) 0)
  end.

(** [kwargs.get(key, d)] *)
Definition kwargs_get (kwargs : gmap string pyval) (key : string) (d : pyval) : pyval :=
  default d (kwargs !! key).

(** [for k in kwargs.keys(): if k not in allowed: raise Exception(...)] *)
Definition check_kwargs (allowed : list string) (kwargs : gmap string pyval) : result unit :=
  raise_if (negb (forallb (fun k => existsb (String.eqb k) allowed)
                          (map fst (map_to_list kwargs))))
           Exception.

End Py.
Import Py.

(** ** numpy: 3-vectors and 3x3 matrices *)

Module np.

Definition pi : R := PI.

(** [np.radians] *)
Definition radians (deg : R) : R := (deg * PI / 180)%R.

Definition vec3 : Type := R * R * R.

Record mat3 : Type := Mat3 {
  m00 : R; m01 : R; m02 : R;
  m10 : R; m11 : R; m12 : R;
  m20 : R; m21 : R; m22 : R
}.

(** [np.zeros((3, 3))] *)
Definition zeros33 : mat3 := Mat3 0 0 0 0 0 0 0 0 0.

(** [k * np.array([a, b, c])] *)
Definition vscale (k : R) (v : vec3) : vec3 :=
  let '(a, b, c) := v in (k * a, k * b, k * c)%R.

(** [m[:, j] = v]; the three columns are [j = 0, 1, 2]. *)
Definition set_col (j : nat) (v : vec3) (m : mat3) : mat3 :=
  let '(a, b, c) := v in
  match j with
  | 0%nat => Mat3 a (m01 m) (m02 m) b (m11 m) (m12 m) c (m21 m) (m22 m)
  | 1%nat => Mat3 (m00 m) a (m02 m) (m10 m) b (m12 m) (m20 m) c (m22 m)
  | _ => Mat3 (m00 m) (m01 m) a (m10 m) (m11 m) b (m20 m) (m21 m) c
  end.

(** [m[i, :]] *)
Definition row (i : nat) (m : mat3) : vec3 :=
  match i with
  | 0%nat => (m00 m, m01 m, m02 m)
  | 1%nat => (m10 m, m11 m, m12 m)
  | _ => (m20 m, m21 m, m22 m)
  end.

(** [k * m] *)
Definition mscale (k : R) (m : mat3) : mat3 :=
  Mat3 (k * m00 m) (k * m01 m) (k * m02 m)
       (k * m10 m) (k * m11 m) (k * m12 m)
       (k * m20 m) (k * m21 m) (k * m22 m).

(** [m.transpose()] *)
Definition transpose (m : mat3) : mat3 :=
  Mat3 (m00 m) (m10 m) (m20 m)
       (m01 m) (m11 m) (m21 m)
       (m02 m) (m12 m) (m22 m).

Definition det (m : mat3) : R :=
  (m00 m * (m11 m * m22 m - m12 m * m21 m)
   - m01 m * (m10 m * m22 m - m12 m * m20 m)
   + m02 m * (m10 m * m21 m - m11 m * m20 m))%R.

(** The adjugate divided by the determinant. *)
Definition inverse (m : mat3) : mat3 :=
  let d := det m in
  Mat3 ((m11 m * m22 m - m12 m * m21 m) / d)
       ((m02 m * m21 m - m01 m * m22 m) / d)
       ((m01 m * m12 m - m02 m * m11 m) / d)
       ((m12 m * m20 m - m10 m * m22 m) / d)
       ((m00 m * m22 m - m02 m * m20 m) / d)
       ((m02 m * m10 m - m00 m * m12 m) / d)
       ((m10 m * m21 m - m11 m * m20 m) / d)
       ((m01 m * m20 m - m00 m * m21 m) / d)
       ((m00 m * m11 m - m01 m * m10 m) / d).

(** [np.linalg.inv]: raises [LinAlgError] ("Singular matrix") on a singular
    matrix. *)
Definition linalg_inv (m : mat3) : result mat3 :=
  if Reqb (det m) 0 then Raise LinAlgError else Ok (inverse m).

(** [np.linalg.norm] of a vector. *)
Definition linalg_norm (v : vec3) : R :=
  let '(a, b, c) := v in sqrt (a * a + b * b + c * c).

(** [m @ v], written out in the source as three sums of products. *)
Definition mat_vec (m : mat3) (v : vec3) : vec3 :=
  let '(x, y, z) := v in
  (m00 m * x + m01 m * y + m02 m * z,
   m10 m * x + m11 m * y + m12 m * z,
   m20 m * x + m21 m * y + m22 m * z)%R.

(** [np.arange(start, stop)] on integers (step 1). *)
Definition arange (start stop : Z) : list Z :=
  map (fun i => (start + Z.of_nat i)%Z) (seq 0 (Z.to_nat (stop - start))).

(** *** Arrays *)

Inductive dtype : Set := int64 | float64 | complex128.

(** An array: its shape, the tag of its element type and its elements in
    row-major (C) order. *)
Record ndarray (A : Type) : Type := {
  shape : list nat;
  dtype_of : dtype;
  flat : list A
}.

Arguments shape {A} _.
Arguments dtype_of {A} _.
Arguments flat {A} _.

(** Number of elements of an array of a given shape. *)
Definition size_of (shp : list nat) : nat := fold_right Nat.mul 1%nat shp.

(** [a.reshape(new_shape)] *)
Definition reshape {A} (new_shape : list nat) (a : ndarray A) : result (ndarray A) :=
  if Nat.eqb (size_of new_shape) (length (flat a))
  then Ok {| shape := new_shape; dtype_of := dtype_of a; flat := flat a |}
  else Raise ValueError.

(** Complex numbers as pairs (real part, imaginary part); a real number has
    imaginary part 0. *)
Definition complex : Type := R * R.

Definition czero : complex := (0%R, 0%R).

Definition cadd (a b : complex) : complex :=
  (fst a + fst b, snd a + snd b)%R.

(** Product of a real weight and a complex value. *)
Definition cscale (w : R) (a : complex) : complex :=
  (w * fst a, w * snd a)%R.

(** Rounding toward zero, as the conversion of a float to an integer does. *)
Definition trunc (x : R) : R :=
  if Rle_dec 0 x then IZR (Int_part x) else (- IZR (Int_part (- x)))%R.

(** Conversion of one element by [a.astype(dt)]. *)
Definition astype_elt (dt : dtype) (c : complex) : complex :=
  match dt with
  | int64 => (trunc (fst c), 0%R)
  | float64 => (fst c, 0%R)
  | complex128 => c
  end.

(** [a.astype(dt)] *)
Definition astype (dt : dtype) (a : ndarray complex) : ndarray complex :=
  {| shape := shape a; dtype_of := dt; flat := map (astype_elt dt) (flat a) |}.

(** [a[i, j, k]] of a 3D array, for indices inside the shape. *)
Definition item3 (a : ndarray complex) (i j k : nat) : complex :=
  match shape a with
  | [_; ny; nx] => nth (i * ny * nx + j * nx + k) (flat a) czero
  | _ => czero
  end.

(** [np.meshgrid(gz, gy, gx, indexing='ij')], flattened in C order: the
    list of the points [(z, y, x)]. *)
Definition meshgrid_ij (gz gy gx : list R) : list vec3 :=
  z ← gz; y ← gy; x ← gx; [(z, y, x)].

End np.

(** ** scipy.interpolate.RegularGridInterpolator

    The interpolator is library code; it is modelled from its documented
    behaviour for [method='linear'] on a three-dimensional grid: the
    constructor checks the axes against the values, a call interpolates
    linearly inside the grid and, outside the grid, raises [ValueError] when
    [bounds_error] is set and otherwise returns [fill_value] (or
    extrapolates when [fill_value] is [None]). *)

Module scipy.
Import np.

Record RegularGridInterpolator : Type := {
  grid : list R * list R * list R;
  values : ndarray complex;
  bounds_error : bool;
  fill_value : option complex
}.

(** [np.all(np.diff(p) > 0.)] *)
Fixpoint strictly_ascending (p : list R) : bool :=
  match p with
  | a :: p' =>
    match p' with
    | b :: _ => Rltb a b && strictly_ascending p'
    | [] => true
    end
  | [] => true
  end.

(** The constructor: an axis that is not strictly ascending, or whose
    length differs from the matching dimension of [values], raises
    [ValueError]; integer values are converted to floats. *)
Definition RegularGridInterpolator_init (points : list R * list R * list R)
    (vals : ndarray complex) (bounds_error : bool) (fill_value : option complex)
    : result RegularGridInterpolator :=
  let '(gz, gy, gx) := points in
  _ ← raise_if (negb (strictly_ascending gz && strictly_ascending gy
                      && strictly_ascending gx)) ValueError;
  match shape vals with
  | [nz; ny; nx] =>
    _ ← raise_if (negb (Nat.eqb (length gz) nz && Nat.eqb (length gy) ny
                        && Nat.eqb (length gx) nx)) ValueError;
    Ok {| grid := points;
          values := match dtype_of vals with
                    | int64 => astype float64 vals
                    | _ => vals
                    end;
          bounds_error := bounds_error;
          fill_value := fill_value |}
  | _ => Raise ValueError
  end.

(** A coordinate is out of bounds when it is below the first or above the
    last point of its axis. *)
Definition out_of_bounds_1d (g : list R) (x : R) : bool :=
  Rltb x (hd 0%R g) || Rltb (List.last g 0%R) x.

Definition out_of_bounds (axes : list R * list R * list R) (p : vec3) : bool :=
  let '(gz, gy, gx) := axes in
  let '(z, y, x) := p in
  out_of_bounds_1d gz z || out_of_bounds_1d gy y || out_of_bounds_1d gx x.

(** [np.searchsorted(g, x)]: the number of points of the axis below [x]. *)
Fixpoint searchsorted (g : list R) (x : R) : nat :=
  match g with
  | a :: g' => if Rltb a x then S (searchsorted g' x) else 0%nat
  | [] => 0%nat
  end.

(** The cell of the axis used for [x], clipped to the first and last cell,
    and the normalised distance of [x] to its lower edge. (An axis with fewer
    than two points has no cell; scipy produces nan there and the value of
    the model is of no significance.) *)
Definition find_index (g : list R) (x : R) : nat * R :=
  let i := Nat.min (Nat.pred (searchsorted g x)) (length g - 2) in
  (i, ((x - nth i g 0) / (nth (S i) g 0 - nth i g 0))%R).

(** The weight of the corner at offset [e] (0 or 1) along one axis. *)
Definition edge_weight (e : nat) (t : R) : R :=
  match e with 0%nat => (1 - t)%R | _ => t end.

(** Linear interpolation: the weighted sum over the eight corners of the
    cell. *)
Definition evaluate_linear (rgi : RegularGridInterpolator) (p : vec3) : complex :=
  let '(gz, gy, gx) := grid rgi in
  let '(z, y, x) := p in
  let '(iz, tz) := find_index gz z in
  let '(iy, ty) := find_index gy y in
  let '(ix, tx) := find_index gx x in
  fold_right cadd czero
    (ez ← [0; 1]%nat; ey ← [0; 1]%nat; ex ← [0; 1]%nat;
     [cscale (edge_weight ez tz * edge_weight ey ty * edge_weight ex tx)
             (item3 (values rgi) (iz + ez) (iy + ey) (ix + ex))]).

(** The value at one point when no bounds error is raised: the fill value
    outside the grid, if there is one, and the interpolated value
    otherwise. *)
Definition sample (rgi : RegularGridInterpolator) (p : vec3) : complex :=
  if out_of_bounds (grid rgi) p then
    match fill_value rgi with
    | Some f => f
    | None => evaluate_linear rgi p
    end
  else evaluate_linear rgi p.

(** The interpolator called at one point. *)
Definition call1 (rgi : RegularGridInterpolator) (p : vec3) : result complex :=
  if bounds_error rgi && out_of_bounds (grid rgi) p then Raise ValueError
  else Ok (sample rgi p).

(** [rgi(xi)] for the list of points [xi]: a one-dimensional array, complex
    when the values are. *)
Definition call (rgi : RegularGridInterpolator) (xi : list vec3) : result (ndarray complex) :=
  out ← mapM (call1 rgi) xi;
  Ok {| shape := [length xi];
        dtype_of := match dtype_of (values rgi) with
                    | complex128 => complex128
                    | _ => float64
                    end;
        flat := out |}.

End scipy.

(** ** class Setup *)

Module Setup.

(** The attributes that [__init__] takes from [kwargs]. *)
Record kwargs_attributes : Type := {
  direct_beam : pyval;
  filtered_data : pyval;
  is_orthogonal : pyval;
  custom_scan : pyval;
  custom_images : pyval;
  custom_monitor : pyval;
  custom_motors : pyval;
  sample_inplane : pyval;
  sample_outofplane : pyval;
  sample_offsets : pyval;
  offset_inplane : pyval
}.

(** An instance: the attributes assigned by the class, each at the type its
    setter lets through ([None] is [None]), and [instance_dict], the entries
    of the instance dictionary under any other name, which only code outside
    the class can create ([setup.name = value]). *)
Record instance : Type := {
  kwargs_part : kwargs_attributes;
  _beamline : string;
  _beam_direction : np.vec3;
  _energy : option R;
  _distance : option R;
  _outofplane_angle : option R;
  _inplane_angle : option R;
  _tilt_angle : option R;
  _rocking_angle : option string;
  _pixel_x : option R;
  _pixel_y : option R;
  instance_dict : gmap string pyval
}.

Definition supported_beamlines : list string :=
  ["ID01"; "SIXS_2018"; "SIXS_2019"; "34ID"; "P10"; "CRISTAL"; "NANOMAX"]%string.

(** [value in {...}] for a set of strings. *)
Definition str_in (value : string) (l : list string) : bool :=
  existsb (String.eqb value) l.

(** Lists and dictionaries, and the tuples that hold one, are unhashable:
    testing them for membership in a set raises [TypeError]. *)
Fixpoint hashable (v : pyval) : bool :=
  match v with
  | PyList _ | PyDict _ => false
  | PyTuple l => forallb hashable l
  | _ => true
  end.

(** [beamline.setter] *)
Definition beamline_validate (value : pyval) : result string :=
  match value with
  | PyStr b => if str_in b supported_beamlines then Ok b else Raise ValueError
  | _ => if hashable value then Raise ValueError else Raise TypeError
  end.

(** The body shared by the setters of [energy], [distance], [pixel_x] and
    [pixel_y]: [None] is stored, a non-number raises [TypeError], a number
    [<= 0] raises [ValueError]. *)
Definition strictly_positive_validate (value : pyval) : result (option R) :=
  match value with
  | PyNone => Ok None
  | _ =>
    match as_number value with
    | None => Raise TypeError
    | Some x => if Rleb x 0 then Raise ValueError else Ok (Some x)
    end
  end.

Definition energy_validate := strictly_positive_validate.
Definition distance_validate := strictly_positive_validate.
Definition pixel_x_validate := strictly_positive_validate.
Definition pixel_y_validate := strictly_positive_validate.

(** The body shared by the setters of [outofplane_angle], [inplane_angle]
    and [tilt_angle]. *)
Definition angle_validate (value : pyval) : result (option R) :=
  match value with
  | PyNone => Ok None
  | _ =>
    match as_number value with
    | None => Raise TypeError
    | Some x => Ok (Some x)
    end
  end.

(** [rocking_angle.setter] *)
Definition rocking_angle_validate (value : pyval) : result (option string) :=
  match value with
  | PyNone => Ok None
  | PyStr r =>
    if str_in r ["outofplane"; "inplane"]%string then Ok (Some r) else Raise ValueError
  | _ => Raise TypeError
  end.

(** [all(isinstance(val, Number) for val in value)], giving the numbers. *)
Fixpoint all_numbers (l : list pyval) : option (list R) :=
  match l with
  | [] => Some []
  | v :: l' =>
    match as_number v, all_numbers l' with
    | Some x, Some xs => Some (x :: xs)
    | _, _ => None
    end
  end.

(** [beam_direction.setter]: the stored value is [value / norm(value)]. *)
Definition beam_direction_validate (value : pyval) : result np.vec3 :=
  match as_sequence value with
  | None => Raise ValueError
  | Some items =>
    match all_numbers items with
    | Some [u; v; w] =>
      let n := np.linalg_norm (u, v, w) in
      if Reqb n 0 then Raise ValueError
      else Ok (u / n, v / n, w / n)%R
    | _ => Raise ValueError
    end
  end.

Definition allowed_kwargs : list string :=
  ["direct_beam"; "filtered_data"; "is_orthogonal"; "custom_scan"; "custom_images";
   "custom_monitor"; "custom_motors"; "sample_inplane"; "sample_outofplane";
   "sample_offsets"; "offset_inplane"]%string.

(** The assertion on [direct_beam], made when it is truthy. *)
Definition direct_beam_ok (v : pyval) : bool :=
  match as_sequence v with
  | Some l => Nat.eqb (length l) 2 && forallb is_number l
  | None => false
  end.

Definition one : pyval := PyNum 1.
Definition zero : pyval := PyNum 0.

(** The part of [__init__] that reads [kwargs]. *)
Definition init_kwargs (kwargs : gmap string pyval) : result kwargs_attributes :=
  _ ← check_kwargs allowed_kwargs kwargs;
  let direct_beam := kwargs_get kwargs "direct_beam" PyNone in
  _ ← (if truthy direct_beam then assert (direct_beam_ok direct_beam) else Ok tt);
  let filtered_data := kwargs_get kwargs "filtered_data" (PyBool false) in
  _ ← assert (is_bool filtered_data);
  let is_orthogonal := kwargs_get kwargs "is_orthogonal" (PyBool false) in
  _ ← assert (is_bool is_orthogonal);
  let custom_scan := kwargs_get kwargs "custom_scan" (PyBool false) in
  _ ← assert (is_bool custom_scan);
  let custom_images := kwargs_get kwargs "custom_images" (PyList []) in
  _ ← assert (is_sequence custom_images);
  let custom_monitor := kwargs_get kwargs "custom_monitor" (PyList []) in
  _ ← assert (is_sequence custom_monitor);
  let custom_motors := kwargs_get kwargs "custom_motors" (PyDict []) in
  _ ← assert (is_dict custom_motors);
  Ok {| direct_beam := direct_beam;
        filtered_data := filtered_data;
        is_orthogonal := is_orthogonal;
        custom_scan := custom_scan;
        custom_images := custom_images;
        custom_monitor := custom_monitor;
        custom_motors := custom_motors;
        sample_inplane := kwargs_get kwargs "sample_inplane" (PyTuple [one; zero; zero]);
        sample_outofplane := kwargs_get kwargs "sample_outofplane" (PyTuple [zero; zero; one]);
        sample_offsets := kwargs_get kwargs "sample_offsets" (PyTuple [zero; zero; zero]);
        offset_inplane := kwargs_get kwargs "offset_inplane" zero |}.

(** [Setup.__init__]: the keyword attributes, then the ten property
    assignments in the order of the source, each through its setter. No
    other attribute is created. *)
Definition __init__ (beamline beam_direction energy distance outofplane_angle
                     inplane_angle tilt_angle rocking_angle pixel_x pixel_y : pyval)
                    (kwargs : gmap string pyval) : result instance :=
  kw ← init_kwargs kwargs;
  b ← beamline_validate beamline;
  bd ← beam_direction_validate beam_direction;
  e ← energy_validate energy;
  d ← distance_validate distance;
  oa ← angle_validate outofplane_angle;
  ia ← angle_validate inplane_angle;
  ta ← angle_validate tilt_angle;
  ra ← rocking_angle_validate rocking_angle;
  px ← pixel_x_validate pixel_x;
  py ← pixel_y_validate pixel_y;
  Ok {| kwargs_part := kw; _beamline := b; _beam_direction := bd; _energy := e;
        _distance := d; _outofplane_angle := oa; _inplane_angle := ia;
        _tilt_angle := ta; _rocking_angle := ra; _pixel_x := px; _pixel_y := py;
        instance_dict := ∅ |}.

(** The default of the parameter [beam_direction]. *)
Definition default_beam_direction : pyval := PyTuple [one; zero; zero].

(** *** Assignments to the properties of an existing instance *)

Definition beamline_setter (value : pyval) (self : instance) : result instance :=
  b ← beamline_validate value;
  Ok {| kwargs_part := kwargs_part self; _beamline := b;
        _beam_direction := _beam_direction self; _energy := _energy self;
        _distance := _distance self; _outofplane_angle := _outofplane_angle self;
        _inplane_angle := _inplane_angle self; _tilt_angle := _tilt_angle self;
        _rocking_angle := _rocking_angle self; _pixel_x := _pixel_x self;
        _pixel_y := _pixel_y self; instance_dict := instance_dict self |}.

Definition beam_direction_setter (value : pyval) (self : instance) : result instance :=
  bd ← beam_direction_validate value;
  Ok {| kwargs_part := kwargs_part self; _beamline := _beamline self;
        _beam_direction := bd; _energy := _energy self;
        _distance := _distance self; _outofplane_angle := _outofplane_angle self;
        _inplane_angle := _inplane_angle self; _tilt_angle := _tilt_angle self;
        _rocking_angle := _rocking_angle self; _pixel_x := _pixel_x self;
        _pixel_y := _pixel_y self; instance_dict := instance_dict self |}.

Definition energy_setter (value : pyval) (self : instance) : result instance :=
  e ← energy_validate value;
  Ok {| kwargs_part := kwargs_part self; _beamline := _beamline self;
        _beam_direction := _beam_direction self; _energy := e;
        _distance := _distance self; _outofplane_angle := _outofplane_angle self;
        _inplane_angle := _inplane_angle self; _tilt_angle := _tilt_angle self;
        _rocking_angle := _rocking_angle self; _pixel_x := _pixel_x self;
        _pixel_y := _pixel_y self; instance_dict := instance_dict self |}.

Definition distance_setter (value : pyval) (self : instance) : result instance :=
  d ← distance_validate value;
  Ok {| kwargs_part := kwargs_part self; _beamline := _beamline self;
        _beam_direction := _beam_direction self; _energy := _energy self;
        _distance := d; _outofplane_angle := _outofplane_angle self;
        _inplane_angle := _inplane_angle self; _tilt_angle := _tilt_angle self;
        _rocking_angle := _rocking_angle self; _pixel_x := _pixel_x self;
        _pixel_y := _pixel_y self; instance_dict := instance_dict self |}.

Definition outofplane_angle_setter (value : pyval) (self : instance) : result instance :=
  a ← angle_validate value;
  Ok {| kwargs_part := kwargs_part self; _beamline := _beamline self;
        _beam_direction := _beam_direction self; _energy := _energy self;
        _distance := _distance self; _outofplane_angle := a;
        _inplane_angle := _inplane_angle self; _tilt_angle := _tilt_angle self;
        _rocking_angle := _rocking_angle self; _pixel_x := _pixel_x self;
        _pixel_y := _pixel_y self; instance_dict := instance_dict self |}.

Definition inplane_angle_setter (value : pyval) (self : instance) : result instance :=
  a ← angle_validate value;
  Ok {| kwargs_part := kwargs_part self; _beamline := _beamline self;
        _beam_direction := _beam_direction self; _energy := _energy self;
        _distance := _distance self; _outofplane_angle := _outofplane_angle self;
        _inplane_angle := a; _tilt_angle := _tilt_angle self;
        _rocking_angle := _rocking_angle self; _pixel_x := _pixel_x self;
        _pixel_y := _pixel_y self; instance_dict := instance_dict self |}.

Definition tilt_angle_setter (value : pyval) (self : instance) : result instance :=
  a ← angle_validate value;
  Ok {| kwargs_part := kwargs_part self; _beamline := _beamline self;
        _beam_direction := _beam_direction self; _energy := _energy self;
        _distance := _distance self; _outofplane_angle := _outofplane_angle self;
        _inplane_angle := _inplane_angle self; _tilt_angle := a;
        _rocking_angle := _rocking_angle self; _pixel_x := _pixel_x self;
        _pixel_y := _pixel_y self; instance_dict := instance_dict self |}.

Definition rocking_angle_setter (value : pyval) (self : instance) : result instance :=
  r ← rocking_angle_validate value;
  Ok {| kwargs_part := kwargs_part self; _beamline := _beamline self;
        _beam_direction := _beam_direction self; _energy := _energy self;
        _distance := _distance self; _outofplane_angle := _outofplane_angle self;
        _inplane_angle := _inplane_angle self; _tilt_angle := _tilt_angle self;
        _rocking_angle := r; _pixel_x := _pixel_x self;
        _pixel_y := _pixel_y self; instance_dict := instance_dict self |}.

Definition pixel_x_setter (value : pyval) (self : instance) : result instance :=
  p ← pixel_x_validate value;
  Ok {| kwargs_part := kwargs_part self; _beamline := _beamline self;
        _beam_direction := _beam_direction self; _energy := _energy self;
        _distance := _distance self; _outofplane_angle := _outofplane_angle self;
        _inplane_angle := _inplane_angle self; _tilt_angle := _tilt_angle self;
        _rocking_angle := _rocking_angle self; _pixel_x := p;
        _pixel_y := _pixel_y self; instance_dict := instance_dict self |}.

Definition pixel_y_setter (value : pyval) (self : instance) : result instance :=
  p ← pixel_y_validate value;
  Ok {| kwargs_part := kwargs_part self; _beamline := _beamline self;
        _beam_direction := _beam_direction self; _energy := _energy self;
        _distance := _distance self; _outofplane_angle := _outofplane_angle self;
        _inplane_angle := _inplane_angle self; _tilt_angle := _tilt_angle self;
        _rocking_angle := _rocking_angle self; _pixel_x := _pixel_x self;
        _pixel_y := p; instance_dict := instance_dict self |}.

(** [setup.name = value] for a name that is not a property of the class:
    Python stores it in the instance dictionary. *)
Definition setattr (name : string) (value : pyval) (self : instance) : instance :=
  {| kwargs_part := kwargs_part self; _beamline := _beamline self;
     _beam_direction := _beam_direction self; _energy := _energy self;
     _distance := _distance self; _outofplane_angle := _outofplane_angle self;
     _inplane_angle := _inplane_angle self; _tilt_angle := _tilt_angle self;
     _rocking_angle := _rocking_angle self; _pixel_x := _pixel_x self;
     _pixel_y := _pixel_y self;
     instance_dict := <[name := value]> (instance_dict self) |}.

(** [self.grazing_angle]: the class has neither a property nor an assignment
    of that name, so the lookup goes to the instance dictionary and raises
    [AttributeError] when the entry is missing. *)
Definition grazing_angle (self : instance) : result pyval :=
  match instance_dict self !! "grazing_angle"%string with
  | Some v => Ok v
  | None => Raise AttributeError
  end.

(** *** Read-only properties *)

Definition beamline (self : instance) : string := _beamline self.

Definition detector_hor (self : instance) : string :=
  if str_in (beamline self) ["ID01"; "SIXS_2018"; "SIXS_2019"; "CRISTAL"; "NANOMAX"]%string
  then "y+"%string
  else "y-"%string.

Definition detector_ver (self : instance) : string :=
  if str_in (beamline self)
       ["ID01"; "SIXS_2018"; "SIXS_2019"; "CRISTAL"; "NANOMAX"; "P10"; "34ID"]%string
  then "z-"%string
  else "z+"%string.

(** [wavelength]: [None] when the energy is unset (the function falls off
    its end). *)
Definition wavelength (self : instance) : option R :=
  match _energy self with
  | Some e => if truthy (PyNum e) then Some (12.398 * 1e-7 / e)%R else None
  | None => None
  end.

Definition inplane_coeff (self : instance) : result Z :=
  let hor_coeff := if String.eqb (detector_hor self) "y+" then 1%Z else (-1)%Z in
  let b := beamline self in
  if String.eqb b "SIXS_2018" || String.eqb b "SIXS_2019" then Ok (1 * hor_coeff)%Z
  else if String.eqb b "ID01" then Ok (-1 * hor_coeff)%Z
  else if String.eqb b "34ID" then Ok (1 * hor_coeff)%Z
  else if String.eqb b "P10" then Ok (1 * hor_coeff)%Z
  else if String.eqb b "CRISTAL" then Ok (1 * hor_coeff)%Z
  else if String.eqb b "NANOMAX" then Ok (-1 * hor_coeff)%Z
  else Raise ValueError.

Definition outofplane_coeff (self : instance) : Z :=
  let ver_coeff := if String.eqb (detector_ver self) "z+" then 1%Z else (-1)%Z in
  (-1 * ver_coeff)%Z.

(** *** The transfer matrix *)

Import np.
#[local] Open Scope R_scope.

(** [self.rocking_angle == name] *)
Definition rocking_is (rocking_angle : option string) (name : string) : bool :=
  match rocking_angle with
  | Some r => String.eqb r name
  | None => false
  end.

(** The matrix [mymatrix] of [update_coords]. All lengths are in nm and all
    angles in radians. Each beamline has its block of the source: given the
    matrix so far, the block assigns the three columns of the branch that is
    taken and leaves the matrix as it is when none is. *)

Section branches.

Variable rocking_angle : option string.
Variables mygrazing_angle inplane outofplane tilt distance pixel_x pixel_y lambdaz : R.
Variables nbz nby nbx : Z.

(** The block of lines 599 to 644: ESRF ID01, PSIC geometry. *)
Definition ID01_geometry (mymatrix : mat3) : mat3 :=
  if rocking_is rocking_angle "outofplane" then
    let mymatrix := set_col 0 (vscale (2 * pi * IZR nbx / lambdaz)
      (pixel_x * cos inplane,
       0,
       pixel_x * sin inplane)) mymatrix in
    let mymatrix := set_col 1 (vscale (2 * pi * IZR nby / lambdaz)
      (- pixel_y * sin inplane * sin outofplane,
       - pixel_y * cos outofplane,
       pixel_y * cos inplane * sin outofplane)) mymatrix in
    set_col 2 (vscale (2 * pi * IZR nbz / lambdaz)
      (0,
       tilt * distance * (1 - cos inplane * cos outofplane),
       tilt * distance * sin outofplane)) mymatrix
  else if rocking_is rocking_angle "inplane" && Reqb mygrazing_angle 0 then
    let mymatrix := set_col 0 (vscale (2 * pi * IZR nbx / lambdaz)
      (pixel_x * cos inplane,
       0,
       pixel_x * sin inplane)) mymatrix in
    let mymatrix := set_col 1 (vscale (2 * pi * IZR nby / lambdaz)
      (- pixel_y * sin inplane * sin outofplane,
       - pixel_y * cos outofplane,
       pixel_y * cos inplane * sin outofplane)) mymatrix in
    set_col 2 (vscale (2 * pi * IZR nbz / lambdaz)
      (- tilt * distance * (1 - cos inplane * cos outofplane),
       0,
       tilt * distance * sin inplane * cos outofplane)) mymatrix
  else if rocking_is rocking_angle "inplane" && negb (Reqb mygrazing_angle 0) then
    let mymatrix := set_col 0 (vscale (2 * pi * IZR nbx / lambdaz)
      (pixel_x * cos inplane,
       0,
       pixel_x * sin inplane)) mymatrix in
    let mymatrix := set_col 1 (vscale (2 * pi * IZR nby / lambdaz)
      (- pixel_y * sin inplane * sin outofplane,
       - pixel_y * cos outofplane,
       pixel_y * cos inplane * sin outofplane)) mymatrix in
    set_col 2 (vscale (2 * pi * IZR nbz / lambdaz * tilt * distance)
      (sin mygrazing_angle * sin outofplane +
         cos mygrazing_angle * (cos inplane * cos outofplane - 1),
       sin mygrazing_angle * sin inplane * cos outofplane,
       cos mygrazing_angle * sin inplane * cos outofplane)) mymatrix
  else mymatrix.

(** The block of lines 645 to 691: PETRA III P10. *)
Definition P10_geometry (mymatrix : mat3) : mat3 :=
  if rocking_is rocking_angle "outofplane" then
    let mymatrix := set_col 0 (vscale (2 * pi * IZR nbx / lambdaz)
      (- pixel_x * cos inplane,
       0,
       pixel_x * sin inplane)) mymatrix in
    let mymatrix := set_col 1 (vscale (2 * pi * IZR nby / lambdaz)
      (pixel_y * sin inplane * sin outofplane,
       - pixel_y * cos outofplane,
       pixel_y * cos inplane * sin outofplane)) mymatrix in
    set_col 2 (vscale (2 * pi * IZR nbz / lambdaz)
      (0,
       tilt * distance * (1 - cos inplane * cos outofplane),
       tilt * distance * sin outofplane)) mymatrix
  else if rocking_is rocking_angle "inplane" && Reqb mygrazing_angle 0 then
    let mymatrix := set_col 0 (vscale (2 * pi * IZR nbx / lambdaz)
      (- pixel_x * cos inplane,
       0,
       pixel_x * sin inplane)) mymatrix in
    let mymatrix := set_col 1 (vscale (2 * pi * IZR nby / lambdaz)
      (pixel_y * sin inplane * sin outofplane,
       - pixel_y * cos outofplane,
       pixel_y * cos inplane * sin outofplane)) mymatrix in
    set_col 2 (vscale (2 * pi * IZR nbz / lambdaz)
      (tilt * distance * (cos inplane * cos outofplane - 1),
       0,
       - tilt * distance * sin inplane * cos outofplane)) mymatrix
  else if rocking_is rocking_angle "inplane" && negb (Reqb mygrazing_angle 0) then
    let mymatrix := set_col 0 (vscale (2 * pi * IZR nbx / lambdaz)
      (- pixel_x * cos inplane,
       0,
       pixel_x * sin inplane)) mymatrix in
    let mymatrix := set_col 1 (vscale (2 * pi * IZR nby / lambdaz)
      (pixel_y * sin inplane * sin outofplane,
       - pixel_y * cos outofplane,
       pixel_y * cos inplane * sin outofplane)) mymatrix in
    set_col 2 (vscale (2 * pi * IZR nbz / lambdaz * tilt * distance)
      (sin mygrazing_angle * sin outofplane +
         cos mygrazing_angle * (cos inplane * cos outofplane - 1),
       - sin mygrazing_angle * sin inplane * cos outofplane,
       - cos mygrazing_angle * sin inplane * cos outofplane)) mymatrix
  else mymatrix.

(** The block of lines 693 to 738: NANOMAX. *)
Definition NANOMAX_geometry (mymatrix : mat3) : mat3 :=
  if rocking_is rocking_angle "outofplane" then
    let mymatrix := set_col 0 (vscale (2 * pi * IZR nbx / lambdaz)
      (pixel_x * cos inplane,
       0,
       pixel_x * sin inplane)) mymatrix in
    let mymatrix := set_col 1 (vscale (2 * pi * IZR nby / lambdaz)
      (pixel_y * sin inplane * sin outofplane,
       pixel_y * cos outofplane,
       - pixel_y * cos inplane * sin outofplane)) mymatrix in
    set_col 2 (vscale (2 * pi * IZR nbz / lambdaz)
      (0,
       tilt * distance * (1 - cos inplane * cos outofplane),
       tilt * distance * sin outofplane)) mymatrix
  else if rocking_is rocking_angle "inplane" && Reqb mygrazing_angle 0 then
    let mymatrix := set_col 0 (vscale (2 * pi * IZR nbx / lambdaz)
      (pixel_x * cos inplane,
       0,
       pixel_x * sin inplane)) mymatrix in
    let mymatrix := set_col 1 (vscale (2 * pi * IZR nby / lambdaz)
      (pixel_y * sin inplane * sin outofplane,
       pixel_y * cos outofplane,
       - pixel_y * cos inplane * sin outofplane)) mymatrix in
    set_col 2 (vscale (2 * pi * IZR nbz / lambdaz)
      (- tilt * distance * (1 - cos inplane * cos outofplane),
       0,
       tilt * distance * sin inplane * cos outofplane)) mymatrix
  else if rocking_is rocking_angle "inplane" && negb (Reqb mygrazing_angle 0) then
    let mymatrix := set_col 0 (vscale (2 * pi * IZR nbx / lambdaz)
      (pixel_x * cos inplane,
       0,
       pixel_x * sin inplane)) mymatrix in
    let mymatrix := set_col 1 (vscale (2 * pi * IZR nby / lambdaz)
      (pixel_y * sin inplane * sin outofplane,
       pixel_y * cos outofplane,
       - pixel_y * cos inplane * sin outofplane)) mymatrix in
    set_col 2 (vscale (2 * pi * IZR nbz / lambdaz * tilt * distance)
      (sin mygrazing_angle * sin outofplane +
         cos mygrazing_angle * (cos inplane * cos outofplane - 1),
       sin mygrazing_angle * sin inplane * cos outofplane,
       cos mygrazing_angle * sin inplane * cos outofplane)) mymatrix
  else mymatrix.

(** The block of lines 740 to 787: APS 34ID. *)
Definition APS_34ID_geometry (mymatrix : mat3) : mat3 :=
  if rocking_is rocking_angle "outofplane" then
    let mymatrix := set_col 0 (vscale (2 * pi * IZR nbx / lambdaz)
      (pixel_x * cos inplane,
       0,
       - pixel_x * sin inplane)) mymatrix in
    let mymatrix := set_col 1 (vscale (2 * pi * IZR nby / lambdaz)
      (pixel_y * sin inplane * sin outofplane,
       - pixel_y * cos outofplane,
       pixel_y * cos inplane * sin outofplane)) mymatrix in
    set_col 2 (vscale (2 * pi * IZR nbz / lambdaz)
      (0,
       - tilt * distance * (1 - cos inplane * cos outofplane),
       - tilt * distance * sin outofplane)) mymatrix
  else if rocking_is rocking_angle "inplane" && negb (Reqb mygrazing_angle 0) then
    let mymatrix := set_col 0 (vscale (2 * pi * IZR nbx / lambdaz)
      (pixel_x * cos inplane,
       0,
       - pixel_x * sin inplane)) mymatrix in
    let mymatrix := set_col 1 (vscale (2 * pi * IZR nby / lambdaz)
      (pixel_y * sin inplane * sin outofplane,
       - pixel_y * cos outofplane,
       pixel_y * cos inplane * sin outofplane)) mymatrix in
    set_col 2 (vscale (2 * pi * IZR nbz / lambdaz * tilt * distance)
      (sin mygrazing_angle * sin outofplane +
         cos mygrazing_angle * (1 - cos inplane * cos outofplane),
       - sin mygrazing_angle * sin inplane * cos outofplane,
       cos mygrazing_angle * sin inplane * cos outofplane)) mymatrix
  else if rocking_is rocking_angle "inplane" && Reqb mygrazing_angle 0 then
    let mymatrix := set_col 0 (vscale (2 * pi * IZR nbx / lambdaz)
      (pixel_x * cos inplane,
       0,
       - pixel_x * sin inplane)) mymatrix in
    let mymatrix := set_col 1 (vscale (2 * pi * IZR nby / lambdaz)
      (pixel_y * sin inplane * sin outofplane,
       - pixel_y * cos outofplane,
       pixel_y * cos inplane * sin outofplane)) mymatrix in
    set_col 2 (vscale (2 * pi * IZR nbz / lambdaz)
      (tilt * distance * (1 - cos inplane * cos outofplane),
       0,
       tilt * distance * sin inplane * cos outofplane)) mymatrix
  else mymatrix.

(** The block of lines 788 to 824: SIXS (2018 and 2019). *)
Definition SIXS_geometry (mymatrix : mat3) : mat3 :=
  if rocking_is rocking_angle "inplane" && negb (Reqb mygrazing_angle 0) then
    let mymatrix := set_col 0 (vscale (2 * pi * IZR nbx / lambdaz * pixel_x)
      (cos inplane,
       - sin mygrazing_angle * sin inplane,
       - cos mygrazing_angle * sin inplane)) mymatrix in
    let mymatrix := set_col 1 (vscale (2 * pi * IZR nby / lambdaz * pixel_y)
      (sin inplane * sin outofplane,
       sin mygrazing_angle * cos inplane * sin outofplane
         - cos mygrazing_angle * cos outofplane,
       cos mygrazing_angle * cos inplane * sin outofplane
         + sin mygrazing_angle * cos outofplane)) mymatrix in
    set_col 2 (vscale (2 * pi * IZR nbz / lambdaz * tilt * distance)
      (cos mygrazing_angle - cos inplane * cos outofplane,
       sin mygrazing_angle * sin inplane * cos outofplane,
       cos mygrazing_angle * sin inplane * cos outofplane)) mymatrix
  else if rocking_is rocking_angle "inplane" && Reqb mygrazing_angle 0 then
    let mymatrix := set_col 0 (vscale (2 * pi * IZR nbx / lambdaz)
      (pixel_x * cos inplane,
       0,
       - pixel_x * sin inplane)) mymatrix in
    let mymatrix := set_col 1 (vscale (2 * pi * IZR nby / lambdaz)
      (pixel_y * sin inplane * sin outofplane,
       - pixel_y * cos outofplane,
       pixel_y * cos inplane * sin outofplane)) mymatrix in
    set_col 2 (vscale (2 * pi * IZR nbz / lambdaz)
      (tilt * distance * (1 - cos inplane * cos outofplane),
       0,
       tilt * distance * sin inplane * cos outofplane)) mymatrix
  else mymatrix.

(** The block of lines 825 to 841: CRISTAL. *)
Definition CRISTAL_geometry (mymatrix : mat3) : mat3 :=
  if rocking_is rocking_angle "outofplane" then
    let mymatrix := set_col 0 (vscale (2 * pi * IZR nbx / lambdaz)
      (pixel_x * cos inplane,
       0,
       - pixel_x * sin inplane)) mymatrix in
    let mymatrix := set_col 1 (vscale (2 * pi * IZR nby / lambdaz)
      (pixel_y * sin inplane * sin outofplane,
       - pixel_y * cos outofplane,
       pixel_y * cos inplane * sin outofplane)) mymatrix in
    set_col 2 (vscale (2 * pi * IZR nbz / lambdaz)
      (0,
       tilt * distance * (1 - cos inplane * cos outofplane),
       tilt * distance * sin outofplane)) mymatrix
  else mymatrix.

(** [mymatrix] just before the inversion: zeros, then the blocks in the
    order of the source, each under its test of the beamline. *)
Definition mymatrix (beamline : string) : mat3 :=
  let mymatrix := zeros33 in
  let mymatrix :=
    if String.eqb beamline "ID01" then ID01_geometry mymatrix else mymatrix in
  let mymatrix :=
    if String.eqb beamline "P10" then P10_geometry mymatrix else mymatrix in
  let mymatrix :=
    if String.eqb beamline "NANOMAX" then NANOMAX_geometry mymatrix else mymatrix in
  let mymatrix :=
    if String.eqb beamline "34ID" then APS_34ID_geometry mymatrix else mymatrix in
  let mymatrix :=
    if String.eqb beamline "SIXS_2018" || String.eqb beamline "SIXS_2019"
    then SIXS_geometry mymatrix else mymatrix in
  let mymatrix :=
    if String.eqb beamline "CRISTAL" then CRISTAL_geometry mymatrix else mymatrix in
  mymatrix.

End branches.

(** [x * 1e9] for an attribute or argument that may be [None]. *)
Definition times_1e9 (x : option R) : result R :=
  match x with
  | Some v => Ok (v * 1e9)
  | None => Raise TypeError
  end.

(** [np.radians(x)] for an attribute or argument that may be [None]. *)
Definition radians_opt (x : option R) : result R :=
  match x with
  | Some v => Ok (radians v)
  | None => Raise TypeError
  end.

(** [np.radians(v)] for an object: a number is converted, anything else is
    taken to be rejected with [TypeError] (numpy would turn a sequence of
    numbers into an array; such values are outside the model). *)
Definition radians_obj (v : pyval) : result R :=
  match as_number v with
  | Some x => Ok (radians x)
  | None => Raise TypeError
  end.

(** [nbz, nby, nbx = array_shape] *)
Definition unpack3 (array_shape : list Z) : result (Z * Z * Z) :=
  match array_shape with
  | [nbz; nby; nbx] => Ok (nbz, nby, nbx)
  | _ => Raise ValueError
  end.

(** The values computed by lines 586 to 597 of [update_coords], in the order
    of the source: the first statement that fails decides the exception. *)
Record coords_inputs : Type := {
  ci_wavelength : R;
  ci_distance : R;
  ci_pixel_x : R;
  ci_pixel_y : R;
  ci_outofplane : R;
  ci_inplane : R;
  ci_mygrazing_angle : R;
  ci_tilt : R;
  ci_shape : Z * Z * Z
}.

Definition update_coords_inputs (self : instance) (array_shape : list Z)
    (tilt_angle pixel_x pixel_y : option R) : result coords_inputs :=
  wavelength ← times_1e9 (wavelength self);
  distance ← times_1e9 (_distance self);
  pixel_x ← times_1e9 pixel_x;
  pixel_y ← times_1e9 pixel_y;
  outofplane ← radians_opt (_outofplane_angle self);
  inplane ← radians_opt (_inplane_angle self);
  g ← grazing_angle self;
  mygrazing_angle ← radians_obj g;
  tilt ← radians_opt tilt_angle;
  shape ← unpack3 array_shape;
  Ok {| ci_wavelength := wavelength; ci_distance := distance;
        ci_pixel_x := pixel_x; ci_pixel_y := pixel_y;
        ci_outofplane := outofplane; ci_inplane := inplane;
        ci_mygrazing_angle := mygrazing_angle; ci_tilt := tilt;
        ci_shape := shape |}.

(** [mymatrix] as [update_coords] has it just before the inversion. *)
Definition mymatrix_of (self : instance) (i : coords_inputs) : mat3 :=
  let '(nbz, nby, nbx) := ci_shape i in
  let lambdaz := ci_wavelength i * ci_distance i in
  mymatrix (_rocking_angle self) (ci_mygrazing_angle i)
           (ci_inplane i) (ci_outofplane i) (ci_tilt i) (ci_distance i)
           (ci_pixel_x i) (ci_pixel_y i) lambdaz nbz nby nbx (beamline self).

(** The last statement of [update_coords], and the map that [voxel_sizes]
    applies again: [2 * np.pi * np.linalg.inv(m).transpose()]. *)
Definition two_pi_inv_transpose (m : mat3) : result mat3 :=
  inv ← linalg_inv m;
  Ok (mscale (2 * pi) (transpose inv)).

(** [Setup.update_coords] *)
Definition update_coords (self : instance) (array_shape : list Z)
    (tilt_angle pixel_x pixel_y : option R) : result mat3 :=
  i ← update_coords_inputs self array_shape tilt_angle pixel_x pixel_y;
  two_pi_inv_transpose (mymatrix_of self i).

(** Lines 862 to 872 of [voxel_sizes]: the voxel sizes derived from a
    transfer matrix. *)
Definition voxel_sizes_from (transfer_matrix : mat3) : result (R * R * R) :=
  rec_matrix ← two_pi_inv_transpose transfer_matrix;
  let qx_range := linalg_norm (row 0 rec_matrix) in
  let qy_range := linalg_norm (row 1 rec_matrix) in
  let qz_range := linalg_norm (row 2 rec_matrix) in
  Ok (2 * pi / qz_range, 2 * pi / qy_range, 2 * pi / qx_range).

(** [Setup.voxel_sizes]: [(voxel_z, voxel_y, voxel_x)] in nm. The shape is a
    tuple or list by its type; the assertion checks its length. *)
Definition voxel_sizes (self : instance) (array_shape : list Z)
    (tilt_angle pixel_x pixel_y : option R) : result (R * R * R) :=
  _ ← assert (Nat.eqb (length array_shape) 3);
  transfer_matrix ← update_coords self array_shape tilt_angle pixel_x pixel_y;
  voxel_sizes_from transfer_matrix.

(** [Setup.orthogonalize_vector]: [vector] is [(z, y, x)]. *)
Definition orthogonalize_vector (self : instance) (vector : vec3) (array_shape : list Z)
    (tilt_angle pixel_x pixel_y : option R) : result vec3 :=
  _ ← assert (Nat.eqb (length array_shape) 3);
  ortho_matrix ← update_coords self array_shape tilt_angle pixel_x pixel_y;
  ortho_imatrix ← linalg_inv ortho_matrix;
  let '(v0, v1, v2) := vector in
  let '(new_x, new_y, new_z) := mat_vec ortho_imatrix (v2, v1, v0) in
  Ok (new_z, new_y, new_x).


(** *** Resampling between the detector frame and the laboratory frame *)

(** [np.arange(-n // 2, n // 2, 1)], the axis written on lines 420-422,
    429-431, 524-526 and 538-539 for each of [nbz], [nby], [nbx]; [//]
    binds tighter than the unary minus applies to the quotient: the first
    bound is the floor of [(-n) / 2]. *)
Definition centered_range (n : nat) : list Z :=
  arange (- Z.of_nat n / 2)%Z (Z.of_nat n / 2)%Z.

(** The axis scaled by a voxel size. *)
Definition scaled_range (n : nat) (voxel : R) : list R :=
  map (fun i => IZR i * voxel) (centered_range n).

(** The axis as floats. *)
Definition float_range (n : nat) : list R :=
  map IZR (centered_range n).

(** [nbz, nby, nbx = obj.shape] *)
Definition unpack_shape (shp : list nat) : result (nat * nat * nat) :=
  match shp with
  | [nbz; nby; nbx] => Ok (nbz, nby, nbx)
  | _ => Raise ValueError
  end.

(** [all(val > 0 for val in voxel_size)]: comparing a non-number with 0
    raises [TypeError]. *)
Fixpoint all_positive (l : list pyval) : result bool :=
  match l with
  | [] => Ok true
  | v :: l' =>
    match as_number v with
    | None => Raise TypeError
    | Some x => if Rltb 0 x then all_positive l' else Ok false
    end
  end.

(** The assertion on a [voxel_size] given as a sequence:
    [isinstance(voxel_size, (tuple, list)) and len(voxel_size) == 3 and
    all(val > 0 for val in voxel_size)]. *)
Definition voxel_size_assert (voxel_size : pyval) : result vec3 :=
  match as_sequence voxel_size with
  | None => Raise AssertionError
  | Some l =>
    if Nat.eqb (length l) 3 then
      ok ← all_positive l;
      match all_numbers l with
      | Some [a; b; c] => if (ok : bool) then Ok (a, b, c) else Raise AssertionError
      | _ => Raise AssertionError
      end
    else Raise AssertionError
  end.

(** [abs(x)] for an attribute that may be [None]. *)
Definition abs_opt (x : option R) : result R :=
  match x with
  | Some v => Ok (Rabs v)
  | None => Raise TypeError
  end.

(** [x * n / m] for an attribute [x] that may be [None] and integers [n],
    [m]. *)
Definition rescale (x : option R) (n : Z) (m : nat) : result R :=
  match x with
  | None => Raise TypeError
  | Some v => if Nat.eqb m 0 then Raise ZeroDivisionError
              else Ok (v * IZR n / INR m)
  end.

(** The sampling coordinates [(new_z, new_y, new_x)] of a grid point
    [(myz, myy, myx)] under a matrix, as lines 424-426 and 532-534 compute
    them. *)
Definition new_coordinates (matrix : mat3) (p : vec3) : vec3 :=
  let '(myz, myy, myx) := p in
  let '(new_x, new_y, new_z) := mat_vec matrix (myx, myy, myz) in
  (new_z, new_y, new_x).

(** The interpolator that [RegularGridInterpolator(axes, obj,
    method='linear', bounds_error=False, fill_value=0)] returns when it
    accepts its arguments. *)
Definition interpolator (axes : list R * list R * list R) (obj : ndarray complex)
    : scipy.RegularGridInterpolator :=
  {| scipy.grid := axes;
     scipy.values := match dtype_of obj with
                     | int64 => astype float64 obj
                     | _ => obj
                     end;
     scipy.bounds_error := false;
     scipy.fill_value := Some czero |}.

(** The interpolation that ends both [orthogonalize] (lines 538 to 543) and
    [detector_frame] (lines 429 to 435): an interpolator on the axes [axes]
    over [obj], linear, with [bounds_error=False] and [fill_value=0], called
    on the sampling coordinates; the result reshaped to the shape of [obj]
    and converted to its element type. *)
Definition interpolate (obj : ndarray complex) (nbz nby nbx : nat)
    (axes : list R * list R * list R) (new_zyx : list vec3) : result (ndarray complex) :=
  rgi ← scipy.RegularGridInterpolator_init axes obj false (Some czero);
  out ← scipy.call rgi new_zyx;
  out ← reshape [nbz; nby; nbx] out;
  Ok (astype (dtype_of obj) out).

(** [Setup.orthogonalize]: the resampled object and the voxel size used.
    [initial_shape] is [None] or a tuple or list of integers, [voxel_size]
    any object. *)
Definition orthogonalize (self : instance) (obj : ndarray complex)
    (initial_shape : option (list Z)) (voxel_size : pyval)
    (kwargs : gmap string pyval) : result (ndarray complex * vec3) :=
  _ ← check_kwargs ["title"%string] kwargs;
  initial_shape ←
    match initial_shape with
    | None | Some [] => Ok (map Z.of_nat (shape obj))
    | Some l => _ ← assert (Nat.eqb (length l) 3); Ok l
    end;
  abs_tilt ← abs_opt (_tilt_angle self);
  realspace ← voxel_sizes self initial_shape (Some abs_tilt) (_pixel_x self) (_pixel_y self);
  '(nbz, nby, nbx) ← unpack_shape (shape obj);
  '(realspace, tilt, pixel_y, pixel_x) ←
    (if negb (Z.eqb (Z.of_nat nbz) (nth 0 initial_shape 0%Z))
        || negb (Z.eqb (Z.of_nat nby) (nth 1 initial_shape 0%Z))
        || negb (Z.eqb (Z.of_nat nbx) (nth 2 initial_shape 0%Z))
     then
       tilt ← rescale (_tilt_angle self) (nth 0 initial_shape 0%Z) nbz;
       pixel_y ← rescale (_pixel_y self) (nth 1 initial_shape 0%Z) nby;
       pixel_x ← rescale (_pixel_x self) (nth 2 initial_shape 0%Z) nbx;
       realspace ← voxel_sizes self [Z.of_nat nbz; Z.of_nat nby; Z.of_nat nbx]
                     (Some (Rabs tilt)) (Some pixel_x) (Some pixel_y);
       Ok (realspace, Some tilt, Some pixel_y, Some pixel_x)
     else Ok (realspace, _tilt_angle self, _pixel_y self, _pixel_x self));
  voxel_size ←
    (if negb (truthy voxel_size) then Ok realspace else voxel_size_assert voxel_size);
  ortho_matrix ← update_coords self [Z.of_nat nbz; Z.of_nat nby; Z.of_nat nbx]
                   tilt pixel_x pixel_y;
  let '(voxel_z, voxel_y, voxel_x) := voxel_size in
  let mesh := meshgrid_ij (scaled_range nbz voxel_z) (scaled_range nby voxel_y)
                          (scaled_range nbx voxel_x) in
  ortho_imatrix ← linalg_inv ortho_matrix;
  let new_zyx := map (new_coordinates ortho_imatrix) mesh in
  ortho_obj ← interpolate obj nbz nby nbx
                (float_range nbz, float_range nby, float_range nbx) new_zyx;
  Ok (ortho_obj, voxel_size).

(** [Setup.detector_frame] *)
Definition detector_frame (self : instance) (obj : ndarray complex)
    (voxel_size : pyval) (kwargs : gmap string pyval) : result (ndarray complex) :=
  voxel_size ←
    match as_number voxel_size with
    | Some v => Ok (v, v, v)
    | None => voxel_size_assert voxel_size
    end;
  _ ← check_kwargs ["title"%string] kwargs;
  '(nbz, nby, nbx) ← unpack_shape (shape obj);
  ortho_matrix ← update_coords self [Z.of_nat nbz; Z.of_nat nby; Z.of_nat nbx]
                   (_tilt_angle self) (_pixel_x self) (_pixel_y self);
  let mesh := meshgrid_ij (float_range nbz) (float_range nby) (float_range nbx) in
  let new_zyx := map (new_coordinates ortho_matrix) mesh in
  let '(voxel_z, voxel_y, voxel_x) := voxel_size in
  interpolate obj nbz nby nbx
    (scaled_range nbz voxel_z, scaled_range nby voxel_y, scaled_range nbx voxel_x)
    new_zyx.

(** *** Wavevector and voxel sizes in the detector frame *)

(** [beam_direction_xrutils]: [(u, v, w)] is (downstream, vertical up,
    outboard); xrayutilities wants (downstream, outboard, vertical up). *)
Definition beam_direction_xrutils (self : instance) : vec3 :=
  let '(u, v, w) := _beam_direction self in (u, w, v).

(** [a / b] on Python floats: a zero divisor raises [ZeroDivisionError]. *)
Definition truediv (a b : R) : result R :=
  if Reqb b 0 then Raise ZeroDivisionError else Ok (a / b).

(** An attribute or argument used as a number: [None] in arithmetic raises
    [TypeError]. *)
Definition number (x : option R) : result R :=
  match x with
  | Some v => Ok v
  | None => Raise TypeError
  end.

(** [2 * np.pi / self.wavelength * np.array([z, y, x])] with the in-plane
    rotation anti-clockwise: the [x] component is
    [sin(inplane) * cos(outofplane)]. *)
Definition kout_anticlockwise (self : instance) : result vec3 :=
  wavelength ← number (wavelength self);
  k ← truediv (2 * pi) wavelength;
  inplane_angle ← number (_inplane_angle self);
  outofplane_angle ← number (_outofplane_angle self);
  Ok (vscale k
        (cos (pi * inplane_angle / 180) * cos (pi * outofplane_angle / 180),
         sin (pi * outofplane_angle / 180),
         sin (pi * inplane_angle / 180) * cos (pi * outofplane_angle / 180))).

(** The same with the in-plane rotation clockwise: the [x] component is
    [-sin(inplane) * cos(outofplane)]. *)
Definition kout_clockwise (self : instance) : result vec3 :=
  wavelength ← number (wavelength self);
  k ← truediv (2 * pi) wavelength;
  inplane_angle ← number (_inplane_angle self);
  outofplane_angle ← number (_outofplane_angle self);
  Ok (vscale k
        (cos (pi * inplane_angle / 180) * cos (pi * outofplane_angle / 180),
         sin (pi * outofplane_angle / 180),
         - sin (pi * inplane_angle / 180) * cos (pi * outofplane_angle / 180))).

(** [Setup.exit_wavevector]: [kout] as [(z, y, x)] in the laboratory frame,
    the beamlines tested in the order of the source. *)
Definition exit_wavevector (self : instance) : result vec3 :=
  let b := beamline self in
  if String.eqb b "SIXS_2018" || String.eqb b "SIXS_2019" then kout_anticlockwise self
  else if String.eqb b "ID01" then kout_clockwise self
  else if String.eqb b "34ID" then kout_anticlockwise self
  else if String.eqb b "NANOMAX" then kout_clockwise self
  else if String.eqb b "P10" then kout_anticlockwise self
  else if String.eqb b "CRISTAL" then kout_anticlockwise self
  else Raise ValueError.

(** [array_shape[k]] *)
Definition getitem (array_shape : list Z) (k : nat) : result Z :=
  match array_shape !! k with
  | Some n => Ok n
  | None => Raise IndexError
  end.

(** [Setup.voxel_sizes_detector]: [(voxel_z, voxel_y, voxel_x)] in nm. In
    each of the three statements the operands are evaluated from left to
    right and the division comes last but for the factor [1e9]. *)
Definition voxel_sizes_detector (self : instance) (array_shape : list Z)
    (tilt_angle pixel_x pixel_y : option R) : result (R * R * R) :=
  n0 ← getitem array_shape 0;
  abs_tilt ← abs_opt tilt_angle;
  wavelength_z ← number (wavelength self);
  qz ← truediv wavelength_z (IZR n0 * abs_tilt * pi / 180);
  let voxel_z := qz * 1e9 in
  wavelength_y ← number (wavelength self);
  distance_y ← number (_distance self);
  n1 ← getitem array_shape 1;
  pixel_y ← number pixel_y;
  qy ← truediv (wavelength_y * distance_y) (IZR n1 * pixel_y);
  let voxel_y := qy * 1e9 in
  wavelength_x ← number (wavelength self);
  distance_x ← number (_distance self);
  n2 ← getitem array_shape 2;
  pixel_x ← number pixel_x;
  qx ← truediv (wavelength_x * distance_x) (IZR n2 * pixel_x);
  let voxel_x := qx * 1e9 in
  Ok (voxel_z, voxel_y, voxel_x).

End Setup.

(** ** class SetupPostprocessing

    The deprecated sibling of [Setup]. Its constructor stores its arguments
    as they come, without validation, the grazing angle among them; the
    arguments are taken at the types of the docstring (strings and
    numbers). Lines 1234 to 1504 of its [update_coords] are those of
    [Setup.update_coords] (lines 575 to 845) word for word, the branches on
    the beamline included, so the matrix is [Setup.mymatrix]. *)

Module SetupPostprocessing.
Import np.
#[local] Open Scope R_scope.

Record instance : Type := {
  beamline : string;
  energy : R;
  wavelength : R;
  outofplane_angle : R;
  inplane_angle : R;
  tilt_angle : R;
  rocking_angle : string;
  grazing_angle : R;
  distance : R;
  pixel_x : R;
  pixel_y : R;
  detector_hor : string;
  detector_ver : string
}.

(** The defaults of the parameters [grazing_angle], [pixel_x], [pixel_y]. *)
Definition default_grazing_angle : R := 0.
Definition default_pixel_x : R := 55e-6.
Definition default_pixel_y : R := 55e-6.

(** [SetupPostprocessing.__init__]: the wavelength is computed at once, so
    an energy of zero raises [ZeroDivisionError]. *)
Definition __init__ (beamline : string)
    (energy outofplane_angle inplane_angle tilt_angle : R) (rocking_angle : string)
    (distance grazing_angle pixel_x pixel_y : R) : result instance :=
  wavelength ← Setup.truediv (12.398 * 1e-7) energy;
  Ok {| beamline := beamline;
        energy := energy;
        wavelength := wavelength;
        outofplane_angle := outofplane_angle;
        inplane_angle := inplane_angle;
        tilt_angle := tilt_angle;
        rocking_angle := rocking_angle;
        grazing_angle := grazing_angle;
        distance := distance;
        pixel_x := pixel_x;
        pixel_y := pixel_y;
        detector_hor :=
          if Setup.str_in beamline
               ["ID01"; "SIXS_2018"; "SIXS_2019"; "CRISTAL"; "NANOMAX"]%string
          then "y+"%string else "y-"%string;
        detector_ver := "z-"%string |}.

(** [mymatrix] just before the inversion, from the values of lines 1245 to
    1256. *)
Definition mymatrix_of (self : instance) (array_shape : Z * Z * Z)
    (tilt_angle pixel_x pixel_y : R) : mat3 :=
  let wavelength := wavelength self * 1e9 in
  let distance := distance self * 1e9 in
  let pixel_x := pixel_x * 1e9 in
  let pixel_y := pixel_y * 1e9 in
  let outofplane := radians (outofplane_angle self) in
  let inplane := radians (inplane_angle self) in
  let mygrazing_angle := radians (grazing_angle self) in
  let lambdaz := wavelength * distance in
  let tilt := radians tilt_angle in
  let '(nbz, nby, nbx) := array_shape in
  Setup.mymatrix (Some (rocking_angle self)) mygrazing_angle inplane outofplane tilt
    distance pixel_x pixel_y lambdaz nbz nby nbx (beamline self).

(** [SetupPostprocessing.update_coords] *)
Definition update_coords (self : instance) (array_shape : list Z)
    (tilt_angle pixel_x pixel_y : R) : result mat3 :=
  shape ← Setup.unpack3 array_shape;
  Setup.two_pi_inv_transpose (mymatrix_of self shape tilt_angle pixel_x pixel_y).

(** [SetupPostprocessing.voxel_sizes]: as [Setup.voxel_sizes] without the
    assertion on the shape. *)
Definition voxel_sizes (self : instance) (array_shape : list Z)
    (tilt_angle pixel_x pixel_y : R) : result (R * R * R) :=
  transfer_matrix ← update_coords self array_shape tilt_angle pixel_x pixel_y;
  Setup.voxel_sizes_from transfer_matrix.

End SetupPostprocessing.

(** ** class Detector *)

Module Detector.
Import np.

(** Of a detector, [mask_detector] reads the name only. *)
Record instance : Type := {
  name : string
}.

(** The sensor size [(nb_pixel_y, nb_pixel_x)] that [__init__] gives a
    detector model when no other size is requested. *)
Definition sensor_shape (name : string) : option (nat * nat) :=
  if String.eqb name "Maxipix" then Some (516, 516)%nat
  else if String.eqb name "Eiger2M" then Some (2164, 1030)%nat
  else if String.eqb name "Eiger4M" then Some (2167, 2070)%nat
  else if String.eqb name "Timepix" then Some (256, 256)%nat
  else if String.eqb name "Merlin" then Some (515, 515)%nat
  else None.

(** *** Arrays as mutable objects

    [mask_detector] assigns into its arguments in place. Arrays live in a
    store and are passed by address, so that two arguments may be one and
    the same array. *)

Definition loc : Set := nat.

Definition deref (l : loc) (h : gmap nat (ndarray R)) : result (ndarray R) :=
  match h !! l with
  | Some a => Ok a
  | None => Raise AssertionError
  end.

(** A new array object. *)
Definition alloc (a : ndarray R) (h : gmap nat (ndarray R)) : loc * gmap nat (ndarray R) :=
  let l := fresh (dom h) in (l, <[l := a]> h).

(** One index of a subscript: a slice [start:stop] with optional bounds, or
    an integer. *)
Inductive index : Set :=
| Slice (start stop : option Z)
| Int (i : Z).

(** The half-open range of positions [lo, hi) that an index selects on an
    axis of length [n]: slice bounds are counted from the end when negative
    and clipped to the axis; an integer out of range raises [IndexError]. *)
Definition index_range (n : nat) (ix : index) : result (nat * nat) :=
  let len := Z.of_nat n in
  let clip v := if (v <? 0)%Z then Z.max 0 (v + len) else Z.min v len in
  match ix with
  | Slice start stop =>
    Ok (Z.to_nat (clip (default 0%Z start)), Z.to_nat (clip (default len stop)))
  | Int i =>
    let j := if (i <? 0)%Z then (i + len)%Z else i in
    if (0 <=? j)%Z && (j <? len)%Z then Ok (Z.to_nat j, S (Z.to_nat j))
    else Raise IndexError
  end.

Definition in_range (k : nat) (r : nat * nat) : bool :=
  Nat.leb (fst r) k && Nat.ltb k (snd r).

(** [a[rows, cols] = v] on a 2D array. *)
Definition setitem2 (rows cols : index) (v : R) (a : ndarray R) : result (ndarray R) :=
  match shape a with
  | [nr; nc] =>
    rr ← index_range nr rows;
    cr ← index_range nc cols;
    Ok {| shape := shape a; dtype_of := dtype_of a;
          flat := imap (fun k x => if in_range (k / nc) rr && in_range (k mod nc) cr
                                   then v else x) (flat a) |}
  | _ => Raise IndexError
  end.

(** [a[cond] = v] for a boolean array [cond] of the shape of [a]. *)
Definition setitem_where (cond : list bool) (v : R) (a : ndarray R) : ndarray R :=
  {| shape := shape a; dtype_of := dtype_of a;
     flat := zip_with (fun (c : bool) x => if c then v else x) cond (flat a) |}.

(** [h[target][rows, cols] = v] *)
Definition store_setitem2 (target : loc) (rows cols : index) (v : R)
    (h : gmap nat (ndarray R)) : result (gmap nat (ndarray R)) :=
  a ← deref target h;
  a' ← setitem2 rows cols v a;
  Ok (<[target := a']> h).

(** [target[source > threshold] = v], [source] read when the statement
    runs. *)
Definition store_set_above (target source : loc) (threshold v : R)
    (h : gmap nat (ndarray R)) : result (gmap nat (ndarray R)) :=
  s ← deref source h;
  a ← deref target h;
  Ok (<[target := setitem_where (map (fun x => Rltb threshold x) (flat s)) v a]> h).

(** [target[source == 1] = v] *)
Definition store_set_equal1 (target source : loc) (v : R)
    (h : gmap nat (ndarray R)) : result (gmap nat (ndarray R)) :=
  s ← deref source h;
  a ← deref target h;
  Ok (<[target := setitem_where (map (fun x => Reqb x 1) (flat s)) v a]> h).

Definition result_type (a b : dtype) : dtype :=
  match a, b with
  | complex128, _ | _, complex128 => complex128
  | float64, _ | _, float64 => float64
  | int64, int64 => int64
  end.

(** Element-wise [f(a, b)] of two arrays of one shape: a new array. *)
Definition elementwise (f : R → R → R) (a b : ndarray R) : ndarray R :=
  {| shape := shape b; dtype_of := result_type (dtype_of a) (dtype_of b);
     flat := zip_with f (flat a) (flat b) |}.

Definition shape_eqb (s1 s2 : list nat) : bool :=
  bool_decide (s1 = s2).

(** Slices as they are written in the source. *)
Definition all_ : index := Slice None None.
Definition sl (a b : Z) : index := Slice (Some a) (Some b).
Definition upto (b : Z) : index := Slice None (Some b).
Definition from (a : Z) : index := Slice (Some a) None.

(** The assignments of the branch [self.name == 'Eiger2M'], lines 1784 to
    1816, in the order of the source. *)
Definition mask_Eiger2M (data mask : loc) (nb_img : R)
    (h : gmap nat (ndarray R)) : result (gmap nat (ndarray R)) :=
  h ← store_setitem2 data all_ (sl 255 259) 0 h;
  h ← store_setitem2 data all_ (sl 513 517) 0 h;
  h ← store_setitem2 data all_ (sl 771 775) 0 h;
  h ← store_setitem2 data (sl 0 257) (sl 72 80) 0 h;
  h ← store_setitem2 data (sl 255 259) all_ 0 h;
  h ← store_setitem2 data (sl 511 552) (upto 0) 0 h;
  h ← store_setitem2 data (sl 804 809) all_ 0 h;
  h ← store_setitem2 data (sl 1061 1102) all_ 0 h;
  h ← store_setitem2 data (sl 1355 1359) all_ 0 h;
  h ← store_setitem2 data (sl 1611 1652) all_ 0 h;
  h ← store_setitem2 data (sl 1905 1909) all_ 0 h;
  h ← store_setitem2 data (sl 1248 1290) (Int 478) 0 h;
  h ← store_setitem2 data (sl 1214 1298) (Int 481) 0 h;
  h ← store_setitem2 data (sl 1649 1910) (sl 620 628) 0 h;
  h ← store_setitem2 mask all_ (sl 255 259) 1 h;
  h ← store_setitem2 mask all_ (sl 513 517) 1 h;
  h ← store_setitem2 mask all_ (sl 771 775) 1 h;
  h ← store_setitem2 mask (sl 0 257) (sl 72 80) 1 h;
  h ← store_setitem2 mask (sl 255 259) all_ 1 h;
  h ← store_setitem2 mask (sl 511 552) all_ 1 h;
  h ← store_setitem2 mask (sl 804 809) all_ 1 h;
  h ← store_setitem2 mask (sl 1061 1102) all_ 1 h;
  h ← store_setitem2 mask (sl 1355 1359) all_ 1 h;
  h ← store_setitem2 mask (sl 1611 1652) all_ 1 h;
  h ← store_setitem2 mask (sl 1905 1909) all_ 1 h;
  h ← store_setitem2 mask (sl 1248 1290) (Int 478) 1 h;
  h ← store_setitem2 mask (sl 1214 1298) (Int 481) 1 h;
  h ← store_setitem2 mask (sl 1649 1910) (sl 620 628) 1 h;
  h ← store_set_above mask data (1e6 * nb_img) 1 h;
  store_set_above data data (1e6 * nb_img) 0 h.

(** The branch [self.name == 'Eiger4M']. *)
Definition mask_Eiger4M (data mask : loc) (nb_img : R)
    (h : gmap nat (ndarray R)) : result (gmap nat (ndarray R)) :=
  h ← store_setitem2 data all_ (sl 0 1) 0 h;
  h ← store_setitem2 data all_ (from (-1)) 0 h;
  h ← store_setitem2 data (sl 0 1) all_ 0 h;
  h ← store_setitem2 data (from (-1)) all_ 0 h;
  h ← store_setitem2 data all_ (sl 1030 1040) 0 h;
  h ← store_setitem2 data (sl 514 551) all_ 0 h;
  h ← store_setitem2 data (sl 1065 1102) all_ 0 h;
  h ← store_setitem2 data (sl 1616 1653) all_ 0 h;
  h ← store_setitem2 mask all_ (sl 0 1) 1 h;
  h ← store_setitem2 mask all_ (from (-1)) 1 h;
  h ← store_setitem2 mask (sl 0 1) all_ 1 h;
  h ← store_setitem2 mask (from (-1)) all_ 1 h;
  h ← store_setitem2 mask all_ (sl 1030 1040) 1 h;
  h ← store_setitem2 mask (sl 514 551) all_ 1 h;
  h ← store_setitem2 mask (sl 1065 1102) all_ 1 h;
  h ← store_setitem2 mask (sl 1616 1653) all_ 1 h;
  h ← store_set_above mask data (4000000000 * nb_img) 1 h;
  store_set_above data data (4000000000 * nb_img) 0 h.

(** The branch [self.name == 'Maxipix']. *)
Definition mask_Maxipix (data mask : loc) (nb_img : R)
    (h : gmap nat (ndarray R)) : result (gmap nat (ndarray R)) :=
  h ← store_setitem2 data all_ (sl 255 261) 0 h;
  h ← store_setitem2 data (sl 255 261) all_ 0 h;
  h ← store_setitem2 mask all_ (sl 255 261) 1 h;
  h ← store_setitem2 mask (sl 255 261) all_ 1 h;
  h ← store_set_above mask data (1e6 * nb_img) 1 h;
  store_set_above data data (1e6 * nb_img) 0 h.

(** The branch [self.name == 'Merlin']. *)
Definition mask_Merlin (data mask : loc) (nb_img : R)
    (h : gmap nat (ndarray R)) : result (gmap nat (ndarray R)) :=
  h ← store_setitem2 data all_ (sl 255 260) 0 h;
  h ← store_setitem2 data (sl 255 260) all_ 0 h;
  h ← store_setitem2 mask all_ (sl 255 260) 1 h;
  h ← store_setitem2 mask (sl 255 260) all_ 1 h;
  h ← store_set_above mask data (1e6 * nb_img) 1 h;
  store_set_above data data (1e6 * nb_img) 0 h.

(** The check of an optional array against the shape of the data. *)
Definition same_shape_or_ValueError (a d : ndarray R) : result unit :=
  raise_if (negb (shape_eqb (shape a) (shape d))) ValueError.

(** [Detector.mask_detector]: the addresses of the returned data and mask,
    and the store after the call. [data] and [mask] are addresses of arrays;
    [flatfield], [background] and [hotpixels] are [None] or addresses. *)
Definition mask_detector (self : instance) (data mask : loc) (nb_img : R)
    (flatfield background hotpixels : option loc)
    (h : gmap nat (ndarray R)) : result (loc * loc * gmap nat (ndarray R)) :=
  d ← deref data h;
  m ← deref mask h;
  _ ← raise_if (negb (Nat.eqb (length (shape d)) 2 && Nat.eqb (length (shape m)) 2))
               ValueError;
  _ ← raise_if (negb (shape_eqb (shape d) (shape m))) ValueError;
  '(data, h) ←
    match flatfield with
    | Some f =>
      ff ← deref f h;
      d ← deref data h;
      _ ← same_shape_or_ValueError ff d;
      Ok (alloc (elementwise Rmult ff d) h)
    | None => Ok (data, h)
    end;
  '(data, h) ←
    match background with
    | Some b =>
      bg ← deref b h;
      d ← deref data h;
      _ ← same_shape_or_ValueError bg d;
      Ok (alloc (elementwise Rminus d bg) h)
    | None => Ok (data, h)
    end;
  h ←
    match hotpixels with
    | Some p =>
      hp ← deref p h;
      d ← deref data h;
      _ ← same_shape_or_ValueError hp d;
      h ← store_set_equal1 data p 0 h;
      store_set_equal1 mask p 1 h
    | None => Ok h
    end;
  h ←
    (if String.eqb (name self) "Eiger2M" then mask_Eiger2M data mask nb_img h
     else if String.eqb (name self) "Eiger4M" then mask_Eiger4M data mask nb_img h
     else if String.eqb (name self) "Maxipix" then mask_Maxipix data mask nb_img h
     else if String.eqb (name self) "Merlin" then mask_Merlin data mask nb_img h
     else if String.eqb (name self) "Timepix" then Ok h
     else Raise NotImplementedError);
  Ok (data, mask, h).

(** *** The constructor

    The keyword arguments are taken at the types of the docstring: a
    boolean, two numbers of pixels, a tuple or list of binning factors, each
    of them possibly absent; [unknown] lists the keys of [kwargs] with any
    other name. [binning], [roi] and [sum_roi] are tuples or lists of
    integers. *)

Record kwargs : Type := {
  kw_is_series : option bool;
  kw_nb_pixel_x : option Z;
  kw_nb_pixel_y : option Z;
  kw_previous_binning : option (list Z);
  unknown : list string
}.

(** The attributes that [__init__] assigns (the three paths, stored as they
    are given, and the empty [offsets] are left out). *)
Record attributes : Type := {
  attr_name : string;
  is_series : bool;
  nb_pixel_x : Z;
  nb_pixel_y : Z;
  previous_binning : list Z;
  binning : list Z;
  pixelsize_x : R;
  pixelsize_y : R;
  counter : string;
  roi : list Z;
  sum_roi : list Z
}.

(** [n or d] for an optional integer: [None] and [0] are falsy. *)
Definition or_int (n : option Z) (d : Z) : Z :=
  match n with
  | Some v => if (v =? 0)%Z then d else v
  | None => d
  end.

(** [kwargs.get('previous_binning', None) or (1, 1, 1)]: an empty sequence
    is falsy. *)
Definition or_binning (b : option (list Z)) : list Z :=
  match b with
  | Some (x :: l) => x :: l
  | _ => [1; 1; 1]%Z
  end.

(** [l[k]] *)
Definition subscript (l : list Z) (k : nat) : result Z :=
  match l !! k with
  | Some n => Ok n
  | None => Raise IndexError
  end.

(** [a // b] on integers. *)
Definition floordiv (a b : Z) : result Z :=
  if (b =? 0)%Z then Raise ZeroDivisionError else Ok (a / b)%Z.

(** The lines shared by the five branches on [name]: the numbers of pixels
    after the binning already applied. *)
Definition binned_pixels (kw : kwargs) (previous_binning : list Z)
    (default_x default_y : Z) : result (Z * Z) :=
  let nb_pixel_x := or_int (kw_nb_pixel_x kw) default_x in
  let nb_pixel_y := or_int (kw_nb_pixel_y kw) default_y in
  b2 ← subscript previous_binning 2;
  nb_pixel_x ← floordiv nb_pixel_x b2;
  b1 ← subscript previous_binning 1;
  nb_pixel_y ← floordiv nb_pixel_y b1;
  Ok (nb_pixel_x, nb_pixel_y).

(** [self.roi = ...] and [self.sum_roi = ...] *)
Definition roi_or_full (r : list Z) (nb_pixel_y nb_pixel_x : Z) : result (list Z) :=
  if Nat.eqb (length r) 0 then Ok [0; nb_pixel_y; 0; nb_pixel_x]%Z
  else if Nat.eqb (length r) 4 then Ok r
  else Raise ValueError.

(** [Detector.__init__] *)
Definition __init__ (name : string) (roi sum_roi binning : list Z) (kw : kwargs)
    : result attributes :=
  let is_series := default false (kw_is_series kw) in
  let previous_binning := or_binning (kw_previous_binning kw) in
  _ ← raise_if (negb (Nat.eqb (length (unknown kw)) 0)) Exception;
  '(nb_pixel_x, nb_pixel_y, pixelsize_x, pixelsize_y, counter) ←
    (if String.eqb name "Maxipix" then
       '(nx, ny) ← binned_pixels kw previous_binning 516 516;
       Ok (nx, ny, 55e-06, 55e-06, "mpx4inr"%string)
     else if String.eqb name "Eiger2M" then
       '(nx, ny) ← binned_pixels kw previous_binning 1030 2164;
       Ok (nx, ny, 75e-06, 75e-06, "ei2minr"%string)
     else if String.eqb name "Eiger4M" then
       '(nx, ny) ← binned_pixels kw previous_binning 2070 2167;
       Ok (nx, ny, 75e-06, 75e-06, EmptyString)
     else if String.eqb name "Timepix" then
       '(nx, ny) ← binned_pixels kw previous_binning 256 256;
       Ok (nx, ny, 55e-06, 55e-06, EmptyString)
     else if String.eqb name "Merlin" then
       '(nx, ny) ← binned_pixels kw previous_binning 515 515;
       Ok (nx, ny, 55e-06, 55e-06, "alba2"%string)
     else Raise ValueError)%R;
  pb1 ← subscript previous_binning 1;
  b1 ← subscript binning 1;
  let pixelsize_y := (pixelsize_y * IZR pb1 * IZR b1)%R in
  pb2 ← subscript previous_binning 2;
  b2 ← subscript binning 2;
  let pixelsize_x := (pixelsize_x * IZR pb2 * IZR b2)%R in
  roi ← roi_or_full roi nb_pixel_y nb_pixel_x;
  sum_roi ← roi_or_full sum_roi nb_pixel_y nb_pixel_x;
  Ok {| attr_name := name; is_series := is_series;
        nb_pixel_x := nb_pixel_x; nb_pixel_y := nb_pixel_y;
        previous_binning := previous_binning; binning := binning;
        pixelsize_x := pixelsize_x; pixelsize_y := pixelsize_y;
        counter := counter; roi := roi; sum_roi := sum_roi |}.

(** The defaults of the parameters. *)
Definition no_kwargs : kwargs :=
  {| kw_is_series := None; kw_nb_pixel_x := None; kw_nb_pixel_y := None;
     kw_previous_binning := None; unknown := [] |}.
Definition default_binning : list Z := [1; 1; 1]%Z.

(** The detector as [mask_detector] sees it. *)
Definition as_instance (a : attributes) : instance := {| name := attr_name a |}.

End Detector.

(** ** Vocabulary of the statements *)

(** The instances that the class produces by itself: what [__init__]
    returns, and what assignments to the ten properties make of it. *)
Inductive class_instance : Setup.instance → Prop :=
| made_by_init beamline beam_direction energy distance outofplane_angle inplane_angle
    tilt_angle rocking_angle pixel_x pixel_y kwargs self :
    Setup.__init__ beamline beam_direction energy distance outofplane_angle
      inplane_angle tilt_angle rocking_angle pixel_x pixel_y kwargs = Ok self →
    class_instance self
| after_beamline value self self' :
    class_instance self → Setup.beamline_setter value self = Ok self' →
    class_instance self'
| after_beam_direction value self self' :
    class_instance self → Setup.beam_direction_setter value self = Ok self' →
    class_instance self'
| after_energy value self self' :
    class_instance self → Setup.energy_setter value self = Ok self' →
    class_instance self'
| after_distance value self self' :
    class_instance self → Setup.distance_setter value self = Ok self' →
    class_instance self'
| after_outofplane_angle value self self' :
    class_instance self → Setup.outofplane_angle_setter value self = Ok self' →
    class_instance self'
| after_inplane_angle value self self' :
    class_instance self → Setup.inplane_angle_setter value self = Ok self' →
    class_instance self'
| after_tilt_angle value self self' :
    class_instance self → Setup.tilt_angle_setter value self = Ok self' →
    class_instance self'
| after_rocking_angle value self self' :
    class_instance self → Setup.rocking_angle_setter value self = Ok self' →
    class_instance self'
| after_pixel_x value self self' :
    class_instance self → Setup.pixel_x_setter value self = Ok self' →
    class_instance self'
| after_pixel_y value self self' :
    class_instance self → Setup.pixel_y_setter value self = Ok self' →
    class_instance self'.

(** What the class maintains: no attribute [grazing_angle] in the instance
    dictionary, and a strictly positive energy when it is set. *)
Definition class_invariant (self : Setup.instance) : Prop :=
  Setup.instance_dict self = ∅
  ∧ (∀ e, Setup._energy self = Some e → (0 < e)%R).

(** The exception that [update_coords] raises on an instance without the
    attribute [grazing_angle]: [TypeError] from the first of lines 586 to
    591 that meets a [None], [AttributeError] from line 592 otherwise. *)
Definition update_coords_exception (self : Setup.instance) (pixel_x pixel_y : option R) : exn :=
  match Setup._energy self, Setup._distance self, pixel_x, pixel_y,
        Setup._outofplane_angle self, Setup._inplane_angle self with
  | Some _, Some _, Some _, Some _, Some _, Some _ => AttributeError
  | _, _, _, _, _, _ => TypeError
  end.

(** The pairs (beamline, rocking angle) for which [update_coords] has a
    branch; where the in-plane rocking angle has one, it has one for every
    grazing angle (zero or not). *)
Definition defined_branch (beamline : string) (rocking_angle : option string) : bool :=
  let outofplane := Setup.rocking_is rocking_angle "outofplane" in
  let inplane := Setup.rocking_is rocking_angle "inplane" in
  if Setup.str_in beamline ["ID01"; "P10"; "NANOMAX"; "34ID"]%string
  then outofplane || inplane
  else if Setup.str_in beamline ["SIXS_2018"; "SIXS_2019"]%string then inplane
  else if String.eqb beamline "CRISTAL" then outofplane
  else false.

(** The factor of the determinant of [mymatrix] that depends on the angles
    (in radians): [sin outofplane] when the rocking angle is out of plane,
    [sin inplane * cos outofplane * cos grazing] when it is in plane. *)
Definition angular_factor (rocking_angle : option string)
    (mygrazing_angle inplane outofplane : R) : R :=
  if Setup.rocking_is rocking_angle "outofplane" then sin outofplane
  else (sin inplane * cos outofplane * cos mygrazing_angle)%R.

(** The part of the determinant of [mymatrix] that does not depend on the
    angles: the three column prefactors, the pixel sizes and the rocking
    step [tilt * distance]. *)
Definition column_scale (tilt distance pixel_x pixel_y lambdaz : R) (nbz nby nbx : Z) : R :=
  ((2 * PI * IZR nbx / lambdaz) * (2 * PI * IZR nby / lambdaz)
   * (2 * PI * IZR nbz / lambdaz) * pixel_x * pixel_y * (tilt * distance))%R.

(** The sign of the determinant in front of the angular factor. *)
Definition orientation_sign (beamline : string) (rocking_angle : option string) : R :=
  if Setup.rocking_is rocking_angle "outofplane" then
    if Setup.str_in beamline ["ID01"; "CRISTAL"]%string then (-1)%R else 1%R
  else
    if String.eqb beamline "NANOMAX" then 1%R else (-1)%R.

(** The three items are numbers and each is zero: [beam_direction=(0, 0, 0)]. *)
Definition all_numbers_are_zero (items : list pyval) : Prop :=
  Setup.all_numbers items = Some [0%R; 0%R; 0%R].

(** The arguments of the scenario of the specification:
    [Setup(beamline='ID01', energy=8800, distance=7.25, outofplane_angle=0,
    inplane_angle=7.248, tilt_angle=0.01, rocking_angle='inplane',
    pixel_x=110e-6, pixel_y=110e-6)]. *)
Definition scenario_setup : result Setup.instance :=
  Setup.__init__ (PyStr "ID01") Setup.default_beam_direction (PyNum 8800) (PyNum 7.25)
    (PyNum 0) (PyNum 7.248) (PyNum 0.01) (PyStr "inplane") (PyNum 110e-6) (PyNum 110e-6) ∅.

(** The keyword attributes that [__init__] stores when no keyword argument
    is given. *)
Definition default_kwargs_attributes : Setup.kwargs_attributes :=
  {| Setup.direct_beam := PyNone;
     Setup.filtered_data := PyBool false;
     Setup.is_orthogonal := PyBool false;
     Setup.custom_scan := PyBool false;
     Setup.custom_images := PyList [];
     Setup.custom_monitor := PyList [];
     Setup.custom_motors := PyDict [];
     Setup.sample_inplane := PyTuple [Setup.one; Setup.zero; Setup.zero];
     Setup.sample_outofplane := PyTuple [Setup.zero; Setup.zero; Setup.one];
     Setup.sample_offsets := PyTuple [Setup.zero; Setup.zero; Setup.zero];
     Setup.offset_inplane := Setup.zero |}.

(** An instance as [__init__] makes it, given the values of its properties. *)
Definition plain_instance (beamline : string) (energy distance outofplane_angle
    inplane_angle tilt_angle : option R) (rocking_angle : option string)
    (pixel_x pixel_y : option R) : Setup.instance :=
  {| Setup.kwargs_part := default_kwargs_attributes;
     Setup._beamline := beamline;
     Setup._beam_direction := (1, 0, 0)%R;
     Setup._energy := energy;
     Setup._distance := distance;
     Setup._outofplane_angle := outofplane_angle;
     Setup._inplane_angle := inplane_angle;
     Setup._tilt_angle := tilt_angle;
     Setup._rocking_angle := rocking_angle;
     Setup._pixel_x := pixel_x;
     Setup._pixel_y := pixel_y;
     Setup.instance_dict := ∅ |}.

(** The instance of the scenario. *)
Definition scenario_instance : Setup.instance :=
  plain_instance "ID01" (Some 8800%R) (Some 7.25%R) (Some 0%R) (Some 7.248%R)
    (Some 0.01%R) (Some "inplane"%string) (Some 110e-6%R) (Some 110e-6%R).

(** Inputs of [update_coords] for which the determinant of a defined branch
    does not vanish: no dimension, length or rocking step is zero and the
    angular factor of the branch is not zero. *)
Definition nondegenerate (rocking_angle : option string) (i : Setup.coords_inputs) : Prop :=
  let '(nbz, nby, nbx) := Setup.ci_shape i in
  nbz ≠ 0%Z ∧ nby ≠ 0%Z ∧ nbx ≠ 0%Z
  ∧ Setup.ci_wavelength i ≠ 0%R ∧ Setup.ci_distance i ≠ 0%R
  ∧ Setup.ci_pixel_x i ≠ 0%R ∧ Setup.ci_pixel_y i ≠ 0%R
  ∧ Setup.ci_tilt i ≠ 0%R
  ∧ angular_factor rocking_angle (Setup.ci_mygrazing_angle i)
      (Setup.ci_inplane i) (Setup.ci_outofplane i) ≠ 0%R.

(** The scenario after [setup.grazing_angle = 0], the value that the class
    [SetupPostprocessing] takes by default. *)
Definition scenario_with_grazing_angle : Setup.instance :=
  Setup.setattr "grazing_angle" (PyNum 0) scenario_instance.

(** The scenario on the beamline CRISTAL, which has no in-plane branch, with
    [grazing_angle = 0]. *)
Definition cristal_inplane : Setup.instance :=
  Setup.setattr "grazing_angle" (PyNum 0)
    (plain_instance "CRISTAL" (Some 8800%R) (Some 7.25%R) (Some 0%R) (Some 7.248%R)
       (Some 0.01%R) (Some "inplane"%string) (Some 110e-6%R) (Some 110e-6%R)).

(** The values of lines 586 to 597 for the scenario with
    [grazing_angle = 0] and a given shape. *)
Definition scenario_inputs_for (array_shape : Z * Z * Z) : Setup.coords_inputs :=
  {| Setup.ci_wavelength := (12.398 * 1e-7 / 8800 * 1e9)%R;
     Setup.ci_distance := (7.25 * 1e9)%R;
     Setup.ci_pixel_x := (110e-6 * 1e9)%R;
     Setup.ci_pixel_y := (110e-6 * 1e9)%R;
     Setup.ci_outofplane := np.radians 0;
     Setup.ci_inplane := np.radians 7.248;
     Setup.ci_mygrazing_angle := np.radians 0;
     Setup.ci_tilt := np.radians 0.01;
     Setup.ci_shape := array_shape |}.

(** The same for the shape (41, 256, 256) of the scenario. *)
Definition scenario_inputs : Setup.coords_inputs :=
  scenario_inputs_for (41, 256, 256)%Z.

(** A small real array of shape (2, 2, 2). *)
Definition example_volume : np.ndarray np.complex :=
  {| np.shape := [2; 2; 2]%nat;
     np.dtype_of := np.float64;
     np.flat := repeat (1%R, 0%R) 8 |}.

(** The inputs of lines 586 to 597 with another rocking step. *)
Definition with_tilt (tilt : R) (i : Setup.coords_inputs) : Setup.coords_inputs :=
  {| Setup.ci_wavelength := Setup.ci_wavelength i;
     Setup.ci_distance := Setup.ci_distance i;
     Setup.ci_pixel_x := Setup.ci_pixel_x i;
     Setup.ci_pixel_y := Setup.ci_pixel_y i;
     Setup.ci_outofplane := Setup.ci_outofplane i;
     Setup.ci_inplane := Setup.ci_inplane i;
     Setup.ci_mygrazing_angle := Setup.ci_mygrazing_angle i;
     Setup.ci_tilt := np.radians tilt;
     Setup.ci_shape := Setup.ci_shape i |}.


(** *** Vocabulary for [mask_detector] *)

(** [a[i, j]] of a 2D array held at an address of the store. *)
Definition cell (h : gmap nat (np.ndarray R)) (l : Detector.loc) (i j : nat) : option R :=
  a ← h !! l;
  match np.shape a with
  | [_; nc] => np.flat a !! (i * nc + j)%nat
  | _ => None
  end.

(** A 2D array of the full Eiger2M sensor, (2164, 1030), at an address. *)
Definition full_Eiger2M (h : gmap nat (np.ndarray R)) (l : Detector.loc) : Prop :=
  ∃ a, h !! l = Some a ∧ np.shape a = [2164; 1030]%nat
       ∧ length (np.flat a) = np.size_of (np.shape a).

(** A subscript [rows, cols] selects the position [(i, j)] of an array of
    shape [(nr, nc)]. *)
Definition covers (nr nc : nat) (entry : Detector.index * Detector.index) (i j : nat) : bool :=
  match Detector.index_range nr (fst entry), Detector.index_range nc (snd entry) with
  | Ok rr, Ok cr => Detector.in_range i rr && Detector.in_range j cr
  | _, _ => false
  end.

Definition covered (nr nc : nat) (table : list (Detector.index * Detector.index))
    (i j : nat) : bool :=
  existsb (fun entry => covers nr nc entry i j) table.

(** Both indices of a subscript are valid for the shape. *)
Definition valid_entry (nr nc : nat) (entry : Detector.index * Detector.index) : bool :=
  match Detector.index_range nr (fst entry), Detector.index_range nc (snd entry) with
  | Ok _, Ok _ => true
  | _, _ => false
  end.

(** The subscripts that the Eiger2M branch sets to 0 in the data, lines 1784
    to 1797, and to 1 in the mask, lines 1799 to 1812. *)
Definition Eiger2M_data_gaps : list (Detector.index * Detector.index) :=
  [(Detector.all_, Detector.sl 255 259);
   (Detector.all_, Detector.sl 513 517);
   (Detector.all_, Detector.sl 771 775);
   (Detector.sl 0 257, Detector.sl 72 80);
   (Detector.sl 255 259, Detector.all_);
   (Detector.sl 511 552, Detector.upto 0);
   (Detector.sl 804 809, Detector.all_);
   (Detector.sl 1061 1102, Detector.all_);
   (Detector.sl 1355 1359, Detector.all_);
   (Detector.sl 1611 1652, Detector.all_);
   (Detector.sl 1905 1909, Detector.all_);
   (Detector.sl 1248 1290, Detector.Int 478);
   (Detector.sl 1214 1298, Detector.Int 481);
   (Detector.sl 1649 1910, Detector.sl 620 628)].

Definition Eiger2M_mask_gaps : list (Detector.index * Detector.index) :=
  [(Detector.all_, Detector.sl 255 259);
   (Detector.all_, Detector.sl 513 517);
   (Detector.all_, Detector.sl 771 775);
   (Detector.sl 0 257, Detector.sl 72 80);
   (Detector.sl 255 259, Detector.all_);
   (Detector.sl 511 552, Detector.all_);
   (Detector.sl 804 809, Detector.all_);
   (Detector.sl 1061 1102, Detector.all_);
   (Detector.sl 1355 1359, Detector.all_);
   (Detector.sl 1611 1652, Detector.all_);
   (Detector.sl 1905 1909, Detector.all_);
   (Detector.sl 1248 1290, Detector.Int 478);
   (Detector.sl 1214 1298, Detector.Int 481);
   (Detector.sl 1649 1910, Detector.sl 620 628)].

(** The assignments [target[rows, cols] = v] for the subscripts of a table,
    in order. *)
Fixpoint assign_all (target : Detector.loc) (v : R)
    (table : list (Detector.index * Detector.index))
    (h : gmap nat (np.ndarray R)) : result (gmap nat (np.ndarray R)) :=
  match table with
  | [] => Ok h
  | (rows, cols) :: table' =>
    h ← Detector.store_setitem2 target rows cols v h;
    assign_all target v table' h
  end.

(** The Eiger2M detector. *)
Definition Eiger2M : Detector.instance := {| Detector.name := "Eiger2M" |}.

(** A store with an array of ones at address 0 (the data) and an array of
    zeros at address 1 (the mask), both of the full Eiger2M shape. *)
Definition ones_and_zeros : gmap nat (np.ndarray R) :=
  <[0%nat := {| np.shape := [2164; 1030]%nat; np.dtype_of := np.float64;
                np.flat := replicate (2164 * 1030) 1%R |}]>
    (<[1%nat := {| np.shape := [2164; 1030]%nat; np.dtype_of := np.int64;
                   np.flat := replicate (2164 * 1030) 0%R |}]> ∅).

(** *** Vocabulary for the properties of [Setup] *)

(** What every value stored by the setters satisfies: a supported beamline,
    a beam direction of norm 1, strictly positive energy, distance and pixel
    sizes when they are set, and a rocking angle that is one of the two
    names when it is set. *)
Definition validated (self : Setup.instance) : Prop :=
  In (Setup.beamline self) Setup.supported_beamlines
  ∧ np.linalg_norm (Setup._beam_direction self) = 1%R
  ∧ (∀ x, Setup._energy self = Some x → (0 < x)%R)
  ∧ (∀ x, Setup._distance self = Some x → (0 < x)%R)
  ∧ (∀ x, Setup._pixel_x self = Some x → (0 < x)%R)
  ∧ (∀ x, Setup._pixel_y self = Some x → (0 < x)%R)
  ∧ (∀ r, Setup._rocking_angle self = Some r
          → r = "outofplane"%string ∨ r = "inplane"%string).

(** The Python object read from an optional number. *)
Definition of_number (x : option R) : pyval :=
  match x with
  | Some v => PyNum v
  | None => PyNone
  end.

(** The Python object read from an optional string. *)
Definition of_string (x : option string) : pyval :=
  match x with
  | Some s => PyStr s
  | None => PyNone
  end.


(** *** Vocabulary for the other detectors *)

(** The subscripts that the Eiger4M branch assigns, lines 1819 to 1826 for
    the data and lines 1828 to 1835 for the mask. *)
Definition Eiger4M_gaps : list (Detector.index * Detector.index) :=
  [(Detector.all_, Detector.sl 0 1);
   (Detector.all_, Detector.from (-1));
   (Detector.sl 0 1, Detector.all_);
   (Detector.from (-1), Detector.all_);
   (Detector.all_, Detector.sl 1030 1040);
   (Detector.sl 514 551, Detector.all_);
   (Detector.sl 1065 1102, Detector.all_);
   (Detector.sl 1616 1653, Detector.all_)].

(** The subscripts of the Maxipix branch, lines 1842 to 1846. *)
Definition Maxipix_gaps : list (Detector.index * Detector.index) :=
  [(Detector.all_, Detector.sl 255 261);
   (Detector.sl 255 261, Detector.all_)].

(** The subscripts of the Merlin branch, lines 1853 to 1857. *)
Definition Merlin_gaps : list (Detector.index * Detector.index) :=
  [(Detector.all_, Detector.sl 255 260);
   (Detector.sl 255 260, Detector.all_)].

(** The names of the detectors whose branch assigns gaps. *)
Definition gap_detectors : list string :=
  ["Eiger2M"; "Eiger4M"; "Maxipix"; "Merlin"]%string.

(** The table of a detector for the data, and the one for the mask. *)
Definition data_gaps (name : string) : list (Detector.index * Detector.index) :=
  if String.eqb name "Eiger2M" then Eiger2M_data_gaps
  else if String.eqb name "Eiger4M" then Eiger4M_gaps
  else if String.eqb name "Maxipix" then Maxipix_gaps
  else if String.eqb name "Merlin" then Merlin_gaps
  else [].

Definition mask_gaps (name : string) : list (Detector.index * Detector.index) :=
  if String.eqb name "Eiger2M" then Eiger2M_mask_gaps
  else if String.eqb name "Eiger4M" then Eiger4M_gaps
  else if String.eqb name "Maxipix" then Maxipix_gaps
  else if String.eqb name "Merlin" then Merlin_gaps
  else [].

(** The count above which a pixel is hot: [4000000000 * nb_img] for the
    Eiger4M, [1e6 * nb_img] for the others. *)
Definition hot_pixel_threshold (name : string) (nb_img : R) : R :=
  if String.eqb name "Eiger4M" then (4000000000 * nb_img)%R else (1e6 * nb_img)%R.

(** A 2D array of shape [(nr, nc)] at an address, with all its elements. *)
Definition array2d (h : gmap nat (np.ndarray R)) (l : Detector.loc) (nr nc : nat) : Prop :=
  ∃ a, h !! l = Some a ∧ np.shape a = [nr; nc]
       ∧ length (np.flat a) = (nr * nc)%nat.

(** The four statements that every branch with gaps runs: the assignments
    of the two tables, then the two assignments of the hot pixels. *)
Definition gaps_then_hot_pixels (data mask : Detector.loc)
    (data_table mask_table : list (Detector.index * Detector.index)) (threshold : R)
    (h : gmap nat (np.ndarray R)) : result (gmap nat (np.ndarray R)) :=
  h ← assign_all data 0%R data_table h;
  h ← assign_all mask 1%R mask_table h;
  h ← Detector.store_set_above mask data threshold 1%R h;
  Detector.store_set_above data data threshold 0%R h.

(** A detector with the default arguments of the constructor. *)
Definition detector (name : string) : result Detector.attributes :=
  Detector.__init__ name [] [] Detector.default_binning Detector.no_kwargs.
(** * Properties *)

Import np.

#[local] Open Scope R_scope.

(** ** Comparisons of real numbers *)

Lemma Reqb_true (x y : R) : x = y → Reqb x y = true.
Proof. intros H. unfold Reqb. destruct (Req_dec_T x y); [reflexivity | contradiction]. Qed.

Lemma Reqb_false (x y : R) : x ≠ y → Reqb x y = false.
Proof. intros H. unfold Reqb. destruct (Req_dec_T x y); [contradiction | reflexivity]. Qed.

Lemma Reqb_spec (x y : R) : reflect (x = y) (Reqb x y).
Proof. unfold Reqb. destruct (Req_dec_T x y); constructor; assumption. Qed.

Lemma Rleb_true (x y : R) : x <= y → Rleb x y = true.
Proof. intros H. unfold Rleb. destruct (Rle_dec x y); [reflexivity | contradiction]. Qed.

Lemma Rleb_false (x y : R) : y < x → Rleb x y = false.
Proof. intros H. unfold Rleb. destruct (Rle_dec x y); [lra | reflexivity]. Qed.

Lemma Rltb_true (x y : R) : x < y → Rltb x y = true.
Proof. intros H. unfold Rltb. destruct (Rlt_dec x y); [reflexivity | contradiction]. Qed.

Lemma Rltb_false (x y : R) : y <= x → Rltb x y = false.
Proof. intros H. unfold Rltb. destruct (Rlt_dec x y); [lra | reflexivity]. Qed.

Lemma Rltb_spec (x y : R) : reflect (x < y) (Rltb x y).
Proof. unfold Rltb. destruct (Rlt_dec x y); constructor; assumption. Qed.

Lemma if_same {A : Type} (c : bool) (x : A) : (if c then x else x) = x.
Proof. now destruct c. Qed.

(** ** The scenario instance *)

Lemma norm_100 : linalg_norm (1, 0, 0) = 1.
Proof.
  unfold linalg_norm. replace (1 * 1 + 0 * 0 + 0 * 0) with 1 by lra. apply sqrt_1.
Qed.

Lemma init_kwargs_empty : Setup.init_kwargs ∅ = Ok default_kwargs_attributes.
Proof. reflexivity. Qed.

Lemma beam_direction_default :
  Setup.beam_direction_validate Setup.default_beam_direction = Ok (1, 0, 0).
Proof.
  unfold Setup.beam_direction_validate, Setup.default_beam_direction.
  cbn -[linalg_norm Reqb Rdiv]. rewrite norm_100. rewrite Reqb_false by lra.
  f_equal. f_equal; [f_equal |]; lra.
Qed.

Lemma strictly_positive_validate_pos (x : R) :
  0 < x → Setup.strictly_positive_validate (PyNum x) = Ok (Some x).
Proof. intros H. unfold Setup.strictly_positive_validate. simpl. now rewrite Rleb_false. Qed.

Lemma scenario_setup_eq : scenario_setup = Ok scenario_instance.
Proof.
  unfold scenario_setup, Setup.__init__.
  rewrite init_kwargs_empty. cbn [mbind result_bind Setup.beamline_validate].
  cbn [Setup.str_in Setup.supported_beamlines existsb String.eqb Ascii.eqb Bool.eqb orb].
  rewrite beam_direction_default. cbn [mbind result_bind].
  unfold Setup.energy_validate, Setup.distance_validate, Setup.pixel_x_validate,
    Setup.pixel_y_validate.
  rewrite !strictly_positive_validate_pos by lra.
  reflexivity.
Qed.

(** ** Detector orientation *)

Lemma beamline_validate_supported (value : pyval) (b : string) :
  Setup.beamline_validate value = Ok b → In b Setup.supported_beamlines.
Proof.
  unfold Setup.beamline_validate. destruct value; try (destruct (Setup.hashable _); discriminate).
  unfold Setup.str_in.
  destruct (existsb (String.eqb s) Setup.supported_beamlines) eqn:E; [|discriminate].
  intros [= <-]. apply existsb_exists in E as (y & Hy & Heq).
  apply String.eqb_eq in Heq. now subst.
Qed.

(** C10. For each of the seven supported beamlines the vertical detector
    orientation is 'z-' and [outofplane_coeff] is +1: the coefficient does
    not depend on the beamline and -1 is never returned. *)
Theorem outofplane_coeff_plus_one (self : Setup.instance) :
  In (Setup.beamline self) Setup.supported_beamlines →
  Setup.detector_ver self = "z-"%string ∧ Setup.outofplane_coeff self = 1%Z.
Proof.
  unfold Setup.outofplane_coeff, Setup.detector_ver. simpl In.
  intros H.
  repeat (destruct H as [H | H]; [rewrite <- H; split; reflexivity |]).
  contradiction.
Qed.

Lemma outofplane_coeff_plus_one_witness :
  Setup.detector_ver scenario_instance = "z-"%string
  ∧ Setup.outofplane_coeff scenario_instance = 1%Z.
Proof.
  apply (outofplane_coeff_plus_one scenario_instance).
  simpl. auto.
Defined.

(** ** Validation at assignment *)

Lemma strictly_positive_validate_nonpos (value : pyval) (x : R) :
  as_number value = Some x → x <= 0 →
  Setup.strictly_positive_validate value = Raise ValueError.
Proof.
  intros Hn Hx. unfold Setup.strictly_positive_validate.
  destruct value; try discriminate; rewrite Hn, (Rleb_true _ _ Hx); reflexivity.
Qed.

Lemma beam_direction_validate_zero (items : list pyval) :
  all_numbers_are_zero items →
  Setup.beam_direction_validate (PyTuple items) = Raise ValueError
  ∧ Setup.beam_direction_validate (PyList items) = Raise ValueError.
Proof.
  unfold all_numbers_are_zero. intros H.
  unfold Setup.beam_direction_validate. cbn [as_sequence]. rewrite H.
  unfold linalg_norm. replace (0 * 0 + 0 * 0 + 0 * 0) with 0 by lra.
  rewrite sqrt_0, (Reqb_true 0 0) by reflexivity. now split.
Qed.

(** C6. A number [<= 0] assigned to [energy], [distance], [pixel_x] or
    [pixel_y] is refused by the setter itself with [ValueError] (the
    exception that the specification files under InvalidParameterError), and
    so is the zero vector assigned to [beam_direction]; the constructor,
    which assigns through the same setters, returns no instance for such an
    argument: nothing is deferred to a later use. *)
Theorem nonpositive_rejected_at_assignment (self : Setup.instance) (value : pyval) (x : R) :
  as_number value = Some x → x <= 0 →
  Setup.energy_setter value self = Raise ValueError
  ∧ Setup.distance_setter value self = Raise ValueError
  ∧ Setup.pixel_x_setter value self = Raise ValueError
  ∧ Setup.pixel_y_setter value self = Raise ValueError
  ∧ Setup.beam_direction_setter (PyTuple [PyNum 0; PyNum 0; PyNum 0]) self = Raise ValueError
  ∧ Setup.beam_direction_setter (PyList [PyNum 0; PyNum 0; PyNum 0]) self = Raise ValueError
  ∧ (∀ b bd e d oa ia ta ra px py kw s,
       Setup.__init__ b bd e d oa ia ta ra px py kw = Ok s →
       e ≠ value ∧ d ≠ value ∧ px ≠ value ∧ py ≠ value
       ∧ bd ≠ PyTuple [PyNum 0; PyNum 0; PyNum 0]
       ∧ bd ≠ PyList [PyNum 0; PyNum 0; PyNum 0]).
Proof.
  intros Hn Hx.
  pose proof (strictly_positive_validate_nonpos value x Hn Hx) as Hv.
  destruct (beam_direction_validate_zero [PyNum 0; PyNum 0; PyNum 0] eq_refl) as [Ht Hl].
  unfold Setup.energy_setter, Setup.distance_setter, Setup.pixel_x_setter,
    Setup.pixel_y_setter, Setup.beam_direction_setter,
    Setup.energy_validate, Setup.distance_validate, Setup.pixel_x_validate,
    Setup.pixel_y_validate.
  rewrite Hv, Ht, Hl. repeat (split; [reflexivity |]).
  intros b bd e d oa ia ta ra px py kw s. unfold Setup.__init__.
  unfold Setup.energy_validate, Setup.distance_validate, Setup.pixel_x_validate,
    Setup.pixel_y_validate.
  destruct (Setup.init_kwargs kw); [|discriminate].
  destruct (Setup.beamline_validate b); [|discriminate].
  destruct (Setup.beam_direction_validate bd) eqn:Ebd; [|discriminate].
  destruct (Setup.strictly_positive_validate e) eqn:Ee; [|discriminate].
  destruct (Setup.strictly_positive_validate d) eqn:Ed; [|discriminate].
  destruct (Setup.angle_validate oa); [|discriminate].
  destruct (Setup.angle_validate ia); [|discriminate].
  destruct (Setup.angle_validate ta); [|discriminate].
  destruct (Setup.rocking_angle_validate ra); [|discriminate].
  destruct (Setup.strictly_positive_validate px) eqn:Epx; [|discriminate].
  destruct (Setup.strictly_positive_validate py) eqn:Epy; [|discriminate].
  intros _. repeat split; intros ->; congruence.
Qed.

Lemma nonpositive_rejected_at_assignment_witness :
  Setup.energy_setter (PyNum 0) scenario_instance = Raise ValueError
  ∧ Setup.distance_setter (PyNum 0) scenario_instance = Raise ValueError.
Proof.
  destruct (nonpositive_rejected_at_assignment scenario_instance (PyNum 0) 0)
    as (He & Hd & _).
  - reflexivity.
  - lra.
  - split; assumption.
Defined.

(** ** The exception monad *)

Lemma bind_Ok {A B : Type} (c : result A) (k : A → result B) (r : B) :
  (c ≫= k) = Ok r → ∃ a, c = Ok a ∧ k a = Ok r.
Proof. destruct c as [a | e]; [eauto | discriminate]. Qed.

Lemma bind_Raise {A B : Type} (c : result A) (k : A → result B) (e : exn) :
  c = Raise e → (c ≫= k) = Raise e.
Proof. now intros ->. Qed.

Ltac inv_bind H :=
  let a := fresh "a" in
  let Ha := fresh "H" a in
  apply bind_Ok in H as (a & Ha & H).

Tactic Notation "bind_inv" hyp(H) "as" ident(x) ident(Hx) :=
  apply bind_Ok in H as (x & Hx & H).

(** ** Instances made by the class *)

Lemma validate_positive (value : pyval) (v : option R) :
  Setup.strictly_positive_validate value = Ok v → ∀ x, v = Some x → 0 < x.
Proof.
  unfold Setup.strictly_positive_validate.
  assert (G : match as_number value with
              | None => Raise TypeError
              | Some x => if Rleb x 0 then Raise ValueError else Ok (Some x)
              end = Ok v → ∀ x, v = Some x → 0 < x).
  { destruct (as_number value) as [y |]; [| discriminate].
    unfold Rleb. destruct (Rle_dec y 0); [discriminate |].
    intros [= <-] x [= <-]. lra. }
  destruct value; try exact G.
  intros [= <-] x [=].
Qed.

Lemma class_instance_invariant (self : Setup.instance) :
  class_instance self → class_invariant self.
Proof.
  induction 1 as [b bd e d oa ia ta ra px py kw self H
                 | value self self' _ IH H | value self self' _ IH H
                 | value self self' _ IH H | value self self' _ IH H
                 | value self self' _ IH H | value self self' _ IH H
                 | value self self' _ IH H | value self self' _ IH H
                 | value self self' _ IH H | value self self' _ IH H].
  - unfold Setup.__init__ in H.
    repeat inv_bind H. injection H as <-. split; [reflexivity |].
    cbn. eapply validate_positive; eassumption.
  - unfold Setup.beamline_setter in H. inv_bind H. injection H as <-. exact IH.
  - unfold Setup.beam_direction_setter in H. inv_bind H. injection H as <-. exact IH.
  - unfold Setup.energy_setter in H. inv_bind H. injection H as <-.
    split; [apply IH |]. cbn. eapply validate_positive; eassumption.
  - unfold Setup.distance_setter in H. inv_bind H. injection H as <-. exact IH.
  - unfold Setup.outofplane_angle_setter in H. inv_bind H. injection H as <-. exact IH.
  - unfold Setup.inplane_angle_setter in H. inv_bind H. injection H as <-. exact IH.
  - unfold Setup.tilt_angle_setter in H. inv_bind H. injection H as <-. exact IH.
  - unfold Setup.rocking_angle_setter in H. inv_bind H. injection H as <-. exact IH.
  - unfold Setup.pixel_x_setter in H. inv_bind H. injection H as <-. exact IH.
  - unfold Setup.pixel_y_setter in H. inv_bind H. injection H as <-. exact IH.
Qed.

Lemma scenario_is_class_instance : class_instance scenario_instance.
Proof. eapply made_by_init. exact scenario_setup_eq. Qed.

Lemma update_coords_inputs_no_grazing (self : Setup.instance) (array_shape : list Z)
    (tilt_angle pixel_x pixel_y : option R) :
  class_invariant self →
  Setup.update_coords_inputs self array_shape tilt_angle pixel_x pixel_y
  = Raise (update_coords_exception self pixel_x pixel_y).
Proof.
  intros [Hd He]. unfold Setup.update_coords_inputs, update_coords_exception,
    Setup.wavelength, Setup.grazing_angle.
  rewrite Hd.
  destruct (Setup._energy self) as [e |]; [| reflexivity].
  cbn [truthy]. rewrite Reqb_false by (specialize (He e eq_refl); lra).
  cbn [negb Setup.times_1e9 mbind result_bind].
  destruct (Setup._distance self); [| reflexivity].
  destruct pixel_x; [| reflexivity].
  destruct pixel_y; [| reflexivity].
  destruct (Setup._outofplane_angle self); [| reflexivity].
  destruct (Setup._inplane_angle self); reflexivity.
Qed.

Lemma update_coords_no_grazing (self : Setup.instance) (array_shape : list Z)
    (tilt_angle pixel_x pixel_y : option R) :
  class_invariant self →
  Setup.update_coords self array_shape tilt_angle pixel_x pixel_y
  = Raise (update_coords_exception self pixel_x pixel_y).
Proof.
  intros H. unfold Setup.update_coords.
  now rewrite update_coords_inputs_no_grazing.
Qed.

(** ** The missing attribute [grazing_angle] *)

(** C1. The scenario of the specification, run on the code: the constructor
    returns an instance and [voxel_sizes((41, 256, 256), tilt_angle=0.01,
    pixel_x=110e-6, pixel_y=110e-6)] on it raises [AttributeError] at line
    592 instead of returning three voxel sizes. *)
Theorem scenario_voxel_sizes_raises :
  ∃ self, scenario_setup = Ok self
    ∧ Setup.voxel_sizes self [41; 256; 256]%Z (Some 0.01) (Some 110e-6) (Some 110e-6)
      = Raise AttributeError.
Proof.
  exists scenario_instance. split; [exact scenario_setup_eq |].
  unfold Setup.voxel_sizes. cbn [length Nat.eqb assert mbind result_bind].
  rewrite update_coords_no_grazing
    by (apply class_instance_invariant, scenario_is_class_instance).
  reflexivity.
Qed.

(** C2, as stated, fails: an instance constructed with the beamline alone
    has no energy, and [update_coords] raises [TypeError] on line 586 before
    it reaches [self.grazing_angle]. *)
Lemma update_coords_not_always_AttributeError :
  ¬ (∀ (self : Setup.instance) (array_shape : list Z) (tilt_angle pixel_x pixel_y : option R),
       class_instance self →
       Setup.update_coords self array_shape tilt_angle pixel_x pixel_y = Raise AttributeError).
Proof.
  intros H.
  set (self := plain_instance "ID01" None None None None None None None None).
  assert (Hc : class_instance self).
  { apply (made_by_init (PyStr "ID01") Setup.default_beam_direction PyNone PyNone PyNone
             PyNone PyNone PyNone PyNone PyNone ∅).
    unfold Setup.__init__. rewrite init_kwargs_empty.
    cbn [mbind result_bind Setup.beamline_validate].
    cbn [Setup.str_in Setup.supported_beamlines existsb String.eqb Ascii.eqb Bool.eqb orb].
    rewrite beam_direction_default. reflexivity. }
  specialize (H self [41; 256; 256]%Z (Some 0.01) (Some 110e-6) (Some 110e-6) Hc).
  rewrite update_coords_no_grazing in H by (now apply class_instance_invariant).
  discriminate H.
Qed.

Lemma voxel_sizes_no_grazing (self : Setup.instance) (array_shape : list Z)
    (tilt_angle pixel_x pixel_y : option R) :
  class_invariant self →
  ∀ r, Setup.voxel_sizes self array_shape tilt_angle pixel_x pixel_y ≠ Ok r.
Proof.
  intros Hc r H. unfold Setup.voxel_sizes in H.
  inv_bind H. inv_bind H.
  rewrite update_coords_no_grazing in Ha0 by assumption. discriminate.
Qed.

(** C2, amended. On an instance made by the class, [update_coords] never
    returns: it raises [AttributeError] when the energy, the distance, both
    detector angles and the two pixel sizes passed are set, and [TypeError]
    when one of them is [None]; [voxel_sizes] and [orthogonalize_vector]
    called with a shape of three items raise the same exception, and
    [orthogonalize] and [detector_frame] return for no argument. *)
Theorem update_coords_never_returns (self : Setup.instance) (array_shape : list Z)
    (tilt_angle pixel_x pixel_y : option R) :
  class_instance self →
  Setup.update_coords self array_shape tilt_angle pixel_x pixel_y
  = Raise (update_coords_exception self pixel_x pixel_y)
  ∧ (length array_shape = 3%nat →
     Setup.voxel_sizes self array_shape tilt_angle pixel_x pixel_y
     = Raise (update_coords_exception self pixel_x pixel_y)
     ∧ ∀ vector,
         Setup.orthogonalize_vector self vector array_shape tilt_angle pixel_x pixel_y
         = Raise (update_coords_exception self pixel_x pixel_y))
  ∧ (∀ obj initial_shape voxel_size kwargs r,
       Setup.orthogonalize self obj initial_shape voxel_size kwargs ≠ Ok r)
  ∧ (∀ obj voxel_size kwargs r,
       Setup.detector_frame self obj voxel_size kwargs ≠ Ok r).
Proof.
  intros Hc. apply class_instance_invariant in Hc.
  split; [now apply update_coords_no_grazing |].
  split; [| split].
  - intros Hl. unfold Setup.voxel_sizes, Setup.orthogonalize_vector.
    rewrite Hl. cbn [Nat.eqb assert mbind result_bind].
    rewrite update_coords_no_grazing by assumption. split; [reflexivity |].
    intros vector. reflexivity.
  - intros obj initial_shape voxel_size kwargs r H.
    unfold Setup.orthogonalize in H.
    do 4 inv_bind H.
    eapply voxel_sizes_no_grazing; eassumption.
  - intros obj voxel_size kwargs r H.
    unfold Setup.detector_frame in H.
    do 3 inv_bind H. destruct a1 as [[nbz nby] nbx]. inv_bind H.
    rewrite update_coords_no_grazing in Ha2 by assumption. discriminate.
Qed.

Lemma update_coords_never_returns_witness :
  Setup.update_coords scenario_instance [41; 256; 256]%Z (Some 0.01) (Some 110e-6)
    (Some 110e-6) = Raise AttributeError.
Proof.
  exact (proj1 (update_coords_never_returns scenario_instance [41; 256; 256]%Z
                  (Some 0.01) (Some 110e-6) (Some 110e-6) scenario_is_class_instance)).
Defined.

(** ** The determinant of [mymatrix] *)

Lemma cos2_sin2 (x : R) : cos x * cos x + sin x * sin x = 1.
Proof. generalize (sin2_cos2 x). unfold Rsqr. lra. Qed.

Lemma rocking_is_cases (r : option string) :
  (r = Some "outofplane"%string)
  ∨ (r = Some "inplane"%string)
  ∨ (Setup.rocking_is r "outofplane" = false ∧ Setup.rocking_is r "inplane" = false).
Proof.
  destruct r as [r |]; [| right; right; split; reflexivity].
  unfold Setup.rocking_is.
  destruct (String.eqb_spec r "outofplane") as [-> | _]; [now left |].
  destruct (String.eqb_spec r "inplane") as [-> | _]; [right; now left |].
  right; right; split; reflexivity.
Qed.

(** The scale of the determinant: the product of the three column
    prefactors, the two pixel sizes and the rocking step [tilt * distance]. *)
Ltac det_by_algebra i o g :=
  cbv [det set_col vscale zeros33 m00 m01 m02 m10 m11 m12 m20 m21 m22 pi
       column_scale orientation_sign angular_factor Setup.rocking_is Setup.str_in existsb];
  cbv [String.eqb Ascii.eqb Bool.eqb orb andb];
  rewrite ?sin_0, ?cos_0;
  generalize (cos2_sin2 i) (cos2_sin2 o) (cos2_sin2 g);
  generalize (cos i) (sin i) (cos o) (sin o) (cos g) (sin g);
  intros; nsatz.

Ltac unfold_mymatrix :=
  cbv [Setup.mymatrix Setup.ID01_geometry Setup.P10_geometry Setup.NANOMAX_geometry
       Setup.APS_34ID_geometry Setup.SIXS_geometry Setup.CRISTAL_geometry
       String.eqb Ascii.eqb Bool.eqb orb andb Setup.rocking_is].

Lemma det_mymatrix (b : string) (r : option string)
    (g i o t d px py lz : R) (nbz nby nbx : Z) :
  In b Setup.supported_beamlines → defined_branch b r = true →
  det (Setup.mymatrix r g i o t d px py lz nbz nby nbx b)
  = orientation_sign b r * column_scale t d px py lz nbz nby nbx * angular_factor r g i o.
Proof.
  simpl In. intros Hb Hr.
  destruct (rocking_is_cases r) as [-> | [-> | [H1 H2]]].
  - repeat (destruct Hb as [<- | Hb]; [try discriminate Hr |]); try contradiction;
      unfold_mymatrix; det_by_algebra i o g.
  - repeat (destruct Hb as [<- | Hb]; [try discriminate Hr |]); try contradiction;
      unfold_mymatrix;
      (destruct (Reqb_spec g 0) as [Hg | Hg]; cbn [negb];
       [rewrite Hg |]); det_by_algebra i o g.
  - exfalso. unfold defined_branch in Hr. rewrite H1, H2 in Hr.
    repeat (destruct Hb as [<- | Hb]; [discriminate Hr |]). contradiction.
Qed.

(** A block whose rocking angle matches none of its branches leaves the
    matrix as it is. *)
Lemma ID01_no_branch (r : option string) (g i o t d px py lz : R) (nbz nby nbx : Z)
    (m : mat3) :
  Setup.rocking_is r "outofplane" = false → Setup.rocking_is r "inplane" = false →
  Setup.ID01_geometry r g i o t d px py lz nbz nby nbx m = m.
Proof. intros H1 H2. unfold Setup.ID01_geometry. now rewrite H1, H2. Qed.

Lemma P10_no_branch (r : option string) (g i o t d px py lz : R) (nbz nby nbx : Z)
    (m : mat3) :
  Setup.rocking_is r "outofplane" = false → Setup.rocking_is r "inplane" = false →
  Setup.P10_geometry r g i o t d px py lz nbz nby nbx m = m.
Proof. intros H1 H2. unfold Setup.P10_geometry. now rewrite H1, H2. Qed.

Lemma NANOMAX_no_branch (r : option string) (g i o t d px py lz : R) (nbz nby nbx : Z)
    (m : mat3) :
  Setup.rocking_is r "outofplane" = false → Setup.rocking_is r "inplane" = false →
  Setup.NANOMAX_geometry r g i o t d px py lz nbz nby nbx m = m.
Proof. intros H1 H2. unfold Setup.NANOMAX_geometry. now rewrite H1, H2. Qed.

Lemma APS_34ID_no_branch (r : option string) (g i o t d px py lz : R) (nbz nby nbx : Z)
    (m : mat3) :
  Setup.rocking_is r "outofplane" = false → Setup.rocking_is r "inplane" = false →
  Setup.APS_34ID_geometry r g i o t d px py lz nbz nby nbx m = m.
Proof. intros H1 H2. unfold Setup.APS_34ID_geometry. now rewrite H1, H2. Qed.

Lemma SIXS_no_branch (r : option string) (g i o t d px py lz : R) (nbz nby nbx : Z)
    (m : mat3) :
  Setup.rocking_is r "inplane" = false →
  Setup.SIXS_geometry r g i o t d px py lz nbz nby nbx m = m.
Proof. intros H. unfold Setup.SIXS_geometry. now rewrite H. Qed.

Lemma CRISTAL_no_branch (r : option string) (i o t d px py lz : R) (nbz nby nbx : Z)
    (m : mat3) :
  Setup.rocking_is r "outofplane" = false →
  Setup.CRISTAL_geometry r i o t d px py lz nbz nby nbx m = m.
Proof. intros H. unfold Setup.CRISTAL_geometry. now rewrite H. Qed.

Lemma mymatrix_undefined (b : string) (r : option string)
    (g i o t d px py lz : R) (nbz nby nbx : Z) :
  defined_branch b r = false →
  Setup.mymatrix r g i o t d px py lz nbz nby nbx b = zeros33.
Proof.
  intros Hr. unfold defined_branch, Setup.str_in in Hr. unfold Setup.mymatrix.
  cbn [existsb] in Hr. cbv zeta.
  destruct (String.eqb_spec b "ID01") as [-> | _].
  { cbn in Hr. apply orb_false_elim in Hr as [H1 H2]. cbn. now apply ID01_no_branch. }
  destruct (String.eqb_spec b "P10") as [-> | _].
  { cbn in Hr. apply orb_false_elim in Hr as [H1 H2]. cbn. now apply P10_no_branch. }
  destruct (String.eqb_spec b "NANOMAX") as [-> | _].
  { cbn in Hr. apply orb_false_elim in Hr as [H1 H2]. cbn. now apply NANOMAX_no_branch. }
  destruct (String.eqb_spec b "34ID") as [-> | _].
  { cbn in Hr. apply orb_false_elim in Hr as [H1 H2]. cbn. now apply APS_34ID_no_branch. }
  destruct (String.eqb_spec b "SIXS_2018") as [-> | _].
  { cbn in Hr. cbn. now apply SIXS_no_branch. }
  destruct (String.eqb_spec b "SIXS_2019") as [-> | _].
  { cbn in Hr. cbn. now apply SIXS_no_branch. }
  destruct (String.eqb_spec b "CRISTAL") as [-> | _].
  { cbn in Hr. cbn. now apply CRISTAL_no_branch. }
  reflexivity.
Qed.

Lemma det_zeros33 : det zeros33 = 0.
Proof. unfold det, zeros33. cbn. ring. Qed.

(** ** Inversion *)

Lemma linalg_inv_regular (m : mat3) : det m ≠ 0 → linalg_inv m = Ok (inverse m).
Proof. intros H. unfold linalg_inv. now rewrite Reqb_false. Qed.

Lemma linalg_inv_singular (m : mat3) : det m = 0 → linalg_inv m = Raise LinAlgError.
Proof. intros H. unfold linalg_inv. now rewrite Reqb_true. Qed.

Lemma linalg_inv_Ok (m inv : mat3) : linalg_inv m = Ok inv → det m ≠ 0 ∧ inv = inverse m.
Proof.
  unfold linalg_inv. destruct (Reqb_spec (det m) 0); [discriminate |].
  intros [= <-]. now split.
Qed.

Lemma two_pi_neq0 : 2 * PI ≠ 0.
Proof. generalize PI_RGT_0. lra. Qed.

Lemma det_mscale (k : R) (m : mat3) : det (mscale k m) = k * k * k * det m.
Proof. unfold det, mscale. cbn. ring. Qed.

Lemma det_transpose (m : mat3) : det (transpose m) = det m.
Proof. unfold det, transpose. cbn. ring. Qed.

Lemma det_inverse (m : mat3) : det m ≠ 0 → det (inverse m) = / det m.
Proof.
  intros H. unfold inverse. set (d := det m) in *.
  unfold det at 1. cbn [m00 m01 m02 m10 m11 m12 m20 m21 m22].
  assert (E : d = det m) by reflexivity. unfold det in E.
  destruct m as [a b c e f g h k l]. cbn [m00 m01 m02 m10 m11 m12 m20 m21 m22] in *.
  field_simplify_eq; [| assumption].
  rewrite E. ring.
Qed.

Lemma two_pi_inv_transpose_regular (m : mat3) :
  det m ≠ 0 →
  Setup.two_pi_inv_transpose m = Ok (mscale (2 * pi) (transpose (inverse m)))
  ∧ det (mscale (2 * pi) (transpose (inverse m))) ≠ 0.
Proof.
  intros H. unfold Setup.two_pi_inv_transpose. rewrite linalg_inv_regular by assumption.
  split; [reflexivity |].
  rewrite det_mscale, det_transpose, det_inverse by assumption.
  unfold pi. pose proof two_pi_neq0.
  apply Rmult_integral_contrapositive_currified; [| now apply Rinv_neq_0_compat].
  apply Rmult_integral_contrapositive_currified;
    [apply Rmult_integral_contrapositive_currified |]; assumption.
Qed.

Lemma inverse_inverse (m : mat3) : det m ≠ 0 → inverse (inverse m) = m.
Proof.
  intros H. unfold inverse at 1. rewrite det_inverse by assumption.
  unfold inverse. set (d := det m) in *.
  assert (E : d = det m) by reflexivity. unfold det in E.
  destruct m as [a b c e f g h k l]. cbn [m00 m01 m02 m10 m11 m12 m20 m21 m22] in *.
  f_equal; (field_simplify_eq; [rewrite E; ring | assumption]).
Qed.

Lemma inverse_transpose (m : mat3) : inverse (transpose m) = transpose (inverse m).
Proof.
  unfold inverse. rewrite det_transpose. unfold transpose.
  cbn [m00 m01 m02 m10 m11 m12 m20 m21 m22]. f_equal; f_equal; ring.
Qed.

Lemma inverse_mscale (k : R) (m : mat3) :
  k ≠ 0 → det m ≠ 0 → inverse (mscale k m) = mscale (/ k) (inverse m).
Proof.
  intros Hk H. unfold inverse. rewrite det_mscale. set (d := det m) in *.
  unfold mscale. cbn [m00 m01 m02 m10 m11 m12 m20 m21 m22].
  f_equal; field; split; assumption.
Qed.

Lemma transpose_mscale (k : R) (m : mat3) : transpose (mscale k m) = mscale k (transpose m).
Proof. reflexivity. Qed.

Lemma transpose_transpose (m : mat3) : transpose (transpose m) = m.
Proof. now destruct m. Qed.

Lemma mscale_mscale_inv (k : R) (m : mat3) : k ≠ 0 → mscale k (mscale (/ k) m) = m.
Proof.
  intros Hk. destruct m. unfold mscale. cbn [m00 m01 m02 m10 m11 m12 m20 m21 m22].
  f_equal; field; assumption.
Qed.

Lemma inverse_involution (m : mat3) :
  det m ≠ 0 →
  mscale (2 * pi) (transpose (inverse (mscale (2 * pi) (transpose (inverse m))))) = m.
Proof.
  intros H. pose proof two_pi_neq0 as Hpi. unfold pi.
  rewrite inverse_mscale;
    [| assumption
     | now rewrite det_transpose, det_inverse by assumption; apply Rinv_neq_0_compat].
  rewrite inverse_transpose, inverse_inverse by assumption.
  rewrite transpose_mscale, transpose_transpose.
  now apply mscale_mscale_inv.
Qed.

Lemma two_pi_inv_transpose_Ok (m t : mat3) :
  Setup.two_pi_inv_transpose m = Ok t →
  det m ≠ 0 ∧ t = mscale (2 * pi) (transpose (inverse m)).
Proof.
  unfold Setup.two_pi_inv_transpose. intros H. inv_bind H.
  apply linalg_inv_Ok in Ha as [Hd ->]. injection H as <-. now split.
Qed.

(** ** The transfer matrix *)

Lemma update_coords_inputs_eval (self : Setup.instance) (nbz nby nbx : Z)
    (tilt px py e d oa ia x : R) (g : pyval) :
  Setup._energy self = Some e → e ≠ 0 →
  Setup._distance self = Some d →
  Setup._outofplane_angle self = Some oa →
  Setup._inplane_angle self = Some ia →
  Setup.instance_dict self !! "grazing_angle"%string = Some g →
  as_number g = Some x →
  Setup.update_coords_inputs self [nbz; nby; nbx] (Some tilt) (Some px) (Some py)
  = Ok {| Setup.ci_wavelength := 12.398 * 1e-7 / e * 1e9;
          Setup.ci_distance := d * 1e9;
          Setup.ci_pixel_x := px * 1e9;
          Setup.ci_pixel_y := py * 1e9;
          Setup.ci_outofplane := radians oa;
          Setup.ci_inplane := radians ia;
          Setup.ci_mygrazing_angle := radians x;
          Setup.ci_tilt := radians tilt;
          Setup.ci_shape := (nbz, nby, nbx) |}.
Proof.
  intros He Hne Hd Ho Hi Hg Hx.
  unfold Setup.update_coords_inputs, Setup.wavelength, Setup.grazing_angle,
    Setup.radians_obj.
  rewrite He, Hd, Ho, Hi, Hg. cbn [truthy]. rewrite (Reqb_false e 0 Hne).
  cbn. rewrite Hx. reflexivity.
Qed.

Lemma scenario_inputs_for_eq (nbz nby nbx : Z) :
  Setup.update_coords_inputs scenario_with_grazing_angle [nbz; nby; nbx]
    (Some 0.01) (Some 110e-6) (Some 110e-6) = Ok (scenario_inputs_for (nbz, nby, nbx)).
Proof.
  apply (update_coords_inputs_eval _ _ _ _ _ _ _ 8800 7.25 0 7.248 0 (PyNum 0));
    try reflexivity. lra.
Qed.

Lemma scenario_inputs_eq :
  Setup.update_coords_inputs scenario_with_grazing_angle [41; 256; 256]%Z
    (Some 0.01) (Some 110e-6) (Some 110e-6) = Ok scenario_inputs.
Proof. apply scenario_inputs_for_eq. Qed.

Lemma cristal_inputs_eq :
  Setup.update_coords_inputs cristal_inplane [41; 256; 256]%Z
    (Some 0.01) (Some 110e-6) (Some 110e-6) = Ok scenario_inputs.
Proof.
  apply (update_coords_inputs_eval _ _ _ _ _ _ _ 8800 7.25 0 7.248 0 (PyNum 0));
    try reflexivity. lra.
Qed.

Lemma update_coords_singular (self : Setup.instance) (array_shape : list Z)
    (tilt_angle pixel_x pixel_y : option R) (i : Setup.coords_inputs) :
  Setup.update_coords_inputs self array_shape tilt_angle pixel_x pixel_y = Ok i →
  det (Setup.mymatrix_of self i) = 0 →
  Setup.update_coords self array_shape tilt_angle pixel_x pixel_y = Raise LinAlgError.
Proof.
  intros Hi Hd. unfold Setup.update_coords, Setup.two_pi_inv_transpose.
  rewrite Hi. cbn [mbind result_bind]. now rewrite linalg_inv_singular.
Qed.

Lemma update_coords_regular (self : Setup.instance) (array_shape : list Z)
    (tilt_angle pixel_x pixel_y : option R) (i : Setup.coords_inputs) :
  Setup.update_coords_inputs self array_shape tilt_angle pixel_x pixel_y = Ok i →
  det (Setup.mymatrix_of self i) ≠ 0 →
  Setup.update_coords self array_shape tilt_angle pixel_x pixel_y
  = Ok (mscale (2 * pi) (transpose (inverse (Setup.mymatrix_of self i)))).
Proof.
  intros Hi Hd. unfold Setup.update_coords. rewrite Hi. cbn [mbind result_bind].
  now apply two_pi_inv_transpose_regular.
Qed.

Lemma mymatrix_of_undefined (self : Setup.instance) (i : Setup.coords_inputs) :
  defined_branch (Setup.beamline self) (Setup._rocking_angle self) = false →
  Setup.mymatrix_of self i = zeros33.
Proof.
  intros H. unfold Setup.mymatrix_of. destruct (Setup.ci_shape i) as [[nbz nby] nbx].
  now apply mymatrix_undefined.
Qed.

(** C3, as stated, fails: on CRISTAL with an in-plane rocking angle the
    combination is not rejected. Lines 586 to 597 succeed, no branch assigns
    a column, and the exception is the [LinAlgError] that [np.linalg.inv]
    raises on the matrix of zeros. *)
Lemma cristal_inplane_raises_LinAlgError :
  ∃ i, Setup.update_coords_inputs cristal_inplane [41; 256; 256]%Z
         (Some 0.01) (Some 110e-6) (Some 110e-6) = Ok i
    ∧ Setup.mymatrix_of cristal_inplane i = zeros33
    ∧ Setup.update_coords cristal_inplane [41; 256; 256]%Z
        (Some 0.01) (Some 110e-6) (Some 110e-6) = Raise LinAlgError.
Proof.
  exists scenario_inputs. split; [exact cristal_inputs_eq |].
  assert (H : Setup.mymatrix_of cristal_inplane scenario_inputs = zeros33)
    by (now apply mymatrix_of_undefined).
  split; [exact H |].
  apply (update_coords_singular _ _ _ _ _ _ cristal_inputs_eq).
  rewrite H. apply det_zeros33.
Qed.

(** C3, amended. When the beamline has no branch for the rocking angle
    (CRISTAL in plane, SIXS_2018 and SIXS_2019 out of plane, any beamline
    with the rocking angle unset) and lines 586 to 597 succeed,
    [mymatrix] is left all zeros and [update_coords] fails with the
    [LinAlgError] of the matrix inversion. *)
Theorem missing_branch_raises_LinAlgError (self : Setup.instance) (array_shape : list Z)
    (tilt_angle pixel_x pixel_y : option R) (i : Setup.coords_inputs) :
  defined_branch (Setup.beamline self) (Setup._rocking_angle self) = false →
  Setup.update_coords_inputs self array_shape tilt_angle pixel_x pixel_y = Ok i →
  Setup.mymatrix_of self i = zeros33
  ∧ Setup.update_coords self array_shape tilt_angle pixel_x pixel_y = Raise LinAlgError
  ∧ defined_branch "CRISTAL" (Some "inplane"%string) = false
  ∧ defined_branch "SIXS_2018" (Some "outofplane"%string) = false
  ∧ defined_branch "SIXS_2019" (Some "outofplane"%string) = false
  ∧ (∀ b, defined_branch b None = false).
Proof.
  intros Hb Hi.
  assert (H : Setup.mymatrix_of self i = zeros33) by (now apply mymatrix_of_undefined).
  split; [exact H |]. split.
  - apply (update_coords_singular _ _ _ _ _ _ Hi). rewrite H. apply det_zeros33.
  - repeat (split; [reflexivity |]). intros b. unfold defined_branch.
    cbn [Setup.rocking_is orb].
    repeat match goal with |- context [if ?c then _ else _] => destruct c end; reflexivity.
Qed.

Lemma missing_branch_raises_LinAlgError_witness :
  Setup.mymatrix_of cristal_inplane scenario_inputs = zeros33
  ∧ Setup.update_coords cristal_inplane [41; 256; 256]%Z
      (Some 0.01) (Some 110e-6) (Some 110e-6) = Raise LinAlgError.
Proof.
  pose proof (missing_branch_raises_LinAlgError cristal_inplane [41; 256; 256]%Z
                (Some 0.01) (Some 110e-6) (Some 110e-6) scenario_inputs
                eq_refl cristal_inputs_eq) as (H1 & H2 & _).
  split; assumption.
Defined.

(** ** Non-singular branches *)

Lemma det_mymatrix_of (self : Setup.instance) (i : Setup.coords_inputs) :
  In (Setup.beamline self) Setup.supported_beamlines →
  defined_branch (Setup.beamline self) (Setup._rocking_angle self) = true →
  nondegenerate (Setup._rocking_angle self) i →
  det (Setup.mymatrix_of self i) ≠ 0.
Proof.
  intros Hb Hr Hn. unfold Setup.mymatrix_of, nondegenerate in *.
  destruct (Setup.ci_shape i) as [[nbz nby] nbx].
  destruct Hn as (Hz & Hy & Hx & Hw & Hd & Hpx & Hpy & Ht & Ha).
  rewrite det_mymatrix by assumption.
  assert (Hs : orientation_sign (Setup.beamline self) (Setup._rocking_angle self) ≠ 0).
  { unfold orientation_sign.
    repeat match goal with |- context [if ?c then _ else _] => destruct c end; lra. }
  assert (Hl : Setup.ci_wavelength i * Setup.ci_distance i ≠ 0)
    by (now apply Rmult_integral_contrapositive_currified).
  assert (Hk : ∀ n : Z, n ≠ 0%Z →
            2 * PI * IZR n / (Setup.ci_wavelength i * Setup.ci_distance i) ≠ 0).
  { intros n Hn0. unfold Rdiv.
    apply Rmult_integral_contrapositive_currified; [| now apply Rinv_neq_0_compat].
    apply Rmult_integral_contrapositive_currified; [apply two_pi_neq0 |].
    now apply not_0_IZR. }
  unfold column_scale.
  apply Rmult_integral_contrapositive_currified; [| exact Ha].
  apply Rmult_integral_contrapositive_currified; [exact Hs |].
  apply Rmult_integral_contrapositive_currified;
    [| now apply Rmult_integral_contrapositive_currified].
  apply Rmult_integral_contrapositive_currified; [| exact Hpy].
  apply Rmult_integral_contrapositive_currified; [| exact Hpx].
  apply Rmult_integral_contrapositive_currified; [| now apply Hk].
  apply Rmult_integral_contrapositive_currified; now apply Hk.
Qed.

(** C5. For each supported beamline and each branch that it defines
    (out-of-plane rocking; in-plane rocking with the grazing angle zero or
    not), the matrix built from non-degenerate inputs (no dimension, length
    or rocking step zero; [sin outofplane] not zero when rocking out of
    plane, [sin inplane * cos outofplane * cos grazing] not zero when
    rocking in plane) has a non-zero determinant, and [update_coords]
    returns the transfer matrix without reaching the singular-matrix error
    of the inversion. *)
Theorem defined_branch_nonsingular (self : Setup.instance) (array_shape : list Z)
    (tilt_angle pixel_x pixel_y : option R) (i : Setup.coords_inputs) :
  In (Setup.beamline self) Setup.supported_beamlines →
  defined_branch (Setup.beamline self) (Setup._rocking_angle self) = true →
  Setup.update_coords_inputs self array_shape tilt_angle pixel_x pixel_y = Ok i →
  nondegenerate (Setup._rocking_angle self) i →
  det (Setup.mymatrix_of self i) ≠ 0
  ∧ Setup.update_coords self array_shape tilt_angle pixel_x pixel_y
    = Ok (mscale (2 * pi) (transpose (inverse (Setup.mymatrix_of self i)))).
Proof.
  intros Hb Hr Hi Hn.
  assert (Hd : det (Setup.mymatrix_of self i) ≠ 0) by (now apply det_mymatrix_of).
  split; [exact Hd |]. now apply update_coords_regular.
Qed.

Lemma radians_0 : radians 0 = 0.
Proof. unfold radians. field. Qed.

Lemma radians_pos (x : R) : 0 < x → 0 < radians x.
Proof.
  intros H. unfold radians. pose proof PI_RGT_0.
  apply Rdiv_lt_0_compat; [| lra]. now apply Rmult_lt_0_compat.
Qed.

Lemma sin_radians_pos (x : R) : 0 < x → x < 180 → 0 < sin (radians x).
Proof.
  intros H0 H1. apply sin_gt_0; [now apply radians_pos |].
  unfold radians. pose proof PI_RGT_0.
  apply (Rmult_lt_reg_r 180); [lra |].
  replace (x * PI / 180 * 180) with (x * PI) by field.
  rewrite (Rmult_comm PI 180). now apply Rmult_lt_compat_r.
Qed.

Lemma scenario_nondegenerate_for (nbz nby nbx : Z) :
  nbz ≠ 0%Z → nby ≠ 0%Z → nbx ≠ 0%Z →
  nondegenerate (Some "inplane"%string) (scenario_inputs_for (nbz, nby, nbx)).
Proof.
  intros Hz Hy Hx. unfold nondegenerate, scenario_inputs_for, angular_factor.
  cbn [Setup.ci_shape Setup.ci_wavelength Setup.ci_distance Setup.ci_pixel_x
       Setup.ci_pixel_y Setup.ci_tilt Setup.ci_mygrazing_angle Setup.ci_inplane
       Setup.ci_outofplane Setup.rocking_is String.eqb Ascii.eqb Bool.eqb].
  repeat (split; [assumption || lra |]).
  split; [pose proof (radians_pos 0.01); lra |].
  rewrite radians_0, cos_0. pose proof (sin_radians_pos 7.248). lra.
Qed.

Lemma scenario_nondegenerate : nondegenerate (Some "inplane"%string) scenario_inputs.
Proof. apply scenario_nondegenerate_for; lia. Qed.

Lemma scenario_update_coords_for (nbz nby nbx : Z) :
  nbz ≠ 0%Z → nby ≠ 0%Z → nbx ≠ 0%Z →
  Setup.update_coords scenario_with_grazing_angle [nbz; nby; nbx]
    (Some 0.01) (Some 110e-6) (Some 110e-6)
  = Ok (mscale (2 * pi)
          (transpose (inverse (Setup.mymatrix_of scenario_with_grazing_angle
                                 (scenario_inputs_for (nbz, nby, nbx)))))).
Proof.
  intros Hz Hy Hx.
  apply update_coords_regular; [apply scenario_inputs_for_eq |].
  apply det_mymatrix_of; [simpl; auto | reflexivity |].
  now apply scenario_nondegenerate_for.
Qed.

Lemma defined_branch_nonsingular_witness :
  det (Setup.mymatrix_of scenario_with_grazing_angle scenario_inputs) ≠ 0
  ∧ Setup.update_coords scenario_with_grazing_angle [41; 256; 256]%Z
      (Some 0.01) (Some 110e-6) (Some 110e-6)
    = Ok (mscale (2 * pi)
            (transpose (inverse (Setup.mymatrix_of scenario_with_grazing_angle
                                   scenario_inputs)))).
Proof.
  apply (defined_branch_nonsingular scenario_with_grazing_angle [41; 256; 256]%Z
           (Some 0.01) (Some 110e-6) (Some 110e-6) scenario_inputs).
  - simpl. auto.
  - reflexivity.
  - exact scenario_inputs_eq.
  - exact scenario_nondegenerate.
Defined.

(** Representative angles for every kind of branch: detector angles of 30
    degrees, with a grazing angle of 0 or 30 degrees. *)
Lemma representative_angles (r : option string) (g : R) :
  g = radians 0 ∨ g = radians 30 →
  angular_factor r g (radians 30) (radians 30) ≠ 0.
Proof.
  intros Hg.
  assert (E : radians 30 = PI / 6) by (unfold radians; field).
  assert (Hs : sin (PI / 6) ≠ 0) by (rewrite sin_PI6; lra).
  assert (Hc : cos (PI / 6) ≠ 0).
  { rewrite cos_PI6. pose proof (sqrt_lt_R0 3). lra. }
  unfold angular_factor. rewrite E.
  destruct (Setup.rocking_is r "outofplane"); [exact Hs |].
  repeat apply Rmult_integral_contrapositive_currified; try assumption.
  destruct Hg as [-> | ->]; [rewrite radians_0, cos_0; lra | now rewrite E].
Qed.

(** ** Voxel sizes *)

Lemma update_coords_Ok (self : Setup.instance) (array_shape : list Z)
    (tilt_angle pixel_x pixel_y : option R) (t : mat3) :
  Setup.update_coords self array_shape tilt_angle pixel_x pixel_y = Ok t →
  ∃ i, Setup.update_coords_inputs self array_shape tilt_angle pixel_x pixel_y = Ok i
    ∧ det (Setup.mymatrix_of self i) ≠ 0
    ∧ t = mscale (2 * pi) (transpose (inverse (Setup.mymatrix_of self i)))
    ∧ length array_shape = 3%nat.
Proof.
  unfold Setup.update_coords. intros H. inv_bind H. exists a.
  apply two_pi_inv_transpose_Ok in H as [Hd ->].
  repeat split; try assumption.
  unfold Setup.update_coords_inputs in Ha. repeat inv_bind Ha.
  unfold Setup.unpack3 in Ha9.
  destruct array_shape as [| ? [| ? [| ? [| ? ?]]]]; try discriminate. reflexivity.
Qed.

Lemma two_pi_inv_transpose_twice (m : mat3) :
  det m ≠ 0 →
  Setup.two_pi_inv_transpose (mscale (2 * pi) (transpose (inverse m))) = Ok m.
Proof.
  intros H. destruct (two_pi_inv_transpose_regular m H) as [_ Hd].
  destruct (two_pi_inv_transpose_regular _ Hd) as [-> _].
  now rewrite inverse_involution.
Qed.

(** C4. The map [X ↦ 2π·inverse(X)^T] is an involution on invertible 3x3
    matrices. Hence, whenever [update_coords] returns a transfer matrix, the
    [rec_matrix] of [voxel_sizes] is the construction matrix [mymatrix], the
    voxel sizes returned are [2π] over the norms of its rows 2, 1, 0 (z, y,
    x), and the transfer matrix recomputed from [rec_matrix] is the transfer
    matrix again, with the same voxel sizes: one round trip is a fixed
    point. *)
Theorem two_pi_inv_transpose_involution :
  (∀ X : mat3, det X ≠ 0 →
     ∃ Y, Setup.two_pi_inv_transpose X = Ok Y ∧ Setup.two_pi_inv_transpose Y = Ok X)
  ∧ (∀ (self : Setup.instance) (array_shape : list Z)
       (tilt_angle pixel_x pixel_y : option R) (T : mat3),
       Setup.update_coords self array_shape tilt_angle pixel_x pixel_y = Ok T →
       ∃ i, Setup.update_coords_inputs self array_shape tilt_angle pixel_x pixel_y = Ok i
         ∧ Setup.two_pi_inv_transpose T = Ok (Setup.mymatrix_of self i)
         ∧ Setup.voxel_sizes self array_shape tilt_angle pixel_x pixel_y
           = Ok (2 * pi / linalg_norm (row 2 (Setup.mymatrix_of self i)),
                 2 * pi / linalg_norm (row 1 (Setup.mymatrix_of self i)),
                 2 * pi / linalg_norm (row 0 (Setup.mymatrix_of self i)))
         ∧ Setup.two_pi_inv_transpose (Setup.mymatrix_of self i) = Ok T
         ∧ Setup.voxel_sizes_from T
           = Setup.voxel_sizes self array_shape tilt_angle pixel_x pixel_y).
Proof.
  split.
  - intros X HX. exists (mscale (2 * pi) (transpose (inverse X))).
    split; [now apply two_pi_inv_transpose_regular | now apply two_pi_inv_transpose_twice].
  - intros self array_shape tilt_angle pixel_x pixel_y T HT.
    destruct (update_coords_Ok _ _ _ _ _ _ HT) as (i & Hi & Hd & -> & Hl).
    exists i. split; [exact Hi |].
    pose proof (two_pi_inv_transpose_twice _ Hd) as Hrec.
    split; [exact Hrec |].
    assert (Hv : Setup.voxel_sizes_from
                   (mscale (2 * pi) (transpose (inverse (Setup.mymatrix_of self i))))
                 = Ok (2 * pi / linalg_norm (row 2 (Setup.mymatrix_of self i)),
                       2 * pi / linalg_norm (row 1 (Setup.mymatrix_of self i)),
                       2 * pi / linalg_norm (row 0 (Setup.mymatrix_of self i)))).
    { unfold Setup.voxel_sizes_from. rewrite Hrec. reflexivity. }
    assert (Hvs : Setup.voxel_sizes self array_shape tilt_angle pixel_x pixel_y
                  = Setup.voxel_sizes_from
                      (mscale (2 * pi) (transpose (inverse (Setup.mymatrix_of self i))))).
    { unfold Setup.voxel_sizes. rewrite Hl, HT. reflexivity. }
    split; [now rewrite Hvs |].
    split; [now apply two_pi_inv_transpose_regular | now rewrite Hvs].
Qed.

Lemma scenario_update_coords :
  Setup.update_coords scenario_with_grazing_angle [41; 256; 256]%Z
    (Some 0.01) (Some 110e-6) (Some 110e-6)
  = Ok (mscale (2 * pi)
          (transpose (inverse (Setup.mymatrix_of scenario_with_grazing_angle
                                 scenario_inputs)))).
Proof. apply scenario_update_coords_for; lia. Qed.

Lemma two_pi_inv_transpose_involution_witness :
  ∃ i, Setup.update_coords_inputs scenario_with_grazing_angle [41; 256; 256]%Z
         (Some 0.01) (Some 110e-6) (Some 110e-6) = Ok i
    ∧ Setup.voxel_sizes scenario_with_grazing_angle [41; 256; 256]%Z
        (Some 0.01) (Some 110e-6) (Some 110e-6)
      = Ok (2 * pi / linalg_norm (row 2 (Setup.mymatrix_of scenario_with_grazing_angle i)),
            2 * pi / linalg_norm (row 1 (Setup.mymatrix_of scenario_with_grazing_angle i)),
            2 * pi / linalg_norm (row 0 (Setup.mymatrix_of scenario_with_grazing_angle i))).
Proof.
  destruct (proj2 two_pi_inv_transpose_involution scenario_with_grazing_angle
              [41; 256; 256]%Z (Some 0.01) (Some 110e-6) (Some 110e-6) _
              scenario_update_coords) as (i & Hi & _ & Hv & _).
  exists i. split; assumption.
Defined.

(** ** The rocking step *)

Lemma defined_branch_supported (b : string) (r : option string) :
  defined_branch b r = true → In b Setup.supported_beamlines.
Proof.
  unfold defined_branch, Setup.str_in. cbn [existsb In Setup.supported_beamlines].
  destruct (String.eqb_spec b "ID01"); [auto 10 |].
  destruct (String.eqb_spec b "P10"); [auto 10 |].
  destruct (String.eqb_spec b "NANOMAX"); [auto 10 |].
  destruct (String.eqb_spec b "34ID"); [auto 10 |].
  destruct (String.eqb_spec b "SIXS_2018"); [auto 10 |].
  destruct (String.eqb_spec b "SIXS_2019"); [auto 10 |].
  destruct (String.eqb_spec b "CRISTAL"); [auto 10 |].
  discriminate.
Qed.

(** The determinant is linear in the rocking step. *)
Lemma det_mymatrix_tilt (b : string) (r : option string)
    (g i o t d px py lz : R) (nbz nby nbx : Z) :
  det (Setup.mymatrix r g i o t d px py lz nbz nby nbx b)
  = t * det (Setup.mymatrix r g i o 1 d px py lz nbz nby nbx b).
Proof.
  destruct (defined_branch b r) eqn:E.
  - pose proof (defined_branch_supported b r E) as Hb.
    rewrite !det_mymatrix by assumption. unfold column_scale. ring.
  - rewrite !mymatrix_undefined by assumption. rewrite det_zeros33. ring.
Qed.

Lemma radians_neq0 (x : R) : x ≠ 0 → radians x ≠ 0.
Proof.
  intros H. unfold radians. pose proof PI_RGT_0. unfold Rdiv.
  apply Rmult_integral_contrapositive_currified; [| apply Rinv_neq_0_compat; lra].
  apply Rmult_integral_contrapositive_currified; [exact H | lra].
Qed.

Lemma radians_eq0 (x : R) : radians x = 0 → x = 0.
Proof.
  intros H. destruct (Req_dec_T x 0) as [E | E]; [exact E |].
  now apply radians_neq0 in E.
Qed.

Lemma update_coords_inputs_tilt (self : Setup.instance) (array_shape : list Z)
    (tilt tilt' : R) (pixel_x pixel_y : option R) (i : Setup.coords_inputs) :
  Setup.update_coords_inputs self array_shape (Some tilt) pixel_x pixel_y = Ok i →
  Setup.ci_tilt i = radians tilt
  ∧ Setup.update_coords_inputs self array_shape (Some tilt') pixel_x pixel_y
    = Ok (with_tilt tilt' i).
Proof.
  unfold Setup.update_coords_inputs. intros H.
  bind_inv H as w Hw. bind_inv H as d Hd. bind_inv H as px Hpx. bind_inv H as py Hpy.
  bind_inv H as o Ho. bind_inv H as a Ha. bind_inv H as g Hg. bind_inv H as mg Hmg.
  bind_inv H as t Ht. bind_inv H as s Hs.
  rewrite Hw; cbn [mbind result_bind]. rewrite Hd; cbn [mbind result_bind].
  rewrite Hpx; cbn [mbind result_bind]. rewrite Hpy; cbn [mbind result_bind].
  rewrite Ho; cbn [mbind result_bind]. rewrite Ha; cbn [mbind result_bind].
  rewrite Hg; cbn [mbind result_bind]. rewrite Hmg; cbn [mbind result_bind].
  cbn [Setup.radians_opt mbind result_bind]. rewrite Hs; cbn [mbind result_bind].
  injection Ht as <-. injection H as <-. split; reflexivity.
Qed.

Lemma update_coords_tilt_neq0 (self : Setup.instance) (array_shape : list Z)
    (tilt : R) (pixel_x pixel_y : option R) (T : mat3) :
  Setup.update_coords self array_shape (Some tilt) pixel_x pixel_y = Ok T → tilt ≠ 0.
Proof.
  intros HT.
  destruct (update_coords_Ok _ _ _ _ _ _ HT) as (i & Hi & Hd & _ & _).
  destruct (update_coords_inputs_tilt _ _ _ tilt _ _ _ Hi) as [Hti _].
  unfold Setup.mymatrix_of in Hd.
  destruct (Setup.ci_shape i) as [[nbz nby] nbx] eqn:Es.
  rewrite det_mymatrix_tilt in Hd.
  intros ->. apply Hd. rewrite Hti, radians_0. ring.
Qed.

Lemma update_coords_other_tilt (self : Setup.instance) (array_shape : list Z)
    (tilt tilt' : R) (pixel_x pixel_y : option R) (T : mat3) :
  Setup.update_coords self array_shape (Some tilt) pixel_x pixel_y = Ok T →
  tilt' ≠ 0 →
  ∃ T', Setup.update_coords self array_shape (Some tilt') pixel_x pixel_y = Ok T'
     ∧ det T' ≠ 0.
Proof.
  intros HT Ht'.
  destruct (update_coords_Ok _ _ _ _ _ _ HT) as (i & Hi & Hd & _ & _).
  destruct (update_coords_inputs_tilt _ _ _ tilt' _ _ _ Hi) as [Hti Hi'].
  unfold Setup.mymatrix_of in Hd.
  destruct (Setup.ci_shape i) as [[nbz nby] nbx] eqn:Es.
  rewrite det_mymatrix_tilt in Hd.
  assert (Hd' : det (Setup.mymatrix_of self (with_tilt tilt' i)) ≠ 0).
  { unfold Setup.mymatrix_of. cbn [with_tilt Setup.ci_shape Setup.ci_wavelength
      Setup.ci_distance Setup.ci_pixel_x Setup.ci_pixel_y Setup.ci_outofplane
      Setup.ci_inplane Setup.ci_mygrazing_angle Setup.ci_tilt].
    rewrite Es, det_mymatrix_tilt.
    apply Rmult_integral_contrapositive_currified; [now apply radians_neq0 |].
    intros E. apply Hd. rewrite E. ring. }
  eexists. split; [apply (update_coords_regular _ _ _ _ _ _ Hi' Hd') |].
  now apply two_pi_inv_transpose_regular.
Qed.

Lemma update_coords_det (self : Setup.instance) (array_shape : list Z)
    (tilt_angle pixel_x pixel_y : option R) (T : mat3) :
  Setup.update_coords self array_shape tilt_angle pixel_x pixel_y = Ok T → det T ≠ 0.
Proof.
  intros HT. destruct (update_coords_Ok _ _ _ _ _ _ HT) as (i & Hi & Hd & -> & _).
  now apply two_pi_inv_transpose_regular.
Qed.

Lemma voxel_sizes_from_regular (T : mat3) :
  det T ≠ 0 → ∃ v, Setup.voxel_sizes_from T = Ok v.
Proof.
  intros H. unfold Setup.voxel_sizes_from.
  destruct (two_pi_inv_transpose_regular T H) as [-> _]. eexists. reflexivity.
Qed.

(** ** The centered grid *)

Lemma length_arange (a b : Z) : length (arange a b) = Z.to_nat (b - a).
Proof. unfold arange. now rewrite length_map, length_seq. Qed.

Lemma centered_range_width (n : nat) :
  (Z.of_nat n / 2 - - Z.of_nat n / 2 = Z.of_nat n)%Z.
Proof. Z.div_mod_to_equations. lia. Qed.

Lemma centered_range_seq (n : nat) :
  Setup.centered_range n
  = map (fun k => (- Z.of_nat n / 2 + Z.of_nat k)%Z) (seq 0 n).
Proof.
  unfold Setup.centered_range, arange.
  now rewrite centered_range_width, Nat2Z.id.
Qed.

Lemma length_centered_range (n : nat) : length (Setup.centered_range n) = n.
Proof. now rewrite centered_range_seq, length_map, length_seq. Qed.

Lemma centered_range_first (n : nat) :
  (- Z.of_nat n / 2 = - ((Z.of_nat n + 1) / 2))%Z.
Proof. Z.div_mod_to_equations. lia. Qed.

(** C7, as stated, fails: for the odd length 3 the grid is -2, -1, 0 and not
    the three integers from -(3 // 2) = -1. *)
Lemma centered_range_3 :
  Setup.centered_range 3 = [-2; -1; 0]%Z
  ∧ Setup.centered_range 3 ≠ map (fun k => (- (3 / 2) + Z.of_nat k)%Z) (seq 0 3).
Proof. split; [reflexivity | discriminate]. Qed.

(** ** Interpolation *)

Lemma strictly_ascending_affine (voxel : R) (a : Z) (s m : nat) :
  0 < voxel →
  scipy.strictly_ascending
    (map (fun i => IZR i * voxel) (map (fun k => (a + Z.of_nat k)%Z) (seq s m))) = true.
Proof.
  intros Hv. revert s. induction m as [| m IH]; intros s; [reflexivity |].
  cbn [seq map scipy.strictly_ascending].
  specialize (IH (S s)). destruct m as [| m]; [reflexivity |].
  cbn [seq map] in *. rewrite IH, andb_true_r.
  apply Rltb_true. apply Rmult_lt_compat_r; [assumption |].
  apply IZR_lt. lia.
Qed.

Lemma strictly_ascending_scaled_range (n : nat) (voxel : R) :
  0 < voxel → scipy.strictly_ascending (Setup.scaled_range n voxel) = true.
Proof.
  intros Hv. unfold Setup.scaled_range. rewrite centered_range_seq.
  now apply strictly_ascending_affine.
Qed.

Lemma float_range_scaled (n : nat) : Setup.float_range n = Setup.scaled_range n 1.
Proof.
  unfold Setup.float_range, Setup.scaled_range. apply map_ext. intros i. ring.
Qed.

Lemma strictly_ascending_float_range (n : nat) :
  scipy.strictly_ascending (Setup.float_range n) = true.
Proof. rewrite float_range_scaled. apply strictly_ascending_scaled_range. lra. Qed.

Lemma length_scaled_range (n : nat) (voxel : R) :
  length (Setup.scaled_range n voxel) = n.
Proof. unfold Setup.scaled_range. now rewrite length_map, length_centered_range. Qed.

Lemma length_float_range (n : nat) : length (Setup.float_range n) = n.
Proof. unfold Setup.float_range. now rewrite length_map, length_centered_range. Qed.

Lemma length_bind_const {A B : Type} (f : A → list B) (l : list A) (m : nat) :
  (∀ x, length (f x) = m) → length (l ≫= f) = (length l * m)%nat.
Proof.
  intros H. induction l as [| x l IH]; [reflexivity |].
  rewrite bind_cons, length_app, H, IH. reflexivity.
Qed.

Lemma length_meshgrid_ij (gz gy gx : list R) :
  length (meshgrid_ij gz gy gx) = (length gz * (length gy * length gx))%nat.
Proof.
  unfold meshgrid_ij.
  apply length_bind_const. intros z.
  apply length_bind_const. intros y.
  rewrite (length_bind_const _ gx 1%nat); [lia | reflexivity].
Qed.

Lemma mapM_call1 (rgi : scipy.RegularGridInterpolator) (xi : list vec3) :
  scipy.bounds_error rgi = false →
  mapM (scipy.call1 rgi) xi = Ok (map (scipy.sample rgi) xi).
Proof.
  intros Hb. induction xi as [| p xi IH]; [reflexivity |].
  change (mapM (scipy.call1 rgi) (p :: xi))
    with (y ← scipy.call1 rgi p; k ← mapM (scipy.call1 rgi) xi; mret (y :: k)).
  rewrite IH. unfold scipy.call1. rewrite Hb. reflexivity.
Qed.

Lemma interpolator_init (axes : list R * list R * list R) (obj : ndarray complex)
    (rgi : scipy.RegularGridInterpolator) :
  scipy.RegularGridInterpolator_init axes obj false (Some czero) = Ok rgi →
  rgi = Setup.interpolator axes obj.
Proof.
  unfold scipy.RegularGridInterpolator_init. destruct axes as [[gz gy] gx].
  intros H. inv_bind H.
  destruct (shape obj) as [| nz [| ny [| nx [| ? ?]]]]; try discriminate H.
  inv_bind H. now injection H as <-.
Qed.

Lemma interpolator_init_Ok (gz gy gx : list R) (obj : ndarray complex) (nbz nby nbx : nat) :
  shape obj = [nbz; nby; nbx] →
  length gz = nbz → length gy = nby → length gx = nbx →
  scipy.strictly_ascending gz = true → scipy.strictly_ascending gy = true →
  scipy.strictly_ascending gx = true →
  scipy.RegularGridInterpolator_init (gz, gy, gx) obj false (Some czero)
  = Ok (Setup.interpolator (gz, gy, gx) obj).
Proof.
  intros Hs Hz Hy Hx Az Ay Ax. unfold scipy.RegularGridInterpolator_init.
  rewrite Az, Ay, Ax, Hs, Hz, Hy, Hx, !Nat.eqb_refl. reflexivity.
Qed.

Lemma size_of_3 (nbz nby nbx : nat) : size_of [nbz; nby; nbx] = (nbz * (nby * nbx))%nat.
Proof. unfold size_of. cbn [fold_right]. lia. Qed.

(** What [interpolate] returns, when it returns. *)
Lemma interpolate_Ok (obj : ndarray complex) (nbz nby nbx : nat)
    (axes : list R * list R * list R) (new_zyx : list vec3) (out : ndarray complex) :
  Setup.interpolate obj nbz nby nbx axes new_zyx = Ok out →
  out = {| shape := [nbz; nby; nbx]; dtype_of := dtype_of obj;
           flat := map (astype_elt (dtype_of obj))
                       (map (scipy.sample (Setup.interpolator axes obj)) new_zyx) |}.
Proof.
  unfold Setup.interpolate. intros H. inv_bind H.
  apply interpolator_init in Ha as ->.
  unfold scipy.call in H. rewrite mapM_call1 in H by reflexivity.
  cbn [mbind result_bind] in H. unfold reshape in H. cbn [flat] in H.
  destruct (Nat.eqb _ _); [| discriminate H].
  cbn [mbind result_bind] in H. now injection H as <-.
Qed.

(** [interpolate] returns whenever the axes fit the object and there is one
    point for each element: a point outside the grid raises nothing. *)
Lemma interpolate_total (obj : ndarray complex) (nbz nby nbx : nat)
    (gz gy gx : list R) (new_zyx : list vec3) :
  shape obj = [nbz; nby; nbx] →
  length gz = nbz → length gy = nby → length gx = nbx →
  scipy.strictly_ascending gz = true → scipy.strictly_ascending gy = true →
  scipy.strictly_ascending gx = true →
  length new_zyx = (nbz * (nby * nbx))%nat →
  Setup.interpolate obj nbz nby nbx (gz, gy, gx) new_zyx
  = Ok {| shape := [nbz; nby; nbx]; dtype_of := dtype_of obj;
          flat := map (astype_elt (dtype_of obj))
                      (map (scipy.sample (Setup.interpolator (gz, gy, gx) obj)) new_zyx) |}.
Proof.
  intros Hs Hz Hy Hx Az Ay Ax Hl. unfold Setup.interpolate.
  rewrite (interpolator_init_Ok gz gy gx obj nbz nby nbx) by assumption.
  cbn [mbind result_bind]. unfold scipy.call.
  rewrite mapM_call1 by reflexivity. cbn [mbind result_bind].
  unfold reshape. cbn [flat]. rewrite length_map, Hl, size_of_3, Nat.eqb_refl.
  reflexivity.
Qed.




(** ** [orthogonalize] and [detector_frame] *)

Lemma unpack_shape_Ok (shp : list nat) (nbz nby nbx : nat) :
  Setup.unpack_shape shp = Ok (nbz, nby, nbx) → shp = [nbz; nby; nbx].
Proof.
  unfold Setup.unpack_shape.
  destruct shp as [| a [| b [| c [| ? ?]]]]; try discriminate. now intros [= -> -> ->].
Qed.

(** What [orthogonalize] returns, when it returns: the interpolation of
    [obj], on the centered integer axes, at the images under the inverse of a
    transfer matrix of the points of the centered grid scaled by the voxel
    size. *)
Lemma orthogonalize_Ok (self : Setup.instance) (obj : ndarray complex)
    (initial_shape : option (list Z)) (voxel_size : pyval) (kwargs : gmap string pyval)
    (out : ndarray complex) (vz vy vx : R) :
  Setup.orthogonalize self obj initial_shape voxel_size kwargs = Ok (out, (vz, vy, vx)) →
  ∃ nbz nby nbx tilt px py T,
    shape obj = [nbz; nby; nbx]
    ∧ Setup.update_coords self [Z.of_nat nbz; Z.of_nat nby; Z.of_nat nbx] tilt px py = Ok T
    ∧ det T ≠ 0
    ∧ Setup.interpolate obj nbz nby nbx
        (Setup.float_range nbz, Setup.float_range nby, Setup.float_range nbx)
        (map (Setup.new_coordinates (inverse T))
             (meshgrid_ij (Setup.scaled_range nbz vz) (Setup.scaled_range nby vy)
                          (Setup.scaled_range nbx vx))) = Ok out.
Proof.
  unfold Setup.orthogonalize. intros H.
  bind_inv H as u1 H1. bind_inv H as ishape H2. bind_inv H as abs_tilt H3.
  bind_inv H as realspace H4. bind_inv H as shp H5.
  destruct shp as [[nbz nby] nbx]. apply unpack_shape_Ok in H5.
  bind_inv H as q H6. destruct q as [[[realspace' tilt] pixel_y] pixel_x].
  bind_inv H as vs H7. bind_inv H as T H8. destruct vs as [[voxel_z voxel_y] voxel_x].
  bind_inv H as Ti H9. apply linalg_inv_Ok in H9 as [Hd ->].
  bind_inv H as ortho_obj H10. injection H as -> -> -> ->.
  exists nbz, nby, nbx, tilt, pixel_x, pixel_y, T. auto.
Qed.

(** What [detector_frame] returns, when it returns: the interpolation of
    [obj], on the centered axes scaled by the voxel size, at the images under
    the transfer matrix of the points of the centered integer grid. *)
Lemma detector_frame_Ok (self : Setup.instance) (obj : ndarray complex)
    (voxel_size : pyval) (kwargs : gmap string pyval) (out : ndarray complex) :
  Setup.detector_frame self obj voxel_size kwargs = Ok out →
  ∃ nbz nby nbx vz vy vx T,
    shape obj = [nbz; nby; nbx]
    ∧ Setup.update_coords self [Z.of_nat nbz; Z.of_nat nby; Z.of_nat nbx]
        (Setup._tilt_angle self) (Setup._pixel_x self) (Setup._pixel_y self) = Ok T
    ∧ Setup.interpolate obj nbz nby nbx
        (Setup.scaled_range nbz vz, Setup.scaled_range nby vy, Setup.scaled_range nbx vx)
        (map (Setup.new_coordinates T)
             (meshgrid_ij (Setup.float_range nbz) (Setup.float_range nby)
                          (Setup.float_range nbx))) = Ok out.
Proof.
  unfold Setup.detector_frame. intros H.
  bind_inv H as vs H1. bind_inv H as u2 H2. bind_inv H as shp H3.
  destruct shp as [[nbz nby] nbx]. apply unpack_shape_Ok in H3.
  bind_inv H as T H4. destruct vs as [[vz vy] vx].
  exists nbz, nby, nbx, vz, vy, vx, T. auto.
Qed.

(** [orthogonalize] called without [initial_shape] returns whenever the
    transfer matrix of the shape of [obj] exists and [voxel_size] is either
    left out or acceptable. *)
Lemma orthogonalize_returns (self : Setup.instance) (obj : ndarray complex)
    (nbz nby nbx : nat) (tilt : R) (T : mat3) (voxel_size : pyval)
    (kwargs : gmap string pyval) :
  shape obj = [nbz; nby; nbx] →
  check_kwargs ["title"%string] kwargs = Ok tt →
  Setup._tilt_angle self = Some tilt →
  Setup.update_coords self [Z.of_nat nbz; Z.of_nat nby; Z.of_nat nbx] (Some tilt)
    (Setup._pixel_x self) (Setup._pixel_y self) = Ok T →
  (truthy voxel_size = false ∨ ∃ v, Setup.voxel_size_assert voxel_size = Ok v) →
  ∃ vz vy vx,
    Setup.orthogonalize self obj None voxel_size kwargs
    = Ok ({| shape := [nbz; nby; nbx]; dtype_of := dtype_of obj;
             flat := map (astype_elt (dtype_of obj))
                       (map (scipy.sample
                               (Setup.interpolator
                                  (Setup.float_range nbz, Setup.float_range nby,
                                   Setup.float_range nbx) obj))
                          (map (Setup.new_coordinates (inverse T))
                             (meshgrid_ij (Setup.scaled_range nbz vz)
                                (Setup.scaled_range nby vy)
                                (Setup.scaled_range nbx vx)))) |},
          (vz, vy, vx)).
Proof.
  intros Hs Hk Ht HT Hv.
  pose proof (update_coords_tilt_neq0 _ _ _ _ _ _ HT) as Hne.
  destruct (update_coords_other_tilt _ _ _ (Rabs tilt) _ _ _ HT) as (T' & HT' & Hd');
    [now apply Rabs_no_R0 |].
  destruct (voxel_sizes_from_regular T' Hd') as ([[dz dy] dx] & Hvs).
  pose proof (update_coords_det _ _ _ _ _ _ HT) as Hd.
  assert (Hvox : Setup.voxel_sizes self [Z.of_nat nbz; Z.of_nat nby; Z.of_nat nbx]
                   (Some (Rabs tilt)) (Setup._pixel_x self) (Setup._pixel_y self)
                 = Ok (dz, dy, dx)).
  { unfold Setup.voxel_sizes. cbn [length Nat.eqb assert mbind result_bind].
    now rewrite HT'. }
  assert (Hsel : ∃ vz vy vx,
            (if negb (truthy voxel_size) then Ok (dz, dy, dx)
             else Setup.voxel_size_assert voxel_size) = Ok (vz, vy, vx)).
  { destruct Hv as [-> | [[[vz vy] vx] Hv]]; [now exists dz, dy, dx |].
    destruct (truthy voxel_size); [rewrite Hv |]; eauto. }
  destruct Hsel as (vz & vy & vx & Hsel). exists vz, vy, vx.
  unfold Setup.orthogonalize.
  rewrite Hk, Hs, Ht. cbn [mbind result_bind map Setup.abs_opt].
  rewrite Hvox. cbn [mbind result_bind Setup.unpack_shape nth].
  rewrite !Z.eqb_refl. cbn [negb orb mbind result_bind].
  rewrite Hsel. cbn [mbind result_bind]. rewrite HT. cbn [mbind result_bind].
  rewrite (linalg_inv_regular T Hd). cbn [mbind result_bind].
  rewrite interpolate_total; try assumption;
    rewrite ?length_float_range, ?strictly_ascending_float_range; try reflexivity.
  rewrite length_map, length_meshgrid_ij, !length_scaled_range. reflexivity.
Qed.

Lemma lookup_map {A B : Type} (f : A → B) (l : list A) (k : nat) :
  map f l !! k = f <$> l !! k.
Proof.
  revert k. induction l as [| x l IH]; intros [| k]; try reflexivity. apply IH.
Qed.

(** C7, amended. On an axis of length [n] the centered range is the [n]
    consecutive integers from [(-n) // 2], the opposite of [n / 2] rounded
    up; [orthogonalize] interpolates on these integer axes at the images of
    the grid of the same ranges scaled by the voxel size, and
    [detector_frame] interpolates on the ranges scaled by the voxel size at
    the images of the grid of the integer ranges: both paths number every
    axis in the same way. *)
Theorem centered_grid_convention :
  (∀ n : nat,
     Setup.centered_range n
     = map (fun k => (- Z.of_nat n / 2 + Z.of_nat k)%Z) (seq 0 n)
     ∧ (- Z.of_nat n / 2 = - ((Z.of_nat n + 1) / 2))%Z
     ∧ Setup.float_range n = map IZR (Setup.centered_range n)
     ∧ ∀ voxel, Setup.scaled_range n voxel
                = map (fun i => IZR i * voxel) (Setup.centered_range n))
  ∧ (∀ self obj initial_shape voxel_size kwargs out vz vy vx,
       Setup.orthogonalize self obj initial_shape voxel_size kwargs
       = Ok (out, (vz, vy, vx)) →
       ∃ nbz nby nbx matrix,
         shape obj = [nbz; nby; nbx]
         ∧ flat out
           = map (astype_elt (dtype_of obj))
               (map (scipy.sample
                       (Setup.interpolator
                          (Setup.float_range nbz, Setup.float_range nby,
                           Setup.float_range nbx) obj))
                  (map (Setup.new_coordinates matrix)
                     (meshgrid_ij (Setup.scaled_range nbz vz)
                        (Setup.scaled_range nby vy) (Setup.scaled_range nbx vx)))))
  ∧ (∀ self obj voxel_size kwargs out,
       Setup.detector_frame self obj voxel_size kwargs = Ok out →
       ∃ nbz nby nbx vz vy vx matrix,
         shape obj = [nbz; nby; nbx]
         ∧ flat out
           = map (astype_elt (dtype_of obj))
               (map (scipy.sample
                       (Setup.interpolator
                          (Setup.scaled_range nbz vz, Setup.scaled_range nby vy,
                           Setup.scaled_range nbx vx) obj))
                  (map (Setup.new_coordinates matrix)
                     (meshgrid_ij (Setup.float_range nbz) (Setup.float_range nby)
                        (Setup.float_range nbx))))).
Proof.
  split; [| split].
  - intros n. split; [apply centered_range_seq |].
    split; [apply centered_range_first |]. split; [reflexivity | intros; reflexivity].
  - intros self obj initial_shape voxel_size kwargs out vz vy vx H.
    apply orthogonalize_Ok in H as (nbz & nby & nbx & tilt & px & py & T & Hs & _ & _ & H).
    apply interpolate_Ok in H as ->. exists nbz, nby, nbx, (inverse T). now split.
  - intros self obj voxel_size kwargs out H.
    apply detector_frame_Ok in H as (nbz & nby & nbx & vz & vy & vx & T & Hs & _ & H).
    apply interpolate_Ok in H as ->. exists nbz, nby, nbx, vz, vy, vx, T. now split.
Qed.


Lemma example_transfer_matrix :
  Setup.update_coords scenario_with_grazing_angle
    [Z.of_nat 2; Z.of_nat 2; Z.of_nat 2] (Some 0.01)
    (Setup._pixel_x scenario_with_grazing_angle)
    (Setup._pixel_y scenario_with_grazing_angle)
  = Ok (mscale (2 * pi)
          (transpose (inverse (Setup.mymatrix_of scenario_with_grazing_angle
                                 (scenario_inputs_for (2, 2, 2)%Z))))).
Proof. apply (scenario_update_coords_for 2 2 2); lia. Qed.

Lemma check_kwargs_empty (allowed : list string) : check_kwargs allowed ∅ = Ok tt.
Proof. unfold check_kwargs. now rewrite map_to_list_empty. Qed.

Lemma example_orthogonalize :
  ∃ vz vy vx out,
    Setup.orthogonalize scenario_with_grazing_angle example_volume None PyNone ∅
    = Ok (out, (vz, vy, vx)).
Proof.
  destruct (orthogonalize_returns scenario_with_grazing_angle example_volume 2 2 2 0.01 _
              PyNone ∅ eq_refl (check_kwargs_empty _) eq_refl example_transfer_matrix
              (or_introl eq_refl)) as (vz & vy & vx & H).
  eauto.
Qed.

Lemma centered_grid_convention_witness :
  ∃ out vz vy vx nbz nby nbx matrix,
    Setup.orthogonalize scenario_with_grazing_angle example_volume None PyNone ∅
    = Ok (out, (vz, vy, vx))
    ∧ shape example_volume = [nbz; nby; nbx]
    ∧ flat out
      = map (astype_elt (dtype_of example_volume))
          (map (scipy.sample
                  (Setup.interpolator
                     (Setup.float_range nbz, Setup.float_range nby,
                      Setup.float_range nbx) example_volume))
             (map (Setup.new_coordinates matrix)
                (meshgrid_ij (Setup.scaled_range nbz vz)
                   (Setup.scaled_range nby vy) (Setup.scaled_range nbx vx)))).
Proof.
  destruct example_orthogonalize as (vz & vy & vx & out & H).
  destruct (proj1 (proj2 centered_grid_convention) _ _ _ _ _ _ _ _ _ H)
    as (nbz & nby & nbx & matrix & Hs & Hf).
  exists out, vz, vy, vx, nbz, nby, nbx, matrix. auto.
Defined.


(** C8. On the instances that the class makes, [orthogonalize] returns no
    array at all. On the instance of the scenario, for every 3D array [obj]
    and every [voxel_size], the call reaches [voxel_sizes] on line 477, which
    calls [update_coords], and line 592 raises [AttributeError] on
    [self.grazing_angle] before any resampling is done. *)
Theorem scenario_orthogonalize_raises :
  scenario_setup = Ok scenario_instance
  ∧ ∀ (obj : ndarray complex) (voxel_size : pyval),
      length (shape obj) = 3%nat →
      Setup.orthogonalize scenario_instance obj None voxel_size ∅ = Raise AttributeError.
Proof.
  split; [exact scenario_setup_eq |].
  intros obj voxel_size Hs. unfold Setup.orthogonalize.
  rewrite check_kwargs_empty. cbn [mbind result_bind].
  change (Setup.abs_opt (Setup._tilt_angle scenario_instance)) with (Ok (Rabs 0.01)).
  cbn [mbind result_bind]. unfold Setup.voxel_sizes.
  rewrite length_map, Hs. cbn [Nat.eqb assert mbind result_bind].
  rewrite update_coords_no_grazing
    by (apply class_instance_invariant, scenario_is_class_instance).
  reflexivity.
Qed.

Lemma scenario_orthogonalize_raises_witness :
  Setup.orthogonalize scenario_instance example_volume None PyNone ∅
  = Raise AttributeError.
Proof.
  apply (proj2 scenario_orthogonalize_raises example_volume PyNone). reflexivity.
Defined.

(** ** [mask_detector] *)

#[local] Close Scope R_scope.

Lemma mask_Eiger2M_tables (data mask : Detector.loc) (nb_img : R)
    (h : gmap nat (ndarray R)) :
  Detector.mask_Eiger2M data mask nb_img h
  = (h ← assign_all data 0%R Eiger2M_data_gaps h;
     h ← assign_all mask 1%R Eiger2M_mask_gaps h;
     h ← Detector.store_set_above mask data (1e6 * nb_img)%R 1%R h;
     Detector.store_set_above data data (1e6 * nb_img)%R 0%R h).
Proof.
  unfold Detector.mask_Eiger2M, Eiger2M_data_gaps, Eiger2M_mask_gaps.
  cbn [assign_all].
  repeat (destruct (Detector.store_setitem2 _ _ _ _ _); cbn [mbind result_bind];
          [| reflexivity]).
  reflexivity.
Qed.

Lemma flat_index_div (nc i j : nat) : j < nc → (i * nc + j) / nc = i.
Proof.
  intros H. rewrite Nat.div_add_l by lia. rewrite Nat.div_small by assumption. lia.
Qed.

Lemma flat_index_mod (nc i j : nat) : j < nc → (i * nc + j) mod nc = j.
Proof.
  intros H. rewrite Nat.add_comm, Nat.Div0.mod_add. now apply Nat.mod_small.
Qed.

(** One assignment [a[rows, cols] = v], read at a position. *)
Lemma setitem2_spec (rows cols : Detector.index) (v : R) (a : ndarray R)
    (nr nc : nat) (rr cr : nat * nat) :
  shape a = [nr; nc] →
  Detector.index_range nr rows = Ok rr → Detector.index_range nc cols = Ok cr →
  ∃ a', Detector.setitem2 rows cols v a = Ok a'
    ∧ shape a' = [nr; nc]
    ∧ length (flat a') = length (flat a)
    ∧ ∀ i j x, j < nc → flat a !! (i * nc + j) = Some x →
        flat a' !! (i * nc + j)
        = Some (if Detector.in_range i rr && Detector.in_range j cr then v else x).
Proof.
  intros Hs Hr Hc. unfold Detector.setitem2. rewrite Hs, Hr, Hc.
  cbn [mbind result_bind]. eexists. split; [reflexivity |].
  cbn [shape flat]. split; [reflexivity |]. split; [apply length_imap |].
  intros i j x Hj Hx. rewrite list_lookup_imap, Hx. cbn [fmap option_fmap option_map].
  now rewrite flat_index_div, flat_index_mod.
Qed.

Lemma valid_entry_ranges (nr nc : nat) (rows cols : Detector.index) :
  valid_entry nr nc (rows, cols) = true →
  ∃ rr cr, Detector.index_range nr rows = Ok rr ∧ Detector.index_range nc cols = Ok cr.
Proof.
  unfold valid_entry. cbn [fst snd].
  destruct (Detector.index_range nr rows) as [rr |]; [| discriminate].
  destruct (Detector.index_range nc cols) as [cr |]; [| discriminate]. eauto.
Qed.

(** The assignments of a table, read at a position: [v] where a subscript of
    the table covers the position, the former value elsewhere. *)
Lemma assign_all_spec (target : Detector.loc) (v : R) (nr nc : nat)
    (table : list (Detector.index * Detector.index)) :
  forallb (valid_entry nr nc) table = true →
  ∀ (h : gmap nat (ndarray R)) (a : ndarray R),
    h !! target = Some a → shape a = [nr; nc] →
    ∃ a', assign_all target v table h = Ok (<[target := a']> h)
      ∧ shape a' = [nr; nc]
      ∧ length (flat a') = length (flat a)
      ∧ ∀ i j x, j < nc → flat a !! (i * nc + j) = Some x →
          flat a' !! (i * nc + j) = Some (if covered nr nc table i j then v else x).
Proof.
  induction table as [| [rows cols] table IH]; intros Hv h a Ha Hs.
  - exists a. cbn [assign_all covered existsb]. rewrite insert_id by assumption. auto.
  - cbn [forallb] in Hv. apply andb_prop in Hv as [He Hv].
    destruct (valid_entry_ranges _ _ _ _ He) as (rr & cr & Hr & Hc).
    destruct (setitem2_spec rows cols v a nr nc rr cr Hs Hr Hc) as (a1 & H1 & Hs1 & Hl1 & Hx1).
    cbn [assign_all]. unfold Detector.store_setitem2, Detector.deref.
    rewrite Ha. cbn [mbind result_bind]. rewrite H1. cbn [mbind result_bind].
    destruct (IH Hv (<[target := a1]> h) a1 (lookup_insert_eq _ _ _) Hs1)
      as (a' & H' & Hs' & Hl' & Hx').
    exists a'. rewrite H', insert_insert_eq.
    split; [reflexivity |]. split; [exact Hs' |]. split; [congruence |].
    intros i j x Hj Hx. rewrite (Hx' i j _ Hj (Hx1 i j x Hj Hx)).
    cbn [covered existsb]. unfold covers at 1. cbn [fst snd]. rewrite Hr, Hc.
    fold (covered nr nc table i j).
    destruct (Detector.in_range i rr && Detector.in_range j cr); cbn [orb];
      [now rewrite if_same | reflexivity].
Qed.

(** [target[source > threshold] = v], read at a position. *)
Lemma setitem_where_above (threshold v : R) (s a : ndarray R) (k : nat) (xs xa : R) :
  flat s !! k = Some xs → flat a !! k = Some xa →
  flat (Detector.setitem_where (map (fun x => Rltb threshold x) (flat s)) v a) !! k
  = Some (if Rltb threshold xs then v else xa).
Proof.
  intros Hs Ha. unfold Detector.setitem_where. cbn [flat].
  rewrite lookup_zip_with, lookup_map, Hs, Ha. reflexivity.
Qed.

Lemma store_set_above_eq (target source : Detector.loc) (threshold v : R)
    (h : gmap nat (ndarray R)) (s a : ndarray R) :
  h !! source = Some s → h !! target = Some a →
  Detector.store_set_above target source threshold v h
  = Ok (<[target := Detector.setitem_where
                      (map (fun x => Rltb threshold x) (flat s)) v a]> h).
Proof.
  intros Hs Ha. unfold Detector.store_set_above, Detector.deref. now rewrite Hs, Ha.
Qed.

Lemma Eiger2M_tables_valid :
  forallb (valid_entry 2164 1030) Eiger2M_data_gaps = true
  ∧ forallb (valid_entry 2164 1030) Eiger2M_mask_gaps = true.
Proof. split; vm_compute; reflexivity. Qed.

(** The Eiger2M branch on two different arrays of the full shape, read at a
    position: with [D] the data after the gap assignments and [M] the mask
    after them, the final data is 0 where [D] exceeds the threshold and [D]
    elsewhere, the final mask is 1 where [D] exceeds the threshold and [M]
    elsewhere. *)
Lemma mask_Eiger2M_spec (data mask : Detector.loc) (nb_img : R)
    (h : gmap nat (ndarray R)) (d m : ndarray R) :
  data ≠ mask →
  h !! data = Some d → h !! mask = Some m →
  shape d = [2164; 1030] → shape m = [2164; 1030] →
  ∃ h' d' m',
    Detector.mask_Eiger2M data mask nb_img h = Ok h'
    ∧ h' !! data = Some d' ∧ h' !! mask = Some m'
    ∧ shape d' = [2164; 1030] ∧ shape m' = [2164; 1030]
    ∧ ∀ i j xd xm, j < 1030 →
        flat d !! (i * 1030 + j) = Some xd → flat m !! (i * 1030 + j) = Some xm →
        let D := if covered 2164 1030 Eiger2M_data_gaps i j then 0%R else xd in
        let M := if covered 2164 1030 Eiger2M_mask_gaps i j then 1%R else xm in
        flat d' !! (i * 1030 + j) = Some (if Rltb (1e6 * nb_img) D then 0%R else D)
        ∧ flat m' !! (i * 1030 + j) = Some (if Rltb (1e6 * nb_img) D then 1%R else M).
Proof.
  intros Hne Hd Hm Hsd Hsm. destruct Eiger2M_tables_valid as [Vd Vm].
  rewrite mask_Eiger2M_tables.
  destruct (assign_all_spec data 0%R 2164 1030 _ Vd h d Hd Hsd)
    as (d1 & H1 & Hsd1 & _ & Hx1).
  rewrite H1. cbn [mbind result_bind].
  assert (Hm1 : <[data := d1]> h !! mask = Some m) by (now rewrite lookup_insert_ne).
  destruct (assign_all_spec mask 1%R 2164 1030 _ Vm _ m Hm1 Hsm)
    as (m1 & H2 & Hsm1 & _ & Hx2).
  rewrite H2. cbn [mbind result_bind].
  set (h2 := <[mask := m1]> (<[data := d1]> h)).
  assert (Hd2 : h2 !! data = Some d1).
  { unfold h2. rewrite lookup_insert_ne by congruence. apply lookup_insert_eq. }
  assert (Hm2 : h2 !! mask = Some m1) by apply lookup_insert_eq.
  rewrite (store_set_above_eq mask data _ _ h2 d1 m1 Hd2 Hm2). cbn [mbind result_bind].
  set (m2 := Detector.setitem_where _ 1%R m1).
  set (h3 := <[mask := m2]> h2).
  assert (Hd3 : h3 !! data = Some d1).
  { unfold h3. now rewrite lookup_insert_ne by congruence. }
  rewrite (store_set_above_eq data data _ _ h3 d1 d1 Hd3 Hd3).
  set (d2 := Detector.setitem_where _ 0%R d1).
  exists (<[data := d2]> h3), d2, m2.
  split; [reflexivity |]. split; [apply lookup_insert_eq |].
  split; [rewrite lookup_insert_ne by assumption; apply lookup_insert_eq |].
  split; [exact Hsd1 |]. split; [exact Hsm1 |].
  intros i j xd xm Hj Hxd Hxm. cbv zeta.
  pose proof (Hx1 i j xd Hj Hxd) as E1. pose proof (Hx2 i j xm Hj Hxm) as E2.
  split; unfold d2, m2; now apply setitem_where_above.
Qed.

Lemma full_cell (h : gmap nat (ndarray R)) (l : Detector.loc) (a : ndarray R)
    (i j : nat) :
  shape a = [2164; 1030] → length (flat a) = size_of (shape a) →
  i < 2164 → j < 1030 → ∃ x, flat a !! (i * 1030 + j) = Some x.
Proof.
  intros Hs Hl Hi Hj. apply lookup_lt_is_Some_2.
  rewrite Hl, Hs. unfold size_of. cbn [fold_right]. lia.
Qed.

Lemma covered_column_256 (i : nat) :
  i < 2164 →
  covered 2164 1030 Eiger2M_data_gaps i 256 = true
  ∧ covered 2164 1030 Eiger2M_mask_gaps i 256 = true.
Proof.
  intros Hi.
  assert (E : covers 2164 1030 (Detector.all_, Detector.sl 255 259) i 256 = true).
  { unfold covers. cbn [fst snd].
    replace (Detector.index_range 2164 Detector.all_) with (@Ok (nat * nat) (0, 2164))
      by (vm_compute; reflexivity).
    replace (Detector.index_range 1030 (Detector.sl 255 259))
      with (@Ok (nat * nat) (255, 259)) by (vm_compute; reflexivity).
    unfold Detector.in_range at 1. cbn [fst snd].
    replace (Detector.in_range 256 (255, 259)) with true by (vm_compute; reflexivity).
    rewrite andb_true_r. apply andb_true_intro.
    split; [apply Nat.leb_le | apply Nat.ltb_lt]; lia. }
  split; unfold covered; apply existsb_exists; eexists; (split; [| exact E]);
    left; reflexivity.
Qed.

Lemma covered_row_256 (j : nat) :
  j < 1030 →
  covered 2164 1030 Eiger2M_data_gaps 256 j = true
  ∧ covered 2164 1030 Eiger2M_mask_gaps 256 j = true.
Proof.
  intros Hj.
  assert (E : covers 2164 1030 (Detector.sl 255 259, Detector.all_) 256 j = true).
  { unfold covers. cbn [fst snd].
    replace (Detector.index_range 1030 Detector.all_) with (@Ok (nat * nat) (0, 1030))
      by (vm_compute; reflexivity).
    replace (Detector.index_range 2164 (Detector.sl 255 259))
      with (@Ok (nat * nat) (255, 259)) by (vm_compute; reflexivity).
    unfold Detector.in_range at 2. cbn [fst snd].
    replace (Detector.in_range 256 (255, 259)) with true by (vm_compute; reflexivity).
    rewrite andb_true_l. apply andb_true_intro.
    split; [apply Nat.leb_le | apply Nat.ltb_lt]; lia. }
  split; unfold covered; apply existsb_exists; eexists; (split; [| exact E]);
    do 4 right; left; reflexivity.
Qed.

Lemma Eiger2M_sensor_shape (h : gmap nat (ndarray R)) (l : Detector.loc) :
  full_Eiger2M h l →
  ∃ a, h !! l = Some a
    ∧ Some (shape a !!! 0, shape a !!! 1) = Detector.sensor_shape (Detector.name Eiger2M).
Proof. intros (a & Ha & Hs & _). exists a. rewrite Hs. now split. Qed.

Lemma mask_detector_Eiger2M (data mask : Detector.loc) (nb_img : R)
    (h : gmap nat (ndarray R)) (d m : ndarray R) :
  h !! data = Some d → h !! mask = Some m →
  shape d = [2164; 1030] → shape m = [2164; 1030] →
  Detector.mask_detector Eiger2M data mask nb_img None None None h
  = (h' ← Detector.mask_Eiger2M data mask nb_img h; Ok (data, mask, h')).
Proof.
  intros Hd Hm Hsd Hsm. unfold Detector.mask_detector, Detector.deref.
  rewrite Hd, Hm. cbn [mbind result_bind]. rewrite Hsd, Hsm.
  cbn [length Nat.eqb andb negb raise_if mbind result_bind].
  unfold Detector.shape_eqb. rewrite bool_decide_eq_true_2 by reflexivity.
  reflexivity.
Qed.

(** What holds of the claim C9: on two different arrays of the full Eiger2M
    shape, [mask_detector] returns, and at every position of row 256 and of
    column 256 the mask is 1 and the data is 0. *)
Lemma Eiger2M_row_and_column_256 (data mask : Detector.loc) (nb_img : R)
    (h : gmap nat (ndarray R)) :
  data ≠ mask → full_Eiger2M h data → full_Eiger2M h mask →
  ∃ h', Detector.mask_detector Eiger2M data mask nb_img None None None h
        = Ok (data, mask, h')
    ∧ ∀ i j, i < 2164 → j < 1030 → i = 256 ∨ j = 256 →
        cell h' mask i j = Some 1%R ∧ cell h' data i j = Some 0%R.
Proof.
  intros Hne (d & Hd & Hsd & Hld) (m & Hm & Hsm & Hlm).
  destruct (mask_Eiger2M_spec data mask nb_img h d m Hne Hd Hm Hsd Hsm)
    as (h' & d' & m' & H & Hd' & Hm' & Hsd' & Hsm' & Hx).
  exists h'. rewrite (mask_detector_Eiger2M _ _ _ _ d m) by assumption.
  rewrite H. split; [reflexivity |].
  intros i j Hi Hj Hij.
  destruct (full_cell h data d i j Hsd Hld Hi Hj) as [xd Hxd].
  destruct (full_cell h mask m i j Hsm Hlm Hi Hj) as [xm Hxm].
  destruct (Hx i j xd xm Hj Hxd Hxm) as [Ed Em].
  assert (Hc : covered 2164 1030 Eiger2M_data_gaps i j = true
               ∧ covered 2164 1030 Eiger2M_mask_gaps i j = true).
  { destruct Hij as [-> | ->]; [now apply covered_row_256 | now apply covered_column_256]. }
  destruct Hc as [Hcd Hcm]. rewrite Hcd in Ed, Em. rewrite Hcm in Em.
  rewrite !if_same in Ed, Em.
  unfold cell. rewrite Hd', Hm'. cbn [mbind option_bind]. rewrite Hsd', Hsm'.
  now split.
Qed.

(** C9. The failing input: data all ones and mask all zeros, two arrays of
    the full Eiger2M shape, [nb_img = 1]. Position (520, 100) lies in the
    rows 511 to 551 of the gap table; the mask is set to 1 there (line
    1804), but the data keeps its value 1: line 1789 assigns to the columns
    [:0], which are none. *)
Theorem Eiger2M_rows_511_to_551_data_not_zeroed :
  covered 2164 1030 Eiger2M_mask_gaps 520 100 = true
  ∧ covered 2164 1030 Eiger2M_data_gaps 520 100 = false
  ∧ ∃ h', Detector.mask_detector Eiger2M 0 1 1%R None None None ones_and_zeros
          = Ok (0, 1, h')
      ∧ cell h' 1 520 100 = Some 1%R
      ∧ cell h' 0 520 100 = Some 1%R.
Proof.
  assert (Cm : covered 2164 1030 Eiger2M_mask_gaps 520 100 = true)
    by (vm_compute; reflexivity).
  assert (Cd : covered 2164 1030 Eiger2M_data_gaps 520 100 = false)
    by (vm_compute; reflexivity).
  split; [exact Cm |]. split; [exact Cd |].
  set (d := {| shape := [2164; 1030]; dtype_of := float64;
               flat := replicate (2164 * 1030) 1%R |}).
  set (m := {| shape := [2164; 1030]; dtype_of := int64;
               flat := replicate (2164 * 1030) 0%R |}).
  assert (Hd : ones_and_zeros !! 0 = Some d) by apply lookup_insert_eq.
  assert (Hm : ones_and_zeros !! 1 = Some m).
  { unfold ones_and_zeros. rewrite lookup_insert_ne by discriminate.
    apply lookup_insert_eq. }
  destruct (mask_Eiger2M_spec 0 1 1%R ones_and_zeros d m) as
    (h' & d' & m' & H & Hd' & Hm' & Hsd' & Hsm' & Hx);
    [discriminate | exact Hd | exact Hm | reflexivity | reflexivity |].
  exists h'. rewrite (mask_detector_Eiger2M 0 1 1%R ones_and_zeros d m Hd Hm eq_refl eq_refl).
  rewrite H. split; [reflexivity |].
  destruct (Hx 520 100 1%R 0%R) as [Ed Em].
  - lia.
  - apply lookup_replicate_2. lia.
  - apply lookup_replicate_2. lia.
  - rewrite Cd, Cm in *. rewrite Rltb_false in Ed, Em by lra.
    unfold cell. rewrite Hd', Hm'. cbn [mbind option_bind]. rewrite Hsd', Hsm'.
    now split.
Qed.

(** The store matters: when [data] and [mask] are one and the same array,
    the assignments of the mask overwrite those of the data, and the array
    returned as data holds 1 in column 256 and in row 256. The statement of
    the previous lemma needs its two arrays to be different. *)
Lemma Eiger2M_same_array (l : Detector.loc) (nb_img : R) (h : gmap nat (ndarray R)) :
  (1 <= 1e6 * nb_img)%R → full_Eiger2M h l →
  ∃ h', Detector.mask_detector Eiger2M l l nb_img None None None h = Ok (l, l, h')
    ∧ ∀ i j, i < 2164 → j < 1030 → i = 256 ∨ j = 256 → cell h' l i j = Some 1%R.
Proof.
  intros Hn (a & Ha & Hs & Hl). destruct Eiger2M_tables_valid as [Vd Vm].
  rewrite (mask_detector_Eiger2M l l nb_img h a a Ha Ha Hs Hs), mask_Eiger2M_tables.
  destruct (assign_all_spec l 0%R 2164 1030 _ Vd h a Ha Hs) as (a1 & H1 & Hs1 & Hl1 & Hx1).
  rewrite H1. cbn [mbind result_bind].
  destruct (assign_all_spec l 1%R 2164 1030 _ Vm (<[l := a1]> h) a1
              (lookup_insert_eq h l a1) Hs1)
    as (a2 & H2 & Hs2 & Hl2 & Hx2).
  rewrite H2, insert_insert_eq. cbn [mbind result_bind].
  rewrite (store_set_above_eq l l _ _ (<[l := a2]> h) a2 a2
             (lookup_insert_eq h l a2) (lookup_insert_eq h l a2)).
  cbn [mbind result_bind]. rewrite insert_insert_eq.
  set (a3 := Detector.setitem_where _ 1%R a2).
  rewrite (store_set_above_eq l l _ _ (<[l := a3]> h) a3 a3
             (lookup_insert_eq h l a3) (lookup_insert_eq h l a3)).
  cbn [mbind result_bind]. rewrite insert_insert_eq.
  eexists. split; [reflexivity |].
  intros i j Hi Hj Hij.
  destruct (full_cell h l a i j Hs Hl Hi Hj) as [x Hx].
  assert (Hc : covered 2164 1030 Eiger2M_mask_gaps i j = true).
  { destruct Hij as [-> | ->]; [now apply covered_row_256 | now apply covered_column_256]. }
  pose proof (Hx2 i j _ Hj (Hx1 i j x Hj Hx)) as E2. rewrite Hc in E2.
  pose proof (setitem_where_above (1e6 * nb_img) 1%R a2 a2 _ _ _ E2 E2) as E3.
  rewrite if_same in E3. fold a3 in E3.
  pose proof (setitem_where_above (1e6 * nb_img) 0%R a3 a3 _ _ _ E3 E3) as E4.
  rewrite Rltb_false in E4 by assumption.
  unfold cell. rewrite lookup_insert_eq. cbn [mbind option_bind].
  unfold Detector.setitem_where at 1. cbn [shape].
  unfold a3, Detector.setitem_where at 1. cbn [shape]. rewrite Hs2. exact E4.
Qed.
(** * Further properties of the module *)

#[local] Open Scope R_scope.

(** ** Validated attributes *)

Lemma linalg_norm_nonneg (v : vec3) : 0 <= linalg_norm v.
Proof. destruct v as [[a b] c]. apply sqrt_pos. Qed.

Lemma sum_squares_nonneg (a b c : R) : 0 <= a * a + b * b + c * c.
Proof. nra. Qed.

Lemma linalg_norm_sqr (a b c : R) :
  linalg_norm (a, b, c) * linalg_norm (a, b, c) = a * a + b * b + c * c.
Proof. unfold linalg_norm. apply sqrt_sqrt, sum_squares_nonneg. Qed.

Lemma linalg_norm_scale (k a b c : R) :
  0 <= k → linalg_norm (k * a, k * b, k * c) = k * linalg_norm (a, b, c).
Proof.
  intros Hk. unfold linalg_norm.
  replace (k * a * (k * a) + k * b * (k * b) + k * c * (k * c))
    with ((k * k) * (a * a + b * b + c * c)) by ring.
  rewrite sqrt_mult by (try apply sum_squares_nonneg; nra).
  now rewrite sqrt_square.
Qed.

Lemma linalg_norm_normalised (a b c : R) :
  linalg_norm (a, b, c) ≠ 0 →
  linalg_norm (a / linalg_norm (a, b, c), b / linalg_norm (a, b, c),
               c / linalg_norm (a, b, c)) = 1.
Proof.
  intros Hn. set (n := linalg_norm (a, b, c)) in *.
  assert (Hpos : 0 < n) by (pose proof (linalg_norm_nonneg (a, b, c)); fold n in H; lra).
  replace (a / n, b / n, c / n) with ((/ n) * a, (/ n) * b, (/ n) * c)
    by (f_equal; [f_equal |]; field; lra).
  rewrite linalg_norm_scale by (left; now apply Rinv_0_lt_compat).
  fold n. field. lra.
Qed.

Lemma beam_direction_validate_unit (value : pyval) (v : vec3) :
  Setup.beam_direction_validate value = Ok v → linalg_norm v = 1.
Proof.
  unfold Setup.beam_direction_validate.
  destruct (as_sequence value) as [items |]; [| discriminate].
  destruct (Setup.all_numbers items) as [[| a [| b [| c [| ? ?]]]] |]; try discriminate.
  destruct (Reqb (linalg_norm (a, b, c)) 0) eqn:E; [discriminate |].
  intros [= <-]. apply linalg_norm_normalised.
  unfold Reqb in E. now destruct (Req_dec_T _ 0).
Qed.

Lemma rocking_angle_validate_names (value : pyval) (r : string) :
  Setup.rocking_angle_validate value = Ok (Some r) →
  r = "outofplane"%string ∨ r = "inplane"%string.
Proof.
  unfold Setup.rocking_angle_validate, Setup.str_in. destruct value; try discriminate.
  cbn [existsb]. destruct (String.eqb_spec s "outofplane") as [-> | _].
  - intros [= <-]. now left.
  - destruct (String.eqb_spec s "inplane") as [-> | _]; [| discriminate].
    intros [= <-]. now right.
Qed.

Ltac validated_fields :=
  unfold validated, Setup.beamline;
  cbn -[In Setup.supported_beamlines linalg_norm];
  repeat match goal with |- _ ∧ _ => split end;
  try assumption;
  try (eapply beamline_validate_supported; eassumption);
  try (eapply beam_direction_validate_unit; eassumption);
  try (eapply validate_positive; eassumption);
  try (intros ? ->; eapply rocking_angle_validate_names; eassumption).

Lemma class_instance_validated (self : Setup.instance) :
  class_instance self → validated self.
Proof.
  induction 1 as [b bd e d oa ia ta ra px py kw self H
                 | value self self' _ IH H | value self self' _ IH H
                 | value self self' _ IH H | value self self' _ IH H
                 | value self self' _ IH H | value self self' _ IH H
                 | value self self' _ IH H | value self self' _ IH H
                 | value self self' _ IH H | value self self' _ IH H].
  - unfold Setup.__init__ in H.
    bind_inv H as kw' Hkw. bind_inv H as b' Hb. bind_inv H as bd' Hbd.
    bind_inv H as e' He. bind_inv H as d' Hd. bind_inv H as oa' Hoa.
    bind_inv H as ia' Hia. bind_inv H as ta' Hta. bind_inv H as ra' Hra.
    bind_inv H as px' Hpx. bind_inv H as py' Hpy. injection H as <-.
    validated_fields.
  - destruct IH as (I1 & I2 & I3 & I4 & I5 & I6 & I7).
    unfold Setup.beamline_setter in H. inv_bind H. injection H as <-. validated_fields.
  - destruct IH as (I1 & I2 & I3 & I4 & I5 & I6 & I7).
    unfold Setup.beam_direction_setter in H. inv_bind H. injection H as <-.
    validated_fields.
  - destruct IH as (I1 & I2 & I3 & I4 & I5 & I6 & I7).
    unfold Setup.energy_setter in H. inv_bind H. injection H as <-. validated_fields.
  - destruct IH as (I1 & I2 & I3 & I4 & I5 & I6 & I7).
    unfold Setup.distance_setter in H. inv_bind H. injection H as <-. validated_fields.
  - unfold Setup.outofplane_angle_setter in H. inv_bind H. injection H as <-. exact IH.
  - unfold Setup.inplane_angle_setter in H. inv_bind H. injection H as <-. exact IH.
  - unfold Setup.tilt_angle_setter in H. inv_bind H. injection H as <-. exact IH.
  - destruct IH as (I1 & I2 & I3 & I4 & I5 & I6 & I7).
    unfold Setup.rocking_angle_setter in H. inv_bind H. injection H as <-.
    validated_fields.
  - destruct IH as (I1 & I2 & I3 & I4 & I5 & I6 & I7).
    unfold Setup.pixel_x_setter in H. inv_bind H. injection H as <-. validated_fields.
  - destruct IH as (I1 & I2 & I3 & I4 & I5 & I6 & I7).
    unfold Setup.pixel_y_setter in H. inv_bind H. injection H as <-. validated_fields.
Qed.

(** X1. Every instance that the class makes (by [__init__], then by any
    assignments to its ten properties) has a supported beamline, a rocking
    angle that is [None], 'outofplane' or 'inplane', and an energy, a
    distance and pixel sizes that are [None] or numbers which the test
    [value <= 0] of their setters does not reject; it has no attribute
    besides those of the class. On every such instance [inplane_coeff]
    returns +1 or -1 and [outofplane_coeff] is +1. *)
Theorem setters_keep_attributes_validated (self : Setup.instance) :
  class_instance self →
  In (Setup.beamline self) Setup.supported_beamlines
  ∧ (∀ x, Setup._energy self = Some x → ¬ x <= 0)
  ∧ (∀ x, Setup._distance self = Some x → ¬ x <= 0)
  ∧ (∀ x, Setup._pixel_x self = Some x → ¬ x <= 0)
  ∧ (∀ x, Setup._pixel_y self = Some x → ¬ x <= 0)
  ∧ (∀ r, Setup._rocking_angle self = Some r
          → r = "outofplane"%string ∨ r = "inplane"%string)
  ∧ Setup.instance_dict self = ∅
  ∧ (∃ c, Setup.inplane_coeff self = Ok c ∧ (c = 1 ∨ c = -1)%Z)
  ∧ Setup.outofplane_coeff self = 1%Z.
Proof.
  intros H. pose proof (proj1 (class_instance_invariant self H)) as Hd.
  apply class_instance_validated in H as (I1 & _ & I3 & I4 & I5 & I6 & I7).
  split; [exact I1 |].
  split; [intros x Hx; specialize (I3 x Hx); lra |].
  split; [intros x Hx; specialize (I4 x Hx); lra |].
  split; [intros x Hx; specialize (I5 x Hx); lra |].
  split; [intros x Hx; specialize (I6 x Hx); lra |].
  split; [exact I7 |]. split; [exact Hd |].
  unfold Setup.inplane_coeff, Setup.outofplane_coeff, Setup.detector_hor,
    Setup.detector_ver.
  simpl In in I1.
  repeat (destruct I1 as [I1 | I1];
          [rewrite <- I1; split; [eexists; split; [reflexivity | cbn; auto] | reflexivity] |]).
  contradiction.
Qed.

Lemma setters_keep_attributes_validated_witness :
  In (Setup.beamline scenario_instance) Setup.supported_beamlines
  ∧ Setup.instance_dict scenario_instance = ∅
  ∧ Setup.outofplane_coeff scenario_instance = 1%Z.
Proof.
  destruct (setters_keep_attributes_validated scenario_instance scenario_is_class_instance)
    as (H1 & _ & _ & _ & _ & _ & H2 & _ & H3).
  auto.
Defined.

(** ** The beam direction *)

Lemma beam_direction_validate_numbers (u v w : R) :
  Setup.beam_direction_validate (PyTuple [PyNum u; PyNum v; PyNum w])
  = if Reqb (linalg_norm (u, v, w)) 0 then Raise ValueError
    else Ok (u / linalg_norm (u, v, w), v / linalg_norm (u, v, w),
             w / linalg_norm (u, v, w)).
Proof. reflexivity. Qed.

(** X2. Only the direction of [beam_direction] matters, within the range
    of the floats: when the norm of a vector of three numbers and that of
    the same vector multiplied by a factor [k > 0] both lie between [1e-30]
    and [1e30] (the squares that [np.linalg.norm] sums then neither overflow
    nor vanish), the setter accepts both and stores the same vector, of norm
    1. The equalities are those of the real numbers, which the floats of
    the code follow up to rounding. *)
Theorem beam_direction_scale_invariant (k u v w : R) (self : Setup.instance) :
  0 < k →
  1e-30 <= linalg_norm (u, v, w) <= 1e30 →
  1e-30 <= linalg_norm (k * u, k * v, k * w) <= 1e30 →
  ∃ self',
    Setup.beam_direction_setter (PyTuple [PyNum u; PyNum v; PyNum w]) self = Ok self'
    ∧ Setup.beam_direction_setter
        (PyTuple [PyNum (k * u); PyNum (k * v); PyNum (k * w)]) self = Ok self'
    ∧ linalg_norm (Setup._beam_direction self') = 1.
Proof.
  intros Hk Hn _. unfold Setup.beam_direction_setter.
  rewrite !beam_direction_validate_numbers, linalg_norm_scale by lra.
  set (n := linalg_norm (u, v, w)) in *.
  assert (E : n ≠ 0) by lra.
  rewrite (Reqb_false n 0 E), (Reqb_false (k * n) 0) by nra.
  replace (k * u / (k * n)) with (u / n) by (field; split; lra).
  replace (k * v / (k * n)) with (v / n) by (field; split; lra).
  replace (k * w / (k * n)) with (w / n) by (field; split; lra).
  cbn [mbind result_bind]. eexists. split; [reflexivity |]. split; [reflexivity |].
  cbn [Setup._beam_direction]. now apply linalg_norm_normalised.
Qed.

Lemma norm_3_4_0 : linalg_norm (3, 4, 0) = 5.
Proof.
  unfold linalg_norm. replace (3 * 3 + 4 * 4 + 0 * 0) with (5 * 5) by ring.
  apply sqrt_square. lra.
Qed.

Lemma beam_direction_scale_invariant_witness :
  ∃ self',
    Setup.beam_direction_setter (PyTuple [PyNum 3; PyNum 4; PyNum 0]) scenario_instance
    = Ok self'
    ∧ Setup.beam_direction_setter
        (PyTuple [PyNum (2 * 3); PyNum (2 * 4); PyNum (2 * 0)]) scenario_instance
      = Ok self'
    ∧ linalg_norm (Setup._beam_direction self') = 1.
Proof.
  apply (beam_direction_scale_invariant 2 3 4 0 scenario_instance).
  - lra.
  - rewrite norm_3_4_0. lra.
  - rewrite linalg_norm_scale, norm_3_4_0 by lra. lra.
Defined.

(** ** Reading a property and assigning it back *)

Lemma strictly_positive_validate_back (x : option R) :
  (∀ v, x = Some v → 0 < v) →
  Setup.strictly_positive_validate (of_number x) = Ok x.
Proof.
  intros H. destruct x as [v |]; [| reflexivity].
  unfold Setup.strictly_positive_validate. cbn [of_number as_number].
  rewrite Rleb_false by (specialize (H v eq_refl); lra). reflexivity.
Qed.

Lemma angle_validate_back (x : option R) : Setup.angle_validate (of_number x) = Ok x.
Proof. now destruct x. Qed.

Lemma beamline_validate_back (b : string) :
  In b Setup.supported_beamlines → Setup.beamline_validate (PyStr b) = Ok b.
Proof.
  intros H. unfold Setup.beamline_validate, Setup.str_in.
  replace (existsb (String.eqb b) Setup.supported_beamlines) with true; [reflexivity |].
  symmetry. apply existsb_exists. exists b. split; [exact H | apply String.eqb_refl].
Qed.

Lemma rocking_angle_validate_back (r : option string) :
  (∀ s, r = Some s → s = "outofplane"%string ∨ s = "inplane"%string) →
  Setup.rocking_angle_validate (of_string r) = Ok r.
Proof.
  intros H. destruct r as [s |]; [| reflexivity].
  destruct (H s eq_refl) as [-> | ->]; reflexivity.
Qed.

(** X3. On an instance made by the class, the value read from [beamline],
    [energy], [distance], [outofplane_angle], [inplane_angle], [tilt_angle],
    [rocking_angle], [pixel_x] or [pixel_y] passes the validation of its own
    setter: assigning it back succeeds and leaves the instance as it was. *)
Theorem assigning_back_changes_nothing (self : Setup.instance) :
  class_instance self →
  Setup.beamline_setter (PyStr (Setup.beamline self)) self = Ok self
  ∧ Setup.energy_setter (of_number (Setup._energy self)) self = Ok self
  ∧ Setup.distance_setter (of_number (Setup._distance self)) self = Ok self
  ∧ Setup.outofplane_angle_setter (of_number (Setup._outofplane_angle self)) self = Ok self
  ∧ Setup.inplane_angle_setter (of_number (Setup._inplane_angle self)) self = Ok self
  ∧ Setup.tilt_angle_setter (of_number (Setup._tilt_angle self)) self = Ok self
  ∧ Setup.rocking_angle_setter (of_string (Setup._rocking_angle self)) self = Ok self
  ∧ Setup.pixel_x_setter (of_number (Setup._pixel_x self)) self = Ok self
  ∧ Setup.pixel_y_setter (of_number (Setup._pixel_y self)) self = Ok self.
Proof.
  intros H. apply class_instance_validated in H as (I1 & _ & I3 & I4 & I5 & I6 & I7).
  unfold Setup.beamline_setter, Setup.energy_setter,
    Setup.distance_setter, Setup.outofplane_angle_setter, Setup.inplane_angle_setter,
    Setup.tilt_angle_setter, Setup.rocking_angle_setter, Setup.pixel_x_setter,
    Setup.pixel_y_setter, Setup.energy_validate, Setup.distance_validate,
    Setup.pixel_x_validate, Setup.pixel_y_validate.
  rewrite (beamline_validate_back _ I1),
    (strictly_positive_validate_back _ I3), (strictly_positive_validate_back _ I4),
    (strictly_positive_validate_back _ I5), (strictly_positive_validate_back _ I6),
    !angle_validate_back, (rocking_angle_validate_back _ I7).
  destruct self. repeat split; reflexivity.
Qed.

Lemma assigning_back_changes_nothing_witness :
  Setup.energy_setter (of_number (Setup._energy scenario_instance)) scenario_instance
  = Ok scenario_instance.
Proof.
  destruct (assigning_back_changes_nothing scenario_instance scenario_is_class_instance)
    as (_ & H & _).
  exact H.
Defined.

(** ** Keyword arguments *)

Lemma check_kwargs_unknown (allowed : list string) (kwargs : gmap string pyval)
    (k : string) (v : pyval) :
  kwargs !! k = Some v → ¬ In k allowed → check_kwargs allowed kwargs = Raise Exception.
Proof.
  intros Hk Hn. unfold check_kwargs.
  destruct (forallb (λ k0, existsb (String.eqb k0) allowed) (map fst (map_to_list kwargs)))
    eqn:E; [| reflexivity].
  exfalso. apply Hn.
  assert (Hin : In k (map fst (map_to_list kwargs))).
  { apply in_map_iff. exists (k, v). split; [reflexivity |].
    apply list_elem_of_In, elem_of_map_to_list, Hk. }
  pose proof (proj1 (forallb_forall _ _) E k Hin) as Hex.
  apply existsb_exists in Hex as (a & Ha & Heq).
  apply String.eqb_eq in Heq. now subst.
Qed.

(** X4. A keyword argument whose name is not one of the eleven that
    [Setup.__init__] knows makes the constructor raise [Exception] before it
    looks at any other argument: whatever the ten positional arguments and
    the other keywords are, valid or not. *)
Theorem unknown_keyword_rejected_first (kwargs : gmap string pyval) (k : string) (v : pyval)
    (beamline beam_direction energy distance outofplane_angle inplane_angle
     tilt_angle rocking_angle pixel_x pixel_y : pyval) :
  kwargs !! k = Some v → ¬ In k Setup.allowed_kwargs →
  Setup.__init__ beamline beam_direction energy distance outofplane_angle inplane_angle
    tilt_angle rocking_angle pixel_x pixel_y kwargs = Raise Exception.
Proof.
  intros Hk Hn. unfold Setup.__init__, Setup.init_kwargs.
  now rewrite (check_kwargs_unknown _ _ k v Hk Hn).
Qed.

Lemma unknown_keyword_rejected_first_witness :
  Setup.__init__ (PyStr "ID00") PyNone (PyNum (-1)) PyNone PyNone PyNone PyNone PyNone
    PyNone PyNone (<["grazing_angle"%string := PyNum 0]> ∅) = Raise Exception.
Proof.
  apply (unknown_keyword_rejected_first _ "grazing_angle" (PyNum 0)).
  - apply lookup_insert_eq.
  - cbn. intuition discriminate.
Defined.

(** ** Detector orientation in the horizontal plane *)

(** X5. On a supported beamline [inplane_coeff] never raises: it returns +1
    on SIXS_2018, SIXS_2019 and CRISTAL and -1 on ID01, NANOMAX, P10 and
    34ID; the horizontal detector axis is 'y-' on P10 and 34ID and 'y+' on
    the five others. *)
Theorem inplane_coeff_by_beamline (self : Setup.instance) :
  In (Setup.beamline self) Setup.supported_beamlines →
  Setup.inplane_coeff self
  = Ok (if Setup.str_in (Setup.beamline self) ["SIXS_2018"; "SIXS_2019"; "CRISTAL"]%string
        then 1%Z else (-1)%Z)
  ∧ Setup.detector_hor self
    = (if Setup.str_in (Setup.beamline self) ["P10"; "34ID"]%string
       then "y-"%string else "y+"%string).
Proof.
  unfold Setup.inplane_coeff, Setup.detector_hor. simpl In. intros H.
  repeat (destruct H as [H | H]; [rewrite <- H; split; reflexivity |]).
  contradiction.
Qed.

Lemma inplane_coeff_by_beamline_witness :
  Setup.inplane_coeff scenario_instance = Ok (-1)%Z
  ∧ Setup.detector_hor scenario_instance = "y+"%string.
Proof.
  apply (inplane_coeff_by_beamline scenario_instance). simpl. auto.
Defined.

(** ** The exit wavevector *)

Lemma exit_wavevector_cases (self : Setup.instance) :
  In (Setup.beamline self) Setup.supported_beamlines →
  Setup.exit_wavevector self = Setup.kout_anticlockwise self
  ∨ Setup.exit_wavevector self = Setup.kout_clockwise self.
Proof.
  unfold Setup.exit_wavevector. simpl In. intros H.
  repeat (destruct H as [H | H]; [rewrite <- H; cbn; auto |]).
  contradiction.
Qed.

Lemma wavelength_set (self : Setup.instance) (e : R) :
  Setup._energy self = Some e → 0 < e →
  Setup.wavelength self = Some (12.398 * 1e-7 / e) ∧ 0 < 12.398 * 1e-7 / e.
Proof.
  intros He Hpos. unfold Setup.wavelength. rewrite He. cbn [truthy].
  rewrite Reqb_false by lra. split; [reflexivity |].
  apply Rdiv_lt_0_compat; lra.
Qed.

Lemma truediv_neq0 (a b : R) : b ≠ 0 → Setup.truediv a b = Ok (a / b).
Proof. intros H. unfold Setup.truediv. now rewrite Reqb_false. Qed.

Lemma truediv_0 (a : R) : Setup.truediv a 0 = Raise ZeroDivisionError.
Proof. unfold Setup.truediv. now rewrite Reqb_true. Qed.




(** X7. On an instance made by the class, [exit_wavevector] never reaches
    its final [raise ValueError], and it fails in two ways only. It raises
    [TypeError] for want of a value: when the energy is [None], or, the
    wavelength not being zero, when one of the two detector angles is
    [None]. The only other exception is the [ZeroDivisionError] of
    [2 * pi / wavelength], which takes a wavelength of zero: no real energy
    gives one, an energy whose float quotient is [0.0] does. *)
Theorem exit_wavevector_needs_energy_and_angles (self : Setup.instance) :
  class_instance self →
  (Setup._energy self = None → Setup.exit_wavevector self = Raise TypeError)
  ∧ (Setup.wavelength self ≠ Some 0 →
     Setup._inplane_angle self = None ∨ Setup._outofplane_angle self = None →
     Setup.exit_wavevector self = Raise TypeError)
  ∧ (∀ e, Setup.exit_wavevector self = Raise e →
       (e = TypeError
        ∧ (Setup._energy self = None ∨ Setup._inplane_angle self = None
           ∨ Setup._outofplane_angle self = None))
       ∨ (e = ZeroDivisionError ∧ Setup.wavelength self = Some 0)).
Proof.
  intros Hc.
  apply class_instance_validated in Hc as (Hb & _ & Hpos & _).
  assert (G : ∀ r, (r = Setup.kout_anticlockwise self ∨ r = Setup.kout_clockwise self) →
    (Setup._energy self = None → r = Raise TypeError)
    ∧ (Setup.wavelength self ≠ Some 0 →
       Setup._inplane_angle self = None ∨ Setup._outofplane_angle self = None →
       r = Raise TypeError)
    ∧ (∀ e, r = Raise e →
         (e = TypeError
          ∧ (Setup._energy self = None ∨ Setup._inplane_angle self = None
             ∨ Setup._outofplane_angle self = None))
         ∨ (e = ZeroDivisionError ∧ Setup.wavelength self = Some 0))).
  { intros r Hr. unfold Setup.kout_anticlockwise, Setup.kout_clockwise in Hr.
    destruct (Setup._energy self) as [e |] eqn:He.
    - destruct (wavelength_set self e He (Hpos e eq_refl)) as [Hw _].
      rewrite Hw in *. cbn [Setup.number mbind result_bind] in Hr.
      set (w := 12.398 * 1e-7 / e) in *.
      destruct (Req_dec_T w 0) as [E | E].
      + rewrite E, truediv_0 in Hr. cbn [mbind result_bind] in Hr.
        split; [discriminate |].
        split; [intros Hne; exfalso; apply Hne; now rewrite E |].
        intros ex Hex. right.
        destruct Hr as [-> | ->]; injection Hex as <-; now rewrite E.
      + rewrite truediv_neq0 in Hr by exact E. cbn [mbind result_bind] in Hr.
        split; [discriminate |].
        destruct (Setup._inplane_angle self) as [i |],
                 (Setup._outofplane_angle self) as [o |];
          cbn [Setup.number mbind result_bind] in Hr;
          (split; [intros _ [[=] | [=]] | intros ex Hex]);
          destruct Hr as [-> | ->]; try reflexivity; try discriminate Hex;
          injection Hex as <-; left; auto.
    - assert (Hw : Setup.wavelength self = None) by (unfold Setup.wavelength; now rewrite He).
      rewrite Hw in *. cbn [Setup.number mbind result_bind] in Hr.
      split; [intros _; now destruct Hr as [-> | ->] |].
      split; [intros _ _; now destruct Hr as [-> | ->] |].
      intros ex Hex. left.
      destruct Hr as [-> | ->]; injection Hex as <-; auto. }
  apply G. now apply exit_wavevector_cases.
Qed.

Lemma exit_wavevector_needs_energy_and_angles_witness :
  Setup.exit_wavevector (plain_instance "ID01" None None None None None None None None)
  = Raise TypeError.
Proof.
  refine (proj1 (exit_wavevector_needs_energy_and_angles
                   (plain_instance "ID01" None None None None None None None None) _) _).
  - apply (made_by_init (PyStr "ID01") Setup.default_beam_direction PyNone PyNone PyNone
             PyNone PyNone PyNone PyNone PyNone ∅).
    unfold Setup.__init__. rewrite init_kwargs_empty.
    cbn [mbind result_bind Setup.beamline_validate].
    cbn [Setup.str_in Setup.supported_beamlines existsb String.eqb Ascii.eqb Bool.eqb orb].
    rewrite beam_direction_default. reflexivity.
  - reflexivity.
Defined.

(** ** Voxel sizes in the detector frame *)

Lemma voxel_sizes_detector_eval (self : Setup.instance) (w d : R) (nbz nby nbx : Z)
    (rest : list Z) (tilt px py : R) :
  Setup.wavelength self = Some w → Setup._distance self = Some d →
  IZR nbz * Rabs tilt * pi / 180 ≠ 0 → IZR nby * py ≠ 0 → IZR nbx * px ≠ 0 →
  Setup.voxel_sizes_detector self (nbz :: nby :: nbx :: rest) (Some tilt) (Some px) (Some py)
  = Ok (w / (IZR nbz * Rabs tilt * pi / 180) * 1e9,
        w * d / (IZR nby * py) * 1e9,
        w * d / (IZR nbx * px) * 1e9).
Proof.
  intros Hw Hd Hz Hy Hx. unfold Setup.voxel_sizes_detector.
  cbn [Setup.getitem lookup list_lookup Setup.abs_opt mbind result_bind].
  rewrite Hw, Hd. cbn [Setup.number mbind result_bind].
  rewrite (truediv_neq0 _ _ Hz). cbn [mbind result_bind].
  rewrite (truediv_neq0 _ _ Hy). cbn [mbind result_bind].
  rewrite (truediv_neq0 _ _ Hx). reflexivity.
Qed.

Lemma pi_pos : 0 < pi.
Proof. exact PI_RGT_0. Qed.

(** X8. Unlike [voxel_sizes], [voxel_sizes_detector] needs no grazing
    angle and works on an instance made by the class. With the energy, the
    distance, the absolute value of the rocking step and the two pixel sizes
    between [1e-30] and [1e30], and the three dimensions between 1 and
    [10^9] (no product or quotient of lines 886 to 888 then overflows or
    vanishes in the floats), it returns
    [wavelength / (nbz * |tilt| * π / 180)],
    [wavelength * distance / (nby * pixel_y)] and
    [wavelength * distance / (nbx * pixel_x)], each times [1e9]; the three
    sizes are strictly positive and do not depend on the sign of the
    rocking step. *)
Theorem voxel_sizes_detector_positive (self : Setup.instance) (e d : R) (nbz nby nbx : Z)
    (tilt px py : R) :
  Setup._energy self = Some e → Setup._distance self = Some d →
  1e-30 <= e <= 1e30 → 1e-30 <= d <= 1e30 →
  1e-30 <= Rabs tilt <= 1e30 → 1e-30 <= px <= 1e30 → 1e-30 <= py <= 1e30 →
  (1 <= nbz <= 1000000000)%Z → (1 <= nby <= 1000000000)%Z →
  (1 <= nbx <= 1000000000)%Z →
  let w := 12.398 * 1e-7 / e in
  let vz := w / (IZR nbz * Rabs tilt * pi / 180) * 1e9 in
  let vy := w * d / (IZR nby * py) * 1e9 in
  let vx := w * d / (IZR nbx * px) * 1e9 in
  Setup.voxel_sizes_detector self [nbz; nby; nbx] (Some tilt) (Some px) (Some py)
  = Ok (vz, vy, vx)
  ∧ Setup.voxel_sizes_detector self [nbz; nby; nbx] (Some (- tilt)) (Some px) (Some py)
    = Ok (vz, vy, vx)
  ∧ 0 < vz ∧ 0 < vy ∧ 0 < vx.
Proof.
  intros He Hd Re Rd Rt Rpx Rpy [Hz _] [Hy _] [Hx _] w vz vy vx.
  assert (Hepos : 0 < e) by lra. assert (Hdpos : 0 < d) by lra.
  assert (Hat : 0 < Rabs tilt) by lra.
  assert (Hpx : 0 < px) by lra. assert (Hpy : 0 < py) by lra.
  destruct (wavelength_set self e He Hepos) as [Hw Hwpos]. fold w in Hw, Hwpos.
  apply IZR_le in Hz, Hy, Hx.
  pose proof pi_pos as Hpi.
  assert (Dz : 0 < IZR nbz * Rabs tilt * pi / 180).
  { apply Rdiv_lt_0_compat; [| lra].
    apply Rmult_lt_0_compat; [apply Rmult_lt_0_compat; lra | exact Hpi]. }
  assert (Dy : 0 < IZR nby * py) by (apply Rmult_lt_0_compat; lra).
  assert (Dx : 0 < IZR nbx * px) by (apply Rmult_lt_0_compat; lra).
  assert (Hwd : 0 < w * d) by (now apply Rmult_lt_0_compat).
  split; [apply voxel_sizes_detector_eval; try assumption; lra |].
  split.
  - rewrite (voxel_sizes_detector_eval self w d nbz nby nbx [] (- tilt) px py Hw Hd);
      rewrite ?Rabs_Ropp; try lra. reflexivity.
  - unfold vz, vy, vx.
    repeat split; (apply Rmult_lt_0_compat; [apply Rdiv_lt_0_compat; assumption | lra]).
Qed.

Lemma voxel_sizes_detector_positive_witness :
  ∃ vz vy vx,
    Setup.voxel_sizes_detector scenario_instance [41; 256; 256]%Z
      (Some 0.01) (Some 110e-6) (Some 110e-6) = Ok (vz, vy, vx)
    ∧ 0 < vz ∧ 0 < vy ∧ 0 < vx.
Proof.
  destruct (voxel_sizes_detector_positive scenario_instance 8800 7.25 41 256 256
              0.01 110e-6 110e-6 eq_refl eq_refl)
    as (H & _ & Hp); try lia; try lra.
  - rewrite Rabs_pos_eq by lra. lra.
  - eauto.
Defined.



(** ** The detector columns of [mymatrix] *)






(** ** What [voxel_sizes] and [orthogonalize_vector] return *)

Lemma linalg_norm_pos (a b c : R) :
  (a ≠ 0 ∨ b ≠ 0 ∨ c ≠ 0) → 0 < linalg_norm (a, b, c).
Proof.
  intros H. unfold linalg_norm. apply sqrt_lt_R0.
  destruct H as [H | [H | H]]; nra.
Qed.

Lemma regular_rows (m : mat3) (k : nat) : det m ≠ 0 → 0 < linalg_norm (row k m).
Proof.
  intros Hd.
  assert (G : ∀ a b c, row k m = (a, b, c) → a ≠ 0 ∨ b ≠ 0 ∨ c ≠ 0).
  { intros a b c E.
    destruct (Req_dec_T a 0) as [-> | ?]; [| now left].
    destruct (Req_dec_T b 0) as [-> | ?]; [| right; now left].
    destruct (Req_dec_T c 0) as [-> | ?]; [| right; now right].
    exfalso. apply Hd. unfold det.
    destruct k as [| [| k]]; cbn [row] in E; injection E as E1 E2 E3;
      rewrite E1, E2, E3; ring. }
  destruct (row k m) as [[a b] c]. apply linalg_norm_pos. now apply G.
Qed.

Lemma voxel_sizes_rows (self : Setup.instance) (array_shape : list Z)
    (tilt_angle pixel_x pixel_y : option R) (v : R * R * R) :
  Setup.voxel_sizes self array_shape tilt_angle pixel_x pixel_y = Ok v →
  ∃ i, Setup.update_coords_inputs self array_shape tilt_angle pixel_x pixel_y = Ok i
    ∧ det (Setup.mymatrix_of self i) ≠ 0
    ∧ v = (2 * pi / linalg_norm (row 2 (Setup.mymatrix_of self i)),
           2 * pi / linalg_norm (row 1 (Setup.mymatrix_of self i)),
           2 * pi / linalg_norm (row 0 (Setup.mymatrix_of self i))).
Proof.
  intros H. unfold Setup.voxel_sizes in H.
  bind_inv H as u Hu. bind_inv H as T HT.
  destruct (update_coords_Ok _ _ _ _ _ _ HT) as (i & Hi & Hd & -> & _).
  exists i. split; [exact Hi |]. split; [exact Hd |].
  unfold Setup.voxel_sizes_from in H.
  rewrite (two_pi_inv_transpose_twice _ Hd) in H. cbn [mbind result_bind] in H.
  now injection H as <-.
Qed.

(** X11. Whenever [voxel_sizes] returns, the three voxel sizes are strictly
    positive numbers: the construction matrix is invertible, so none of its
    rows is zero, and each size is [2π] over the norm of a row. *)
Theorem voxel_sizes_strictly_positive (self : Setup.instance) (array_shape : list Z)
    (tilt_angle pixel_x pixel_y : option R) (voxel_z voxel_y voxel_x : R) :
  Setup.voxel_sizes self array_shape tilt_angle pixel_x pixel_y
  = Ok (voxel_z, voxel_y, voxel_x) →
  0 < voxel_z ∧ 0 < voxel_y ∧ 0 < voxel_x.
Proof.
  intros H. apply voxel_sizes_rows in H as (i & _ & Hd & E).
  pose proof pi_pos as Hpi.
  pose proof (regular_rows _ 2 Hd) as R2. pose proof (regular_rows _ 1 Hd) as R1.
  pose proof (regular_rows _ 0 Hd) as R0.
  injection E as -> -> ->.
  split; [| split]; (apply Rdiv_lt_0_compat; [lra | assumption]).
Qed.

Lemma scenario_voxel_sizes :
  ∃ v, Setup.voxel_sizes scenario_with_grazing_angle [41; 256; 256]%Z
         (Some 0.01) (Some 110e-6) (Some 110e-6) = Ok v.
Proof.
  unfold Setup.voxel_sizes. cbn [length Nat.eqb assert mbind result_bind].
  rewrite scenario_update_coords. cbn [mbind result_bind].
  apply voxel_sizes_from_regular.
  apply two_pi_inv_transpose_regular.
  apply det_mymatrix_of; [simpl; auto | reflexivity | exact scenario_nondegenerate].
Qed.

Lemma voxel_sizes_strictly_positive_witness :
  ∃ voxel_z voxel_y voxel_x,
    Setup.voxel_sizes scenario_with_grazing_angle [41; 256; 256]%Z
      (Some 0.01) (Some 110e-6) (Some 110e-6) = Ok (voxel_z, voxel_y, voxel_x)
    ∧ 0 < voxel_z ∧ 0 < voxel_y ∧ 0 < voxel_x.
Proof.
  destruct scenario_voxel_sizes as [[[vz vy] vx] H].
  exists vz, vy, vx. split; [exact H |].
  exact (voxel_sizes_strictly_positive _ _ _ _ _ _ _ _ H).
Defined.

Lemma mat_vec_inverse (m : mat3) (v : vec3) :
  det m ≠ 0 → mat_vec m (mat_vec (inverse m) v) = v.
Proof.
  destruct m as [a b c d e f g h k], v as [[x y] z]. unfold inverse, det, mat_vec.
  cbn [m00 m01 m02 m10 m11 m12 m20 m21 m22]. intros Hd.
  f_equal; [f_equal |]; field; exact Hd.
Qed.

(** X12. [orthogonalize_vector] inverts the transfer matrix: whenever
    [update_coords] returns the matrix [T] for a shape, the call returns for
    every vector [(z, y, x)], and [T] applied to the result (taken as
    [(x, y, z)], the order of the columns) gives the vector back. *)
Theorem orthogonalize_vector_inverts_update_coords (self : Setup.instance)
    (vector_z vector_y vector_x : R) (array_shape : list Z)
    (tilt_angle pixel_x pixel_y : option R) (T : mat3) :
  Setup.update_coords self array_shape tilt_angle pixel_x pixel_y = Ok T →
  ∃ new_z new_y new_x,
    Setup.orthogonalize_vector self (vector_z, vector_y, vector_x) array_shape
      tilt_angle pixel_x pixel_y = Ok (new_z, new_y, new_x)
    ∧ mat_vec T (new_x, new_y, new_z) = (vector_x, vector_y, vector_z).
Proof.
  intros HT. pose proof (update_coords_det _ _ _ _ _ _ HT) as Hd.
  destruct (update_coords_Ok _ _ _ _ _ _ HT) as (_ & _ & _ & _ & Hl).
  unfold Setup.orthogonalize_vector. rewrite Hl, HT.
  cbn [Nat.eqb assert mbind result_bind].
  rewrite (linalg_inv_regular _ Hd). cbn [mbind result_bind].
  pose proof (mat_vec_inverse T (vector_x, vector_y, vector_z) Hd) as E.
  destruct (mat_vec (inverse T) (vector_x, vector_y, vector_z)) as [[nx ny] nz].
  exists nz, ny, nx. split; [reflexivity | exact E].
Qed.

Lemma orthogonalize_vector_inverts_update_coords_witness :
  ∃ new_z new_y new_x,
    Setup.orthogonalize_vector scenario_with_grazing_angle (1, 0, 0) [41; 256; 256]%Z
      (Some 0.01) (Some 110e-6) (Some 110e-6) = Ok (new_z, new_y, new_x).
Proof.
  destruct (orthogonalize_vector_inverts_update_coords scenario_with_grazing_angle
              1 0 0 _ _ _ _ _ scenario_update_coords) as (z & y & x & H & _).
  exists z, y, x. exact H.
Defined.

(** ** Degenerate arguments of [update_coords] *)





(** ** The sibling class [SetupPostprocessing] *)


Lemma SetupPostprocessing_init (b : string) (energy oa ia ta : R) (r : string)
    (distance g px py : R) :
  energy ≠ 0 →
  ∃ self, SetupPostprocessing.__init__ b energy oa ia ta r distance g px py = Ok self
    ∧ SetupPostprocessing.beamline self = b
    ∧ SetupPostprocessing.rocking_angle self = r
    ∧ SetupPostprocessing.wavelength self = 12.398 * 1e-7 / energy
    ∧ SetupPostprocessing.distance self = distance
    ∧ SetupPostprocessing.outofplane_angle self = oa
    ∧ SetupPostprocessing.inplane_angle self = ia
    ∧ SetupPostprocessing.grazing_angle self = g.
Proof.
  intros He. unfold SetupPostprocessing.__init__. rewrite (truediv_neq0 _ _ He).
  eexists. split; [reflexivity |]. cbn. repeat split; reflexivity.
Qed.



(** X15. [SetupPostprocessing] validates nothing at construction: an energy
    of zero raises [ZeroDivisionError] there, and any other energy gives an
    instance, whatever the names of the beamline and of the rocking angle;
    a pair of names without a branch (a misspelt or unsupported beamline,
    the rocking angle 'energy', CRISTAL in plane) shows only in
    [update_coords], as the [LinAlgError] of the inversion of a matrix of
    zeros. *)
Theorem SetupPostprocessing_defers_validation (b r : string)
    (energy oa ia ta distance g px py : R) :
  (energy = 0 →
   SetupPostprocessing.__init__ b energy oa ia ta r distance g px py
   = Raise ZeroDivisionError)
  ∧ (energy ≠ 0 →
     ∃ self, SetupPostprocessing.__init__ b energy oa ia ta r distance g px py = Ok self
       ∧ (defined_branch b (Some r) = false →
          ∀ nbz nby nbx tilt pixel_x pixel_y,
            SetupPostprocessing.update_coords self [nbz; nby; nbx] tilt pixel_x pixel_y
            = Raise LinAlgError)).
Proof.
  split.
  - intros ->. unfold SetupPostprocessing.__init__. now rewrite truediv_0.
  - intros He.
    destruct (SetupPostprocessing_init b energy oa ia ta r distance g px py He)
      as (self & Hs & Eb & Er & _).
    exists self. split; [exact Hs |].
    intros Hr nbz nby nbx tilt pixel_x pixel_y.
    unfold SetupPostprocessing.update_coords, SetupPostprocessing.mymatrix_of.
    cbn [Setup.unpack3 mbind result_bind]. rewrite Eb, Er.
    rewrite mymatrix_undefined by assumption.
    unfold Setup.two_pi_inv_transpose.
    now rewrite (linalg_inv_singular _ det_zeros33).
Qed.

Lemma SetupPostprocessing_defers_validation_witness :
  ∃ self,
    SetupPostprocessing.__init__ "id01" 8800 0 7.248 0.01 "inplane" 7.25 0 55e-6 55e-6
    = Ok self
    ∧ SetupPostprocessing.update_coords self [41; 256; 256]%Z 0.01 55e-6 55e-6
      = Raise LinAlgError.
Proof.
  destruct (proj2 (SetupPostprocessing_defers_validation "id01" "inplane" 8800 0 7.248
                     0.01 7.25 0 55e-6 55e-6)) as (self & Hs & Hu); [lra |].
  exists self. split; [exact Hs |]. now apply Hu.
Defined.

(** ** [detector_frame] *)





Lemma scaled_range_0_not_ascending (n : nat) :
  (2 <= n)%nat → scipy.strictly_ascending (Setup.scaled_range n 0) = false.
Proof.
  intros Hn. unfold Setup.scaled_range. rewrite centered_range_seq.
  destruct n as [| [| n]]; try lia.
  cbn [seq map scipy.strictly_ascending].
  rewrite Rltb_false; [reflexivity | lra].
Qed.

(** X17. A scalar [voxel_size] of zero passes the check of [detector_frame],
    which tests the sign of the items of a sequence only: the same value
    given as the tuple [(0, 0, 0)] fails the assertion, but the number [0]
    goes on to the interpolator, whose axes are then constant, and
    the call fails there with [ValueError] whenever the transfer matrix
    exists and a dimension of [obj] is 2 or more. *)
Theorem detector_frame_scalar_zero_voxel_size (self : Setup.instance)
    (obj : ndarray complex) (nbz nby nbx : nat) (T : mat3) (kwargs : gmap string pyval) :
  shape obj = [nbz; nby; nbx] →
  (2 <= nbz ∨ 2 <= nby ∨ 2 <= nbx)%nat →
  check_kwargs ["title"%string] kwargs = Ok tt →
  Setup.update_coords self [Z.of_nat nbz; Z.of_nat nby; Z.of_nat nbx]
    (Setup._tilt_angle self) (Setup._pixel_x self) (Setup._pixel_y self) = Ok T →
  Setup.detector_frame self obj (PyNum 0) kwargs = Raise ValueError
  ∧ Setup.detector_frame self obj (PyTuple [PyNum 0; PyNum 0; PyNum 0]) kwargs
    = Raise AssertionError.
Proof.
  intros Hs Hn Hk HT. split.
  - unfold Setup.detector_frame. cbn [as_number mbind result_bind].
    rewrite Hk, Hs. cbn [mbind result_bind Setup.unpack_shape].
    rewrite HT. cbn [mbind result_bind].
    unfold Setup.interpolate, scipy.RegularGridInterpolator_init.
    destruct Hn as [Hn | [Hn | Hn]]; rewrite (scaled_range_0_not_ascending _ Hn);
      rewrite ?andb_false_r; reflexivity.
  - unfold Setup.detector_frame, Setup.voxel_size_assert.
    cbn [as_number as_sequence length Nat.eqb Setup.all_positive].
    rewrite Rltb_false by lra. reflexivity.
Qed.

Lemma detector_frame_scalar_zero_voxel_size_witness :
  Setup.detector_frame scenario_with_grazing_angle example_volume (PyNum 0) ∅
  = Raise ValueError.
Proof.
  refine (proj1 (detector_frame_scalar_zero_voxel_size scenario_with_grazing_angle
                   example_volume 2 2 2 _ ∅ eq_refl _ (check_kwargs_empty _)
                   example_transfer_matrix)).
  left. lia.
Defined.

(** ** The origin of the centered grid *)

Lemma lookup_centered_range (n k : nat) :
  (k < n)%nat →
  Setup.centered_range n !! k = Some (- Z.of_nat n / 2 + Z.of_nat k)%Z.
Proof.
  intros Hk. rewrite centered_range_seq, lookup_map, lookup_seq_lt by assumption.
  reflexivity.
Qed.

(** X18. On the centered axis of length [n >= 2] the coordinate 0 is at
    index [(n + 1) // 2]; an axis of length 1 is the single coordinate -1,
    and an empty axis has none: for [n <= 1] no voxel is at the origin. *)
Theorem centered_range_origin (n : nat) :
  ((2 <= n)%nat → Setup.centered_range n !! ((n + 1) / 2)%nat = Some 0%Z)
  ∧ ((n <= 1)%nat → ¬ In 0%Z (Setup.centered_range n)).
Proof.
  split.
  - intros Hn.
    assert (Hk : ((n + 1) / 2 < n)%nat).
    { apply Nat.Div0.div_lt_upper_bound. lia. }
    rewrite lookup_centered_range by exact Hk. f_equal.
    rewrite Nat2Z.inj_div, Nat2Z.inj_add. cbn [Z.of_nat Pos.of_succ_nat Pos.succ].
    Z.div_mod_to_equations. lia.
  - intros Hn. destruct n as [| [| n]]; [intros [] | | lia].
    intros [H | []]. discriminate H.
Qed.
(** ** [mask_detector] on every detector *)

#[local] Close Scope R_scope.

(** The four statements of a branch with gaps on two different arrays of one
    shape, read at a position. *)
Lemma gaps_then_hot_pixels_spec (data mask : Detector.loc) (threshold : R)
    (data_table mask_table : list (Detector.index * Detector.index))
    (h : gmap nat (ndarray R)) (d m : ndarray R) (nr nc : nat) :
  data ≠ mask →
  h !! data = Some d → h !! mask = Some m →
  shape d = [nr; nc] → shape m = [nr; nc] →
  forallb (valid_entry nr nc) data_table = true →
  forallb (valid_entry nr nc) mask_table = true →
  ∃ d' m',
    gaps_then_hot_pixels data mask data_table mask_table threshold h
    = Ok (<[data := d']> (<[mask := m']> h))
    ∧ shape d' = [nr; nc] ∧ shape m' = [nr; nc]
    ∧ ∀ i j xd xm, j < nc →
        flat d !! (i * nc + j) = Some xd → flat m !! (i * nc + j) = Some xm →
        let D := if covered nr nc data_table i j then 0%R else xd in
        let M := if covered nr nc mask_table i j then 1%R else xm in
        flat d' !! (i * nc + j) = Some (if Rltb threshold D then 0%R else D)
        ∧ flat m' !! (i * nc + j) = Some (if Rltb threshold D then 1%R else M).
Proof.
  intros Hne Hd Hm Hsd Hsm Vd Vm. unfold gaps_then_hot_pixels.
  destruct (assign_all_spec data 0%R nr nc _ Vd h d Hd Hsd)
    as (d1 & H1 & Hsd1 & _ & Hx1).
  rewrite H1. cbn [mbind result_bind].
  assert (Hm1 : <[data := d1]> h !! mask = Some m) by (now rewrite lookup_insert_ne).
  destruct (assign_all_spec mask 1%R nr nc _ Vm _ m Hm1 Hsm)
    as (m1 & H2 & Hsm1 & _ & Hx2).
  rewrite H2. cbn [mbind result_bind].
  set (h2 := <[mask := m1]> (<[data := d1]> h)).
  assert (Hd2 : h2 !! data = Some d1).
  { unfold h2. rewrite lookup_insert_ne by congruence. apply lookup_insert_eq. }
  assert (Hm2 : h2 !! mask = Some m1) by apply lookup_insert_eq.
  rewrite (store_set_above_eq mask data _ _ h2 d1 m1 Hd2 Hm2). cbn [mbind result_bind].
  set (m2 := Detector.setitem_where _ 1%R m1).
  set (h3 := <[mask := m2]> h2).
  assert (Hd3 : h3 !! data = Some d1).
  { unfold h3. now rewrite lookup_insert_ne by congruence. }
  rewrite (store_set_above_eq data data _ _ h3 d1 d1 Hd3 Hd3).
  set (d2 := Detector.setitem_where _ 0%R d1).
  exists d2, m2. split.
  - f_equal. unfold h3, h2. rewrite insert_insert_eq.
    rewrite (insert_insert_ne _ mask data) by congruence.
    now rewrite insert_insert_eq.
  - split; [exact Hsd1 |]. split; [exact Hsm1 |].
    intros i j xd xm Hj Hxd Hxm. cbv zeta.
    pose proof (Hx1 i j xd Hj Hxd) as E1. pose proof (Hx2 i j xm Hj Hxm) as E2.
    split; unfold d2, m2; now apply setitem_where_above.
Qed.

Lemma mask_Eiger4M_tables (data mask : Detector.loc) (nb_img : R)
    (h : gmap nat (ndarray R)) :
  Detector.mask_Eiger4M data mask nb_img h
  = gaps_then_hot_pixels data mask Eiger4M_gaps Eiger4M_gaps (4000000000 * nb_img)%R h.
Proof.
  unfold Detector.mask_Eiger4M, gaps_then_hot_pixels, Eiger4M_gaps.
  cbn [assign_all].
  repeat (destruct (Detector.store_setitem2 _ _ _ _ _); cbn [mbind result_bind];
          [| reflexivity]).
  reflexivity.
Qed.

Lemma mask_Maxipix_tables (data mask : Detector.loc) (nb_img : R)
    (h : gmap nat (ndarray R)) :
  Detector.mask_Maxipix data mask nb_img h
  = gaps_then_hot_pixels data mask Maxipix_gaps Maxipix_gaps (1e6 * nb_img)%R h.
Proof.
  unfold Detector.mask_Maxipix, gaps_then_hot_pixels, Maxipix_gaps.
  cbn [assign_all].
  repeat (destruct (Detector.store_setitem2 _ _ _ _ _); cbn [mbind result_bind];
          [| reflexivity]).
  reflexivity.
Qed.

Lemma mask_Merlin_tables (data mask : Detector.loc) (nb_img : R)
    (h : gmap nat (ndarray R)) :
  Detector.mask_Merlin data mask nb_img h
  = gaps_then_hot_pixels data mask Merlin_gaps Merlin_gaps (1e6 * nb_img)%R h.
Proof.
  unfold Detector.mask_Merlin, gaps_then_hot_pixels, Merlin_gaps.
  cbn [assign_all].
  repeat (destruct (Detector.store_setitem2 _ _ _ _ _); cbn [mbind result_bind];
          [| reflexivity]).
  reflexivity.
Qed.

(** The branch taken for the name of a detector with gaps. *)
Lemma gap_branch (self : Detector.instance) (data mask : Detector.loc) (nb_img : R)
    (h : gmap nat (ndarray R)) :
  In (Detector.name self) gap_detectors →
  (if String.eqb (Detector.name self) "Eiger2M"
   then Detector.mask_Eiger2M data mask nb_img h
   else if String.eqb (Detector.name self) "Eiger4M"
        then Detector.mask_Eiger4M data mask nb_img h
   else if String.eqb (Detector.name self) "Maxipix"
        then Detector.mask_Maxipix data mask nb_img h
   else if String.eqb (Detector.name self) "Merlin"
        then Detector.mask_Merlin data mask nb_img h
   else if String.eqb (Detector.name self) "Timepix" then Ok h
   else Raise NotImplementedError)
  = gaps_then_hot_pixels data mask (data_gaps (Detector.name self))
      (mask_gaps (Detector.name self))
      (hot_pixel_threshold (Detector.name self) nb_img) h.
Proof.
  unfold gap_detectors. simpl In. intros H.
  repeat (destruct H as [H | H];
          [rewrite <- H; unfold data_gaps, mask_gaps, hot_pixel_threshold;
           cbn [String.eqb Ascii.eqb Bool.eqb];
           first [apply mask_Eiger2M_tables | apply mask_Eiger4M_tables
                 | apply mask_Maxipix_tables | apply mask_Merlin_tables] |]).
  contradiction.
Qed.

(** [mask_detector] without optional arrays on two arrays of one 2D shape:
    the branch of the name runs on the arrays given. *)
Lemma mask_detector_plain (self : Detector.instance) (data mask : Detector.loc)
    (nb_img : R) (h : gmap nat (ndarray R)) (nr nc : nat) :
  array2d h data nr nc → array2d h mask nr nc →
  Detector.mask_detector self data mask nb_img None None None h
  = (h' ← (if String.eqb (Detector.name self) "Eiger2M"
           then Detector.mask_Eiger2M data mask nb_img h
           else if String.eqb (Detector.name self) "Eiger4M"
                then Detector.mask_Eiger4M data mask nb_img h
           else if String.eqb (Detector.name self) "Maxipix"
                then Detector.mask_Maxipix data mask nb_img h
           else if String.eqb (Detector.name self) "Merlin"
                then Detector.mask_Merlin data mask nb_img h
           else if String.eqb (Detector.name self) "Timepix" then Ok h
           else Raise NotImplementedError);
     Ok (data, mask, h')).
Proof.
  intros (d & Hd & Hsd & _) (m & Hm & Hsm & _).
  unfold Detector.mask_detector, Detector.deref.
  rewrite Hd, Hm. cbn [mbind result_bind]. rewrite Hsd, Hsm.
  cbn [length Nat.eqb andb negb raise_if mbind result_bind].
  unfold Detector.shape_eqb. rewrite bool_decide_eq_true_2 by reflexivity.
  reflexivity.
Qed.

Lemma Eiger2M_tables_valid_for (nr nc : nat) :
  482 <= nc →
  forallb (valid_entry nr nc) Eiger2M_data_gaps = true
  ∧ forallb (valid_entry nr nc) Eiger2M_mask_gaps = true.
Proof.
  intros Hn.
  assert (H478 : Detector.index_range nc (Detector.Int 478)
                 = Ok (478, 479)).
  { unfold Detector.index_range. cbn [Z.ltb Z.compare Z.leb andb].
    replace (478 <? Z.of_nat nc)%Z with true by (symmetry; apply Z.ltb_lt; lia).
    reflexivity. }
  assert (H481 : Detector.index_range nc (Detector.Int 481)
                 = Ok (481, 482)).
  { unfold Detector.index_range. cbn [Z.ltb Z.compare Z.leb andb].
    replace (481 <? Z.of_nat nc)%Z with true by (symmetry; apply Z.ltb_lt; lia).
    reflexivity. }
  unfold Eiger2M_data_gaps, Eiger2M_mask_gaps, valid_entry.
  cbn [forallb fst snd]. rewrite H478, H481. split; reflexivity.
Qed.

Lemma gap_tables_valid (name : string) (nr nc : nat) :
  In name gap_detectors → (name = "Eiger2M"%string → 482 <= nc) →
  forallb (valid_entry nr nc) (data_gaps name) = true
  ∧ forallb (valid_entry nr nc) (mask_gaps name) = true.
Proof.
  unfold gap_detectors. simpl In. intros H Hn.
  destruct H as [<- | [<- | [<- | [<- | []]]]].
  - apply Eiger2M_tables_valid_for, Hn. reflexivity.
  - split; reflexivity.
  - split; reflexivity.
  - split; reflexivity.
Qed.

Lemma array2d_cell (h : gmap nat (ndarray R)) (l : Detector.loc) (a : ndarray R)
    (nr nc i j : nat) :
  h !! l = Some a → shape a = [nr; nc] → cell h l i j = flat a !! (i * nc + j).
Proof. intros Ha Hs. unfold cell. rewrite Ha. cbn [mbind option_bind]. now rewrite Hs. Qed.

Lemma array2d_lookup (a : ndarray R) (nr nc i j : nat) :
  length (flat a) = nr * nc → i < nr → j < nc → ∃ x, flat a !! (i * nc + j) = Some x.
Proof. intros Hl Hi Hj. apply lookup_lt_is_Some_2. rewrite Hl. nia. Qed.

(** A branch with gaps on two different arrays of one shape, read cell by
    cell. *)
Lemma gap_detector_cells (self : Detector.instance) (data mask : Detector.loc)
    (nb_img : R) (h : gmap nat (ndarray R)) (nr nc : nat) :
  In (Detector.name self) gap_detectors →
  (Detector.name self = "Eiger2M"%string → 482 <= nc) →
  data ≠ mask → array2d h data nr nc → array2d h mask nr nc →
  ∃ h',
    Detector.mask_detector self data mask nb_img None None None h = Ok (data, mask, h')
    ∧ (∀ l, l ≠ data → l ≠ mask → h' !! l = h !! l)
    ∧ ∀ i j, i < nr → j < nc →
      ∃ xd xm,
        cell h data i j = Some xd ∧ cell h mask i j = Some xm
        ∧ let threshold := hot_pixel_threshold (Detector.name self) nb_img in
          let D := if covered nr nc (data_gaps (Detector.name self)) i j
                   then 0%R else xd in
          let M := if covered nr nc (mask_gaps (Detector.name self)) i j
                   then 1%R else xm in
          cell h' data i j = Some (if Rltb threshold D then 0%R else D)
          ∧ cell h' mask i j = Some (if Rltb threshold D then 1%R else M).
Proof.
  intros Hn H482 Hne Hda Hma.
  rewrite (mask_detector_plain self data mask nb_img h nr nc Hda Hma).
  rewrite (gap_branch self data mask nb_img h Hn).
  destruct Hda as (d & Hd & Hsd & Hld), Hma as (m & Hm & Hsm & Hlm).
  destruct (gap_tables_valid _ nr nc Hn H482) as [Vd Vm].
  destruct (gaps_then_hot_pixels_spec data mask
              (hot_pixel_threshold (Detector.name self) nb_img) _ _ h d m nr nc
              Hne Hd Hm Hsd Hsm Vd Vm) as (d' & m' & -> & Hsd' & Hsm' & Hx).
  cbn [mbind result_bind]. eexists. split; [reflexivity |]. split.
  - intros l Hl1 Hl2. now rewrite !lookup_insert_ne by congruence.
  - intros i j Hi Hj.
    destruct (array2d_lookup d nr nc i j Hld Hi Hj) as [xd Hxd].
    destruct (array2d_lookup m nr nc i j Hlm Hi Hj) as [xm Hxm].
    exists xd, xm.
    rewrite (array2d_cell h data d nr nc i j Hd Hsd), (array2d_cell h mask m nr nc i j Hm Hsm).
    split; [exact Hxd |]. split; [exact Hxm |]. cbv zeta.
    rewrite (array2d_cell _ data d' nr nc i j (lookup_insert_eq _ _ _) Hsd').
    assert (Hm' : <[data := d']> (<[mask := m']> h) !! mask = Some m').
    { rewrite lookup_insert_ne by assumption. apply lookup_insert_eq. }
    rewrite (array2d_cell _ mask m' nr nc i j Hm' Hsm').
    exact (Hx i j xd xm Hj Hxd Hxm).
Qed.

Lemma covers_empty_columns (nr nc : nat) (rows : Detector.index) (i j : nat) :
  covers nr nc (rows, Detector.upto 0) i j = false.
Proof.
  assert (E : Detector.index_range nc (Detector.upto 0) = Ok (0, 0)).
  { unfold Detector.upto, Detector.index_range.
    cbn [default from_option Datatypes.id]. change (0 <? 0)%Z with false. cbv iota.
    now rewrite Z.min_l by lia. }
  unfold covers. cbn [fst snd]. rewrite E.
  destruct (Detector.index_range nr rows); [| reflexivity].
  unfold Detector.in_range at 2. cbn [fst snd].
  replace (j <? 0) with false by (symmetry; apply Nat.ltb_ge; lia).
  now rewrite !andb_false_r.
Qed.

(** A cell that a branch zeroes in the data is a cell that it sets in the
    mask. *)
Lemma covered_data_mask (name : string) (nr nc i j : nat) :
  covered nr nc (data_gaps name) i j = true → covered nr nc (mask_gaps name) i j = true.
Proof.
  unfold data_gaps, mask_gaps.
  destruct (String.eqb name "Eiger2M"); [| tauto].
  unfold covered, Eiger2M_data_gaps, Eiger2M_mask_gaps. cbn [existsb].
  rewrite covers_empty_columns. cbn [orb].
  repeat match goal with
         | |- context [covers nr nc ?e i j] =>
           destruct (covers nr nc e i j); cbn [orb]; try reflexivity
         end.
  discriminate.
Qed.

(** X19. On the Eiger4M, the Maxipix and the Merlin, [mask_detector]
    without optional arrays works in place on any two different 2D arrays of
    one shape and touches nothing else; the data and the mask follow one and
    the same table of gaps: a cell of a gap ends with data 0 and mask 1, and
    any other cell keeps its data and its mask unless its data exceeds the
    hot-pixel threshold ([4000000000 * nb_img] for the Eiger4M, [1e6 * nb_img]
    for the others), in which case it ends with data 0 and mask 1 as well. *)
Theorem gaps_and_hot_pixels_masked_alike (self : Detector.instance)
    (data mask : Detector.loc) (nb_img : R) (h : gmap nat (ndarray R)) (nr nc : nat) :
  In (Detector.name self) ["Eiger4M"; "Maxipix"; "Merlin"]%string →
  data ≠ mask → array2d h data nr nc → array2d h mask nr nc →
  data_gaps (Detector.name self) = mask_gaps (Detector.name self)
  ∧ ∃ h',
      Detector.mask_detector self data mask nb_img None None None h = Ok (data, mask, h')
      ∧ (∀ l, l ≠ data → l ≠ mask → h' !! l = h !! l)
      ∧ ∀ i j, i < nr → j < nc →
        ∃ xd xm,
          cell h data i j = Some xd ∧ cell h mask i j = Some xm
          ∧ (if covered nr nc (mask_gaps (Detector.name self)) i j
                || Rltb (hot_pixel_threshold (Detector.name self) nb_img) xd
             then cell h' data i j = Some 0%R ∧ cell h' mask i j = Some 1%R
             else cell h' data i j = Some xd ∧ cell h' mask i j = Some xm).
Proof.
  intros Hn Hne Hda Hma.
  assert (Hg : In (Detector.name self) gap_detectors).
  { unfold gap_detectors. simpl In in *. tauto. }
  assert (Ht : data_gaps (Detector.name self) = mask_gaps (Detector.name self)).
  { simpl In in Hn. destruct Hn as [<- | [<- | [<- | []]]]; reflexivity. }
  split; [exact Ht |].
  assert (H482 : Detector.name self = "Eiger2M"%string → 482 <= nc).
  { intros E. rewrite E in Hn. simpl In in Hn.
    destruct Hn as [Hn | [Hn | [Hn | []]]]; discriminate Hn. }
  destruct (gap_detector_cells self data mask nb_img h nr nc Hg H482 Hne Hda Hma)
    as (h' & Hr & Hframe & Hcells).
  exists h'. split; [exact Hr |]. split; [exact Hframe |].
  intros i j Hi Hj. destruct (Hcells i j Hi Hj) as (xd & xm & Hxd & Hxm & Hd' & Hm').
  exists xd, xm. split; [exact Hxd |]. split; [exact Hxm |].
  cbv zeta in Hd', Hm'. rewrite Ht in Hd', Hm'.
  destruct (covered nr nc (mask_gaps (Detector.name self)) i j); cbn [orb].
  - rewrite if_same in Hd'. split; [exact Hd' |]. now rewrite if_same in Hm'.
  - destruct (Rltb _ xd); now split.
Qed.

Lemma two_arrays (nr nc : nat) :
  let h : gmap nat (ndarray R) :=
    <[0 := {| shape := [nr; nc]; dtype_of := float64; flat := replicate (nr * nc) 1%R |}]>
      (<[1 := {| shape := [nr; nc]; dtype_of := int64; flat := replicate (nr * nc) 0%R |}]> ∅)
  in array2d h 0 nr nc ∧ array2d h 1 nr nc.
Proof.
  cbv zeta. split; eexists.
  - split; [apply lookup_insert_eq |]. split; [reflexivity |]. apply length_replicate.
  - split; [rewrite lookup_insert_ne by discriminate; apply lookup_insert_eq |].
    split; [reflexivity |]. apply length_replicate.
Qed.

Lemma gaps_and_hot_pixels_masked_alike_witness :
  ∃ h', Detector.mask_detector {| Detector.name := "Maxipix" |} 0 1 1%R None None None
          (<[0 := {| shape := [2; 2]; dtype_of := float64;
                     flat := replicate (2 * 2) 1%R |}]>
             (<[1 := {| shape := [2; 2]; dtype_of := int64;
                        flat := replicate (2 * 2) 0%R |}]> ∅))
        = Ok (0, 1, h').
Proof.
  destruct (two_arrays 2 2) as [H0 H1].
  destruct (gaps_and_hot_pixels_masked_alike {| Detector.name := "Maxipix" |} 0 1 1%R
              _ 2 2 ltac:(simpl; auto) ltac:(discriminate) H0 H1)
    as (_ & h' & H & _).
  exists h'. exact H.
Defined.

(** X20. On each of the four detectors with gaps, [mask_detector] (without
    optional arrays, on two different arrays of one 2D shape; 482 columns
    or more for the Eiger2M) leaves every cell of the data at 0 or at its
    former value and every cell of the mask at 1 or at its former value;
    with [nb_img >= 0] no cell of the data exceeds the hot-pixel threshold
    afterwards, and every cell whose data was changed is set in the mask. *)
Theorem no_hot_pixel_remains (self : Detector.instance) (data mask : Detector.loc)
    (nb_img : R) (h : gmap nat (ndarray R)) (nr nc : nat) :
  In (Detector.name self) gap_detectors →
  (Detector.name self = "Eiger2M"%string → 482 <= nc) →
  data ≠ mask → array2d h data nr nc → array2d h mask nr nc →
  (0 <= nb_img)%R →
  ∃ h',
    Detector.mask_detector self data mask nb_img None None None h = Ok (data, mask, h')
    ∧ ∀ i j, i < nr → j < nc →
      ∃ xd xm yd ym,
        cell h data i j = Some xd ∧ cell h mask i j = Some xm
        ∧ cell h' data i j = Some yd ∧ cell h' mask i j = Some ym
        ∧ (yd <= hot_pixel_threshold (Detector.name self) nb_img)%R
        ∧ (yd = 0%R ∨ yd = xd) ∧ (ym = 1%R ∨ ym = xm)
        ∧ (yd ≠ xd → ym = 1%R).
Proof.
  intros Hn H482 Hne Hda Hma Hnb.
  destruct (gap_detector_cells self data mask nb_img h nr nc Hn H482 Hne Hda Hma)
    as (h' & Hr & _ & Hcells).
  exists h'. split; [exact Hr |].
  intros i j Hi Hj. destruct (Hcells i j Hi Hj) as (xd & xm & Hxd & Hxm & Hd' & Hm').
  cbv zeta in Hd', Hm'.
  assert (Ht : (0 <= hot_pixel_threshold (Detector.name self) nb_img)%R).
  { unfold hot_pixel_threshold. destruct (String.eqb _ _); lra. }
  set (t := hot_pixel_threshold (Detector.name self) nb_img) in *.
  pose proof (covered_data_mask (Detector.name self) nr nc i j) as Hcov.
  eexists xd, xm, _, _.
  split; [exact Hxd |]. split; [exact Hxm |]. split; [exact Hd' |]. split; [exact Hm' |].
  destruct (covered nr nc (data_gaps (Detector.name self)) i j).
  - rewrite (Hcov eq_refl). rewrite (Rltb_false t 0) by lra.
    repeat split; auto.
  - destruct (Rltb_spec t xd) as [Hhot | Hcold].
    + repeat split; auto; lra.
    + repeat split; auto; try lra.
      destruct (covered nr nc (mask_gaps (Detector.name self)) i j); auto.
Qed.

Lemma no_hot_pixel_remains_witness :
  ∃ h', Detector.mask_detector Eiger2M 0 1 1%R None None None ones_and_zeros
        = Ok (0, 1, h').
Proof.
  assert (Hd : array2d ones_and_zeros 0 2164 1030).
  { eexists. split; [apply lookup_insert_eq |]. split; [reflexivity |].
    apply length_replicate. }
  assert (Hm : array2d ones_and_zeros 1 2164 1030).
  { eexists. split; [unfold ones_and_zeros; rewrite lookup_insert_ne by discriminate;
                     apply lookup_insert_eq |].
    split; [reflexivity |]. apply length_replicate. }
  destruct (no_hot_pixel_remains Eiger2M 0 1 1%R ones_and_zeros 2164 1030) as (h' & H & _).
  - simpl. auto.
  - intros _. lia.
  - discriminate.
  - exact Hd.
  - exact Hm.
  - lra.
  - exists h'. exact H.
Defined.

(** ** Arrays that [mask_detector] refuses *)

Lemma index_range_Raise (n : nat) (ix : Detector.index) (e : exn) :
  Detector.index_range n ix = Raise e → e = IndexError.
Proof.
  unfold Detector.index_range. destruct ix as [start stop | k]; [discriminate |].
  destruct (_ && _); [discriminate | now intros [= <-]].
Qed.

Lemma assign_all_invalid (target : Detector.loc) (v : R) (nr nc : nat)
    (table : list (Detector.index * Detector.index)) :
  forallb (valid_entry nr nc) table = false →
  ∀ (h : gmap nat (ndarray R)) (a : ndarray R),
    h !! target = Some a → shape a = [nr; nc] →
    assign_all target v table h = Raise IndexError.
Proof.
  induction table as [| [rows cols] table IH]; intros Hv h a Ha Hs; [discriminate |].
  cbn [forallb] in Hv. cbn [assign_all].
  unfold Detector.store_setitem2, Detector.deref. rewrite Ha. cbn [mbind result_bind].
  destruct (valid_entry nr nc (rows, cols)) eqn:He.
  - cbn [andb] in Hv.
    destruct (valid_entry_ranges _ _ _ _ He) as (rr & cr & Hr & Hc).
    destruct (setitem2_spec rows cols v a nr nc rr cr Hs Hr Hc) as (a1 & H1 & Hs1 & _).
    rewrite H1. cbn [mbind result_bind].
    apply (IH Hv _ a1); [apply lookup_insert_eq | exact Hs1].
  - unfold valid_entry in He. cbn [fst snd] in He.
    unfold Detector.setitem2. rewrite Hs.
    destruct (Detector.index_range nr rows) as [rr | e] eqn:Er.
    + destruct (Detector.index_range nc cols) as [cr | e] eqn:Ec; [discriminate |].
      apply index_range_Raise in Ec as ->. reflexivity.
    + apply index_range_Raise in Er as ->. reflexivity.
Qed.

(** X21. The Eiger2M branch assigns to the single columns 478 and 481: on
    arrays of fewer than 482 columns (a cropped or binned frame), whatever
    the number of rows, [mask_detector] raises [IndexError]. *)
Theorem Eiger2M_needs_482_columns (data mask : Detector.loc) (nb_img : R)
    (h : gmap nat (ndarray R)) (nr nc : nat) :
  array2d h data nr nc → array2d h mask nr nc → nc < 482 →
  Detector.mask_detector Eiger2M data mask nb_img None None None h = Raise IndexError.
Proof.
  intros Hda Hma Hn.
  rewrite (mask_detector_plain Eiger2M data mask nb_img h nr nc Hda Hma).
  cbn [Eiger2M Detector.name String.eqb Ascii.eqb Bool.eqb].
  rewrite mask_Eiger2M_tables.
  destruct Hda as (d & Hd & Hsd & _).
  rewrite (assign_all_invalid data 0%R nr nc Eiger2M_data_gaps) with (a := d);
    [reflexivity | | exact Hd | exact Hsd].
  destruct (forallb (valid_entry nr nc) Eiger2M_data_gaps) eqn:E; [| reflexivity].
  exfalso.
  assert (Hin : In (Detector.sl 1214 1298, Detector.Int 481) Eiger2M_data_gaps).
  { unfold Eiger2M_data_gaps. do 12 right. left. reflexivity. }
  pose proof (proj1 (forallb_forall _ _) E _ Hin) as Hv.
  unfold valid_entry in Hv. cbn [fst snd] in Hv.
  destruct (Detector.index_range nr (Detector.sl 1214 1298)); [| discriminate].
  unfold Detector.index_range in Hv. cbn [Z.ltb Z.compare Z.leb andb] in Hv.
  replace (481 <? Z.of_nat nc)%Z with false in Hv by (symmetry; apply Z.ltb_ge; lia).
  discriminate.
Qed.

Lemma Eiger2M_needs_482_columns_witness :
  Detector.mask_detector Eiger2M 0 1 1%R None None None
    (<[0 := {| shape := [2; 2]; dtype_of := float64; flat := replicate (2 * 2) 1%R |}]>
       (<[1 := {| shape := [2; 2]; dtype_of := int64;
                  flat := replicate (2 * 2) 0%R |}]> ∅))
  = Raise IndexError.
Proof.
  destruct (two_arrays 2 2) as [H0 H1].
  apply (Eiger2M_needs_482_columns 0 1 1%R _ 2 2 H0 H1). lia.
Defined.

(** X22. [mask_detector] checks its two arrays before anything else: a data
    or a mask that is not 2D, or two different shapes, raise [ValueError]
    for every detector, known or not, and whatever the optional arrays. *)
Theorem shapes_checked_first (self : Detector.instance) (data mask : Detector.loc)
    (nb_img : R) (flatfield background hotpixels : option Detector.loc)
    (h : gmap nat (ndarray R)) (d m : ndarray R) :
  h !! data = Some d → h !! mask = Some m →
  length (shape d) ≠ 2 ∨ length (shape m) ≠ 2 ∨ shape d ≠ shape m →
  Detector.mask_detector self data mask nb_img flatfield background hotpixels h
  = Raise ValueError.
Proof.
  intros Hd Hm Hs. unfold Detector.mask_detector, Detector.deref.
  rewrite Hd, Hm. cbn [mbind result_bind].
  destruct (Nat.eqb_spec (length (shape d)) 2) as [E1 | E1];
    [| reflexivity].
  destruct (Nat.eqb_spec (length (shape m)) 2) as [E2 | E2];
    [| reflexivity].
  cbn [andb negb raise_if mbind result_bind].
  destruct Hs as [Hs | [Hs | Hs]]; try contradiction.
  unfold Detector.shape_eqb. rewrite bool_decide_eq_false_2 by assumption.
  reflexivity.
Qed.

Lemma shapes_checked_first_witness :
  Detector.mask_detector Eiger2M 0 1 1%R None None None
    (<[0 := {| shape := [4]; dtype_of := float64; flat := replicate 4 1%R |}]>
       (<[1 := {| shape := [2; 2]; dtype_of := int64; flat := replicate 4 0%R |}]> ∅))
  = Raise ValueError.
Proof.
  eapply (shapes_checked_first Eiger2M 0 1 1%R None None None).
  - apply lookup_insert_eq.
  - rewrite lookup_insert_ne by discriminate. apply lookup_insert_eq.
  - left. cbn. discriminate.
Defined.

(** X23. The Timepix has no gaps and, unlike the four other detectors, no
    hot-pixel threshold: without optional arrays [mask_detector] returns its
    two arrays and the store as they were, however large the counts. A
    detector with any name but the five raises [NotImplementedError], once
    the shapes have passed. *)
Theorem Timepix_is_left_alone (self : Detector.instance) (data mask : Detector.loc)
    (nb_img : R) (h : gmap nat (ndarray R)) (nr nc : nat) :
  array2d h data nr nc → array2d h mask nr nc →
  (Detector.name self = "Timepix"%string →
   Detector.mask_detector self data mask nb_img None None None h = Ok (data, mask, h))
  ∧ (¬ In (Detector.name self) ("Timepix"%string :: gap_detectors) →
     Detector.mask_detector self data mask nb_img None None None h
     = Raise NotImplementedError).
Proof.
  intros Hda Hma.
  rewrite (mask_detector_plain self data mask nb_img h nr nc Hda Hma). split.
  - intros ->. reflexivity.
  - unfold gap_detectors. simpl In. intros Hn.
    destruct (String.eqb_spec (Detector.name self) "Eiger2M"); [exfalso; auto 10 |].
    destruct (String.eqb_spec (Detector.name self) "Eiger4M"); [exfalso; auto 10 |].
    destruct (String.eqb_spec (Detector.name self) "Maxipix"); [exfalso; auto 10 |].
    destruct (String.eqb_spec (Detector.name self) "Merlin"); [exfalso; auto 10 |].
    destruct (String.eqb_spec (Detector.name self) "Timepix"); [exfalso; auto 10 |].
    reflexivity.
Qed.

Lemma Timepix_is_left_alone_witness :
  let h : gmap nat (ndarray R) :=
    <[0 := {| shape := [2; 2]; dtype_of := float64; flat := replicate (2 * 2) 1%R |}]>
      (<[1 := {| shape := [2; 2]; dtype_of := int64; flat := replicate (2 * 2) 0%R |}]> ∅)
  in Detector.mask_detector {| Detector.name := "Timepix" |} 0 1 1%R None None None h
     = Ok (0, 1, h).
Proof.
  cbv zeta. destruct (two_arrays 2 2) as [H0 H1].
  apply (proj1 (Timepix_is_left_alone {| Detector.name := "Timepix" |} 0 1 1%R _ 2 2 H0 H1)).
  reflexivity.
Defined.

Lemma Timepix_unchanged (self : Detector.instance) (data mask : Detector.loc)
    (nb_img : R) (h : gmap nat (ndarray R)) (nr nc : nat) :
  array2d h data nr nc → array2d h mask nr nc →
  Detector.name self = "Timepix"%string →
  Detector.mask_detector self data mask nb_img None None None h = Ok (data, mask, h).
Proof.
  intros Hda Hma Hn.
  rewrite (mask_detector_plain self data mask nb_img h nr nc Hda Hma), Hn.
  reflexivity.
Qed.

(** ** The optional arrays *)

Lemma array2d_checks (h : gmap nat (ndarray R)) (data mask : Detector.loc) (nr nc : nat)
    (d m : ndarray R) :
  h !! data = Some d → h !! mask = Some m → shape d = [nr; nc] → shape m = [nr; nc] →
  (raise_if (negb (Nat.eqb (length (shape d)) 2 && Nat.eqb (length (shape m)) 2)) ValueError
   = Ok tt)
  ∧ raise_if (negb (Detector.shape_eqb (shape d) (shape m))) ValueError = Ok tt.
Proof.
  intros _ _ Hsd Hsm. rewrite Hsd, Hsm. split; [reflexivity |].
  unfold Detector.shape_eqb. now rewrite bool_decide_eq_true_2.
Qed.

(** With [hotpixels], [mask_detector] is the two assignments of the hot
    pixels followed by [mask_detector] without them. *)
Lemma mask_detector_hotpixels (self : Detector.instance) (data mask p : Detector.loc)
    (nb_img : R) (h : gmap nat (ndarray R)) (nr nc : nat) (d m hp : ndarray R) :
  data ≠ mask →
  h !! data = Some d → h !! mask = Some m → h !! p = Some hp →
  shape d = [nr; nc] → shape m = [nr; nc] → shape hp = [nr; nc] →
  ∃ d1 m1,
    d1 = Detector.setitem_where (map (fun x => Reqb x 1) (flat hp)) 0%R d
    ∧ (p ≠ data → m1 = Detector.setitem_where (map (fun x => Reqb x 1) (flat hp)) 1%R m)
    ∧ shape d1 = [nr; nc] ∧ shape m1 = [nr; nc]
    ∧ Detector.mask_detector self data mask nb_img None None (Some p) h
      = Detector.mask_detector self data mask nb_img None None None
          (<[mask := m1]> (<[data := d1]> h)).
Proof.
  intros Hne Hd Hm Hp Hsd Hsm Hsp.
  set (d1 := Detector.setitem_where (map (fun x => Reqb x 1) (flat hp)) 0%R d).
  set (h1 := <[data := d1]> h).
  assert (Hm1 : h1 !! mask = Some m) by (unfold h1; now rewrite lookup_insert_ne).
  assert (Hp1 : ∃ hp1, h1 !! p = Some hp1
            ∧ (p ≠ data → hp1 = hp)).
  { destruct (decide (p = data)) as [-> | Hpd].
    - exists d1. split; [apply lookup_insert_eq | congruence].
    - exists hp. split; [unfold h1; now rewrite lookup_insert_ne | reflexivity]. }
  destruct Hp1 as (hp1 & Hp1 & Ehp).
  set (m1 := Detector.setitem_where (map (fun x => Reqb x 1) (flat hp1)) 1%R m).
  exists d1, m1.
  split; [reflexivity |]. split; [intros Hpd; unfold m1; now rewrite (Ehp Hpd) |].
  split; [exact Hsd |]. split; [exact Hsm |].
  destruct (array2d_checks h data mask nr nc d m Hd Hm Hsd Hsm) as [C1 C2].
  assert (Hd' : <[mask := m1]> h1 !! data = Some d1).
  { rewrite lookup_insert_ne by congruence. apply lookup_insert_eq. }
  assert (Hm' : <[mask := m1]> h1 !! mask = Some m1) by apply lookup_insert_eq.
  destruct (array2d_checks _ data mask nr nc d1 m1 Hd' Hm' Hsd Hsm) as [C3 C4].
  fold h1. unfold Detector.mask_detector, Detector.deref.
  rewrite Hd, Hm, Hd', Hm'. cbn [mbind result_bind].
  rewrite C1, C2, C3, C4. cbn [mbind result_bind].
  rewrite Hp, Hd. cbn [mbind result_bind].
  unfold Detector.same_shape_or_ValueError, Detector.shape_eqb.
  rewrite Hsp, Hsd, bool_decide_eq_true_2 by reflexivity.
  cbn [negb raise_if mbind result_bind].
  unfold Detector.store_set_equal1, Detector.deref.
  rewrite Hp, Hd. cbn [mbind result_bind]. fold d1. fold h1.
  rewrite Hp1, Hm1. cbn [mbind result_bind]. fold m1. reflexivity.
Qed.

Lemma setitem_where_lookup (f : R → bool) (v : R) (s a : ndarray R) (k : nat) (xs xa : R) :
  flat s !! k = Some xs → flat a !! k = Some xa →
  flat (Detector.setitem_where (map f (flat s)) v a) !! k
  = Some (if f xs then v else xa).
Proof.
  intros Hs Ha. unfold Detector.setitem_where. cbn [flat].
  rewrite lookup_zip_with, lookup_map, Hs, Ha. reflexivity.
Qed.

Lemma length_setitem_where (f : R → bool) (v : R) (s a : ndarray R) :
  length (flat s) = length (flat a) →
  length (flat (Detector.setitem_where (map f (flat s)) v a)) = length (flat a).
Proof.
  intros H. unfold Detector.setitem_where. cbn [flat].
  rewrite length_zip_with, length_map. lia.
Qed.

(** X24. A pixel flagged in [hotpixels] (value 1) ends with data 0 and mask
    1 on every detector that [mask_detector] implements: the two assignments
    of the hot pixels come first, and neither the gaps nor the threshold of
    the detector undo them. *)
Theorem flagged_hot_pixels_end_masked (self : Detector.instance)
    (data mask p : Detector.loc) (nb_img : R) (h : gmap nat (ndarray R)) (nr nc : nat) :
  In (Detector.name self) ("Timepix"%string :: gap_detectors) →
  (Detector.name self = "Eiger2M"%string → 482 <= nc) →
  data ≠ mask → p ≠ data → p ≠ mask →
  array2d h data nr nc → array2d h mask nr nc → array2d h p nr nc →
  ∃ h',
    Detector.mask_detector self data mask nb_img None None (Some p) h
    = Ok (data, mask, h')
    ∧ h' !! p = h !! p
    ∧ ∀ i j, i < nr → j < nc → cell h p i j = Some 1%R →
        cell h' data i j = Some 0%R ∧ cell h' mask i j = Some 1%R.
Proof.
  intros Hn H482 Hne Hpd Hpm (d & Hd & Hsd & Hld) (m & Hm & Hsm & Hlm)
    (hp & Hp & Hsp & Hlp).
  destruct (mask_detector_hotpixels self data mask p nb_img h nr nc d m hp
              Hne Hd Hm Hp Hsd Hsm Hsp) as (d1 & m1 & Ed1 & Em1 & Hsd1 & Hsm1 & ->).
  specialize (Em1 Hpd).
  set (h1 := <[mask := m1]> (<[data := d1]> h)).
  assert (Hd1 : h1 !! data = Some d1).
  { unfold h1. rewrite lookup_insert_ne by congruence. apply lookup_insert_eq. }
  assert (Hm1 : h1 !! mask = Some m1) by apply lookup_insert_eq.
  assert (Hp1 : h1 !! p = h !! p).
  { unfold h1. now rewrite !lookup_insert_ne by congruence. }
  assert (Hld1 : length (flat d1) = nr * nc).
  { rewrite Ed1, length_setitem_where; congruence. }
  assert (Hlm1 : length (flat m1) = nr * nc).
  { rewrite Em1, length_setitem_where; congruence. }
  assert (Ad : array2d h1 data nr nc) by (exists d1; auto).
  assert (Am : array2d h1 mask nr nc) by (exists m1; auto).
  assert (Hcell : ∀ i j, i < nr → j < nc → cell h p i j = Some 1%R →
            cell h1 data i j = Some 0%R ∧ cell h1 mask i j = Some 1%R).
  { intros i j Hi Hj Hc.
    rewrite (array2d_cell h p hp nr nc i j Hp Hsp) in Hc.
    destruct (array2d_lookup d nr nc i j Hld Hi Hj) as [xd Hxd].
    destruct (array2d_lookup m nr nc i j Hlm Hi Hj) as [xm Hxm].
    rewrite (array2d_cell h1 data d1 nr nc i j Hd1 Hsd1),
      (array2d_cell h1 mask m1 nr nc i j Hm1 Hsm1), Ed1, Em1.
    rewrite (setitem_where_lookup _ _ hp d _ _ _ Hc Hxd),
      (setitem_where_lookup _ _ hp m _ _ _ Hc Hxm).
    rewrite (Reqb_true 1 1 eq_refl). now split. }
  simpl In in Hn. destruct Hn as [Ht | Hg].
  - exists h1.
    split; [exact (Timepix_unchanged self data mask nb_img h1 nr nc Ad Am (eq_sym Ht)) |].
    split; [exact Hp1 | exact Hcell].
  - destruct (gap_detector_cells self data mask nb_img h1 nr nc Hg H482 Hne Ad Am)
      as (h' & Hr & Hframe & Hcells).
    exists h'. split; [exact Hr |].
    split; [rewrite Hframe by assumption; exact Hp1 |].
    intros i j Hi Hj Hc. destruct (Hcell i j Hi Hj Hc) as [C0 C1].
    destruct (Hcells i j Hi Hj) as (xd & xm & Hxd & Hxm & Hd' & Hm').
    rewrite C0 in Hxd. rewrite C1 in Hxm. injection Hxd as <-. injection Hxm as <-.
    cbv zeta in Hd', Hm'. repeat rewrite if_same in Hd'. repeat rewrite if_same in Hm'.
    now split.
Qed.

Lemma flagged_hot_pixels_end_masked_witness :
  ∃ h',
    Detector.mask_detector {| Detector.name := "Maxipix" |} 0 1 1%R None None (Some 2)
      (<[2 := {| shape := [2; 2]; dtype_of := int64; flat := replicate (2 * 2) 1%R |}]>
         (<[0 := {| shape := [2; 2]; dtype_of := float64;
                    flat := replicate (2 * 2) 1%R |}]>
            (<[1 := {| shape := [2; 2]; dtype_of := int64;
                       flat := replicate (2 * 2) 0%R |}]> ∅)))
    = Ok (0, 1, h')
    ∧ cell h' 0 0 0 = Some 0%R ∧ cell h' 1 0 0 = Some 1%R.
Proof.
  set (h := <[2 := _]> _).
  assert (A2 : array2d h 2 2 2).
  { eexists. split; [apply lookup_insert_eq |]. split; reflexivity. }
  assert (A0 : array2d h 0 2 2).
  { eexists. split; [unfold h; rewrite lookup_insert_ne by discriminate;
                     apply lookup_insert_eq |]. split; reflexivity. }
  assert (A1 : array2d h 1 2 2).
  { eexists. split; [unfold h; rewrite !lookup_insert_ne by discriminate;
                     apply lookup_insert_eq |]. split; reflexivity. }
  destruct (flagged_hot_pixels_end_masked {| Detector.name := "Maxipix" |} 0 1 2 1%R h 2 2)
    as (h' & H & _ & Hc); try assumption; try discriminate.
  - simpl. auto.
  - exists h'. split; [exact H |]. apply Hc; [lia | lia |].
    unfold cell, h. rewrite lookup_insert_eq. reflexivity.
Defined.

Lemma alloc_fresh (a : ndarray R) (h : gmap nat (ndarray R)) :
  h !! fst (Detector.alloc a h) = None
  ∧ snd (Detector.alloc a h) = <[fst (Detector.alloc a h) := a]> h.
Proof.
  unfold Detector.alloc. cbn [fst snd]. split; [| reflexivity].
  apply not_elem_of_dom, is_fresh.
Qed.

(** With a flatfield, or with a background, [mask_detector] goes on with a
    new array in place of the data. *)
Lemma mask_detector_new_data (self : Detector.instance) (data mask f : Detector.loc)
    (nb_img : R) (h : gmap nat (ndarray R)) (nr nc : nat) (d m a : ndarray R) :
  h !! data = Some d → h !! mask = Some m → h !! f = Some a →
  shape d = [nr; nc] → shape m = [nr; nc] → shape a = [nr; nc] →
  (let new := Detector.elementwise Rmult a d in
   Detector.mask_detector self data mask nb_img (Some f) None None h
   = Detector.mask_detector self (fst (Detector.alloc new h)) mask nb_img None None None
       (snd (Detector.alloc new h)))
  ∧ (let new := Detector.elementwise Rminus d a in
     Detector.mask_detector self data mask nb_img None (Some f) None h
     = Detector.mask_detector self (fst (Detector.alloc new h)) mask nb_img None None None
         (snd (Detector.alloc new h))).
Proof.
  intros Hd Hm Ha Hsd Hsm Hsa.
  destruct (array2d_checks h data mask nr nc d m Hd Hm Hsd Hsm) as [C1 C2].
  assert (G : ∀ new : ndarray R, shape new = [nr; nc] →
    (h' ← (if String.eqb (Detector.name self) "Eiger2M"
           then Detector.mask_Eiger2M (fst (Detector.alloc new h)) mask nb_img
                  (snd (Detector.alloc new h))
           else if String.eqb (Detector.name self) "Eiger4M"
                then Detector.mask_Eiger4M (fst (Detector.alloc new h)) mask nb_img
                       (snd (Detector.alloc new h))
           else if String.eqb (Detector.name self) "Maxipix"
                then Detector.mask_Maxipix (fst (Detector.alloc new h)) mask nb_img
                       (snd (Detector.alloc new h))
           else if String.eqb (Detector.name self) "Merlin"
                then Detector.mask_Merlin (fst (Detector.alloc new h)) mask nb_img
                       (snd (Detector.alloc new h))
           else if String.eqb (Detector.name self) "Timepix"
                then Ok (snd (Detector.alloc new h))
           else Raise NotImplementedError);
     Ok (fst (Detector.alloc new h), mask, h'))
    = Detector.mask_detector self (fst (Detector.alloc new h)) mask nb_img None None None
        (snd (Detector.alloc new h))).
  { intros new Hsn. destruct (alloc_fresh new h) as [Hf Hh].
    set (l := fst (Detector.alloc new h)) in *. rewrite Hh.
    assert (Hlm : l ≠ mask) by congruence.
    symmetry. unfold Detector.mask_detector, Detector.deref.
    rewrite lookup_insert_eq, lookup_insert_ne, Hm by assumption.
    cbn [mbind result_bind]. rewrite Hsn, Hsm.
    cbn [length Nat.eqb andb negb raise_if mbind result_bind].
    unfold Detector.shape_eqb. rewrite bool_decide_eq_true_2 by reflexivity.
    reflexivity. }
  split; cbv zeta.
  - rewrite <- (G (Detector.elementwise Rmult a d)) by exact Hsd.
    unfold Detector.mask_detector, Detector.deref.
    rewrite Hd, Hm. cbn [mbind result_bind]. rewrite C1, C2. cbn [mbind result_bind].
    rewrite Ha. cbn [mbind result_bind].
    unfold Detector.same_shape_or_ValueError, Detector.shape_eqb.
    rewrite Hsa, Hsd, bool_decide_eq_true_2 by reflexivity.
    cbn [negb raise_if mbind result_bind].
    destruct (Detector.alloc (Detector.elementwise Rmult a d) h) as [l h1].
    reflexivity.
  - rewrite <- (G (Detector.elementwise Rminus d a)) by exact Hsa.
    unfold Detector.mask_detector, Detector.deref.
    rewrite Hd, Hm. cbn [mbind result_bind]. rewrite C1, C2. cbn [mbind result_bind].
    rewrite Ha, Hd. cbn [mbind result_bind].
    unfold Detector.same_shape_or_ValueError, Detector.shape_eqb.
    rewrite Hsa, Hsd, bool_decide_eq_true_2 by reflexivity.
    cbn [negb raise_if mbind result_bind].
    destruct (Detector.alloc (Detector.elementwise Rminus d a) h) as [l h1].
    reflexivity.
Qed.

Lemma masking_a_new_array (self : Detector.instance) (mask : Detector.loc) (nb_img : R)
    (h : gmap nat (ndarray R)) (nr nc : nat) (new : ndarray R) :
  In (Detector.name self) ("Timepix"%string :: gap_detectors) →
  (Detector.name self = "Eiger2M"%string → 482 <= nc) →
  array2d h mask nr nc → shape new = [nr; nc] → length (flat new) = nr * nc →
  ∃ h',
    Detector.mask_detector self (fst (Detector.alloc new h)) mask nb_img None None None
      (snd (Detector.alloc new h))
    = Ok (fst (Detector.alloc new h), mask, h')
    ∧ h !! fst (Detector.alloc new h) = None
    ∧ ∀ l, l ≠ mask → is_Some (h !! l) → h' !! l = h !! l.
Proof.
  intros Hn H482 (m & Hm & Hsm & Hlm) Hsn Hln.
  destruct (alloc_fresh new h) as [Hf Hh].
  set (l := fst (Detector.alloc new h)) in *. rewrite Hh.
  assert (Hlm' : l ≠ mask) by congruence.
  assert (Ad : array2d (<[l := new]> h) l nr nc).
  { exists new. split; [apply lookup_insert_eq | auto]. }
  assert (Am : array2d (<[l := new]> h) mask nr nc).
  { exists m. split; [now rewrite lookup_insert_ne | auto]. }
  assert (Hold : ∀ x, is_Some (h !! x) → x ≠ l).
  { intros x [y Hy] ->. congruence. }
  simpl In in Hn. destruct Hn as [Ht | Hg].
  - exists (<[l := new]> h).
    split; [exact (Timepix_unchanged self l mask nb_img _ nr nc Ad Am (eq_sym Ht)) |].
    split; [exact Hf |]. intros x _ Hx. apply lookup_insert_ne. apply not_eq_sym. auto.
  - destruct (gap_detector_cells self l mask nb_img _ nr nc Hg H482 Hlm' Ad Am)
      as (h' & Hr & Hframe & _).
    exists h'. split; [exact Hr |]. split; [exact Hf |].
    intros x Hxm Hx. rewrite Hframe by auto.
    apply lookup_insert_ne. apply not_eq_sym. auto.
Qed.

(** X25. With a flatfield (and likewise with a background) [mask_detector]
    works on a new array: the data returned is an array that was not in the
    store, and the array that the caller passed as data is left exactly as
    it was, like the flatfield itself, while the mask is still updated in
    place. Without these arguments the array returned as data is the
    caller's own, modified in place. *)
Theorem flatfield_spares_the_input (self : Detector.instance)
    (data mask f : Detector.loc) (nb_img : R) (h : gmap nat (ndarray R)) (nr nc : nat) :
  In (Detector.name self) ("Timepix"%string :: gap_detectors) →
  (Detector.name self = "Eiger2M"%string → 482 <= nc) →
  data ≠ mask → f ≠ mask →
  array2d h data nr nc → array2d h mask nr nc → array2d h f nr nc →
  (∃ data' h',
     Detector.mask_detector self data mask nb_img (Some f) None None h
     = Ok (data', mask, h')
     ∧ h !! data' = None ∧ h' !! data = h !! data ∧ h' !! f = h !! f)
  ∧ (∃ data' h',
       Detector.mask_detector self data mask nb_img None (Some f) None h
       = Ok (data', mask, h')
       ∧ h !! data' = None ∧ h' !! data = h !! data ∧ h' !! f = h !! f)
  ∧ (∃ h', Detector.mask_detector self data mask nb_img None None None h
           = Ok (data, mask, h')).
Proof.
  intros Hn H482 Hne Hfm Hda Hma Hfa.
  pose proof Hda as (d & Hd & Hsd & Hld). pose proof Hma as (m & Hm & Hsm & Hlm).
  pose proof Hfa as (a & Ha & Hsa & Hla).
  destruct (mask_detector_new_data self data mask f nb_img h nr nc d m a
              Hd Hm Ha Hsd Hsm Hsa) as [E1 E2].
  cbv zeta in E1, E2.
  assert (L1 : length (flat (Detector.elementwise Rmult a d)) = nr * nc).
  { unfold Detector.elementwise. cbn [flat]. rewrite length_zip_with. lia. }
  assert (L2 : length (flat (Detector.elementwise Rminus d a)) = nr * nc).
  { unfold Detector.elementwise. cbn [flat]. rewrite length_zip_with. lia. }
  split; [| split].
  - destruct (masking_a_new_array self mask nb_img h nr nc
                (Detector.elementwise Rmult a d) Hn H482 Hma Hsd L1)
      as (h' & Hr & Hnew & Hframe).
    eexists _, h'. rewrite E1. split; [exact Hr |]. split; [exact Hnew |].
    split; apply Hframe; eauto.
  - destruct (masking_a_new_array self mask nb_img h nr nc
                (Detector.elementwise Rminus d a) Hn H482 Hma Hsa L2)
      as (h' & Hr & Hnew & Hframe).
    eexists _, h'. rewrite E2. split; [exact Hr |]. split; [exact Hnew |].
    split; apply Hframe; eauto.
  - simpl In in Hn. destruct Hn as [Ht | Hg].
    + exists h. exact (Timepix_unchanged self data mask nb_img h nr nc Hda Hma (eq_sym Ht)).
    + destruct (gap_detector_cells self data mask nb_img h nr nc Hg H482 Hne Hda Hma)
        as (h' & Hr & _). exists h'. exact Hr.
Qed.

Lemma flatfield_spares_the_input_witness :
  let h : gmap nat (ndarray R) :=
    <[2 := {| shape := [2; 2]; dtype_of := float64; flat := replicate (2 * 2) 1%R |}]>
      (<[0 := {| shape := [2; 2]; dtype_of := float64; flat := replicate (2 * 2) 1%R |}]>
         (<[1 := {| shape := [2; 2]; dtype_of := int64;
                    flat := replicate (2 * 2) 0%R |}]> ∅)) in
  ∃ data' h',
    Detector.mask_detector {| Detector.name := "Maxipix" |} 0 1 1%R (Some 2) None None h
    = Ok (data', 1, h')
    ∧ h !! data' = None ∧ h' !! 0 = h !! 0.
Proof.
  cbv zeta. set (h := <[2 := _]> _).
  assert (A2 : array2d h 2 2 2).
  { eexists. split; [apply lookup_insert_eq |]. split; reflexivity. }
  assert (A0 : array2d h 0 2 2).
  { eexists. split; [unfold h; rewrite lookup_insert_ne by discriminate;
                     apply lookup_insert_eq |]. split; reflexivity. }
  assert (A1 : array2d h 1 2 2).
  { eexists. split; [unfold h; rewrite !lookup_insert_ne by discriminate;
                     apply lookup_insert_eq |]. split; reflexivity. }
  destruct (flatfield_spares_the_input {| Detector.name := "Maxipix" |} 0 1 2 1%R h 2 2)
    as ((data' & h' & H & Hn & Hd & _) & _); try assumption; try discriminate.
  - simpl. auto.
  - exists data', h'. auto.
Defined.

(** ** One array passed twice *)

(** X26. The data and the mask must be two arrays. When one and the same
    array is passed for both, the assignments of the mask overwrite those of
    the data: on each of the four detectors with gaps, with a hot-pixel
    threshold of 1 or more, the array returned (as data and as mask alike)
    holds 1, not 0, in every cell of a gap. *)
Theorem same_array_as_data_and_mask (self : Detector.instance) (l : Detector.loc)
    (nb_img : R) (h : gmap nat (ndarray R)) (nr nc : nat) :
  In (Detector.name self) gap_detectors →
  (Detector.name self = "Eiger2M"%string → 482 <= nc) →
  array2d h l nr nc →
  (1 <= hot_pixel_threshold (Detector.name self) nb_img)%R →
  ∃ h',
    Detector.mask_detector self l l nb_img None None None h = Ok (l, l, h')
    ∧ ∀ i j, i < nr → j < nc →
        covered nr nc (mask_gaps (Detector.name self)) i j = true →
        cell h' l i j = Some 1%R.
Proof.
  intros Hn H482 Hla Ht.
  rewrite (mask_detector_plain self l l nb_img h nr nc Hla Hla).
  rewrite (gap_branch self l l nb_img h Hn).
  destruct Hla as (a & Ha & Hs & Hl).
  destruct (gap_tables_valid _ nr nc Hn H482) as [Vd Vm].
  set (t := hot_pixel_threshold (Detector.name self) nb_img) in *.
  unfold gaps_then_hot_pixels.
  destruct (assign_all_spec l 0%R nr nc _ Vd h a Ha Hs) as (a1 & H1 & Hs1 & Hl1 & Hx1).
  rewrite H1. cbn [mbind result_bind].
  destruct (assign_all_spec l 1%R nr nc _ Vm (<[l := a1]> h) a1
              (lookup_insert_eq h l a1) Hs1)
    as (a2 & H2 & Hs2 & Hl2 & Hx2).
  rewrite H2, insert_insert_eq. cbn [mbind result_bind].
  rewrite (store_set_above_eq l l _ _ (<[l := a2]> h) a2 a2
             (lookup_insert_eq h l a2) (lookup_insert_eq h l a2)).
  cbn [mbind result_bind]. rewrite insert_insert_eq.
  set (a3 := Detector.setitem_where _ 1%R a2).
  rewrite (store_set_above_eq l l _ _ (<[l := a3]> h) a3 a3
             (lookup_insert_eq h l a3) (lookup_insert_eq h l a3)).
  cbn [mbind result_bind]. rewrite insert_insert_eq.
  eexists. split; [reflexivity |].
  intros i j Hi Hj Hc.
  destruct (array2d_lookup a nr nc i j Hl Hi Hj) as [x Hx].
  pose proof (Hx2 i j _ Hj (Hx1 i j x Hj Hx)) as E2. rewrite Hc in E2.
  pose proof (setitem_where_above t 1%R a2 a2 _ _ _ E2 E2) as E3.
  rewrite if_same in E3. fold a3 in E3.
  pose proof (setitem_where_above t 0%R a3 a3 _ _ _ E3 E3) as E4.
  rewrite Rltb_false in E4 by lra.
  unfold cell. rewrite lookup_insert_eq. cbn [mbind option_bind].
  unfold Detector.setitem_where at 1. cbn [shape].
  unfold a3, Detector.setitem_where at 1. cbn [shape]. rewrite Hs2. exact E4.
Qed.

Lemma same_array_as_data_and_mask_witness :
  ∃ h',
    Detector.mask_detector Eiger2M 0 0 1%R None None None ones_and_zeros = Ok (0, 0, h')
    ∧ cell h' 0 256 256 = Some 1%R.
Proof.
  assert (Hd : array2d ones_and_zeros 0 2164 1030).
  { eexists. split; [apply lookup_insert_eq |]. split; [reflexivity |].
    apply length_replicate. }
  destruct (same_array_as_data_and_mask Eiger2M 0 1%R ones_and_zeros 2164 1030)
    as (h' & H & Hc).
  - simpl. auto.
  - intros _. lia.
  - exact Hd.
  - unfold hot_pixel_threshold. cbn [Eiger2M Detector.name String.eqb Ascii.eqb Bool.eqb].
    lra.
  - exists h'. split; [exact H |]. apply Hc; [lia | lia |].
    vm_compute. reflexivity.
Defined.

(** ** The constructor of [Detector] *)

Lemma binned_pixels_Ok (kw : Detector.kwargs) (pb : list Z) (dx dy nx ny : Z) :
  Detector.binned_pixels kw pb dx dy = Ok (nx, ny) →
  ∃ p1 p2, pb !! 1 = Some p1 ∧ pb !! 2 = Some p2 ∧ p1 ≠ 0%Z ∧ p2 ≠ 0%Z
    ∧ nx = (Detector.or_int (Detector.kw_nb_pixel_x kw) dx / p2)%Z
    ∧ ny = (Detector.or_int (Detector.kw_nb_pixel_y kw) dy / p1)%Z.
Proof.
  unfold Detector.binned_pixels, Detector.subscript, Detector.floordiv. intros H.
  destruct (pb !! 2) as [p2 |]; [| discriminate]. cbn [mbind result_bind] in H.
  destruct (Z.eqb_spec p2 0); [discriminate |]. cbn [mbind result_bind] in H.
  destruct (pb !! 1) as [p1 |]; [| discriminate]. cbn [mbind result_bind] in H.
  destruct (Z.eqb_spec p1 0); [discriminate |]. cbn [mbind result_bind] in H.
  injection H as <- <-. exists p1, p2. repeat split; auto.
Qed.

Lemma roi_or_full_Ok (r : list Z) (ny nx : Z) (out : list Z) :
  Detector.roi_or_full r ny nx = Ok out →
  length out = 4 ∧ (r = [] → out = [0; ny; 0; nx]%Z) ∧ (r ≠ [] → out = r).
Proof.
  unfold Detector.roi_or_full.
  destruct r as [| a [| b [| c [| d [| e r]]]]]; cbn [length Nat.eqb];
    try discriminate; intros [= <-]; repeat split; congruence.
Qed.

(** The nominal sensor of a detector: [(nb_pixel_y, nb_pixel_x)] and the
    pixel size. *)
Lemma init_Ok (name : string) (roi sum_roi binning : list Z) (kw : Detector.kwargs)
    (a : Detector.attributes) :
  Detector.__init__ name roi sum_roi binning kw = Ok a →
  Detector.unknown kw = []
  ∧ Detector.attr_name a = name
  ∧ Detector.previous_binning a = Detector.or_binning (Detector.kw_previous_binning kw)
  ∧ ∃ H W size,
      Detector.sensor_shape name = Some (H, W)
      ∧ (size = 55e-06 ∨ size = 75e-06)%R
      ∧ Detector.binned_pixels kw (Detector.previous_binning a) (Z.of_nat W) (Z.of_nat H)
        = Ok (Detector.nb_pixel_x a, Detector.nb_pixel_y a)
      ∧ (∃ p1 b1, Detector.previous_binning a !! 1 = Some p1 ∧ binning !! 1 = Some b1
           ∧ Detector.pixelsize_y a = (size * IZR p1 * IZR b1)%R)
      ∧ (∃ p2 b2, Detector.previous_binning a !! 2 = Some p2 ∧ binning !! 2 = Some b2
           ∧ Detector.pixelsize_x a = (size * IZR p2 * IZR b2)%R)
      ∧ Detector.roi_or_full roi (Detector.nb_pixel_y a) (Detector.nb_pixel_x a)
        = Ok (Detector.roi a)
      ∧ Detector.roi_or_full sum_roi (Detector.nb_pixel_y a) (Detector.nb_pixel_x a)
        = Ok (Detector.sum_roi a).
Proof.
  unfold Detector.__init__. intros H.
  destruct (Detector.unknown kw) as [| k ks] eqn:Ek; [| discriminate].
  cbn [length Nat.eqb negb raise_if mbind result_bind] in H.
  split; [reflexivity |].
  set (pb := Detector.or_binning (Detector.kw_previous_binning kw)) in *.
  assert (G : ∀ (H0 W0 : nat) (size : R) (c : string),
    Detector.sensor_shape name = Some (H0, W0) →
    (size = 55e-06 ∨ size = 75e-06)%R →
    ('(nb_pixel_x, nb_pixel_y, pixelsize_x, pixelsize_y, counter) ←
       ('(nx, ny) ← Detector.binned_pixels kw pb (Z.of_nat W0) (Z.of_nat H0);
        Ok (nx, ny, size, size, c));
     pb1 ← Detector.subscript pb 1;
     b1 ← Detector.subscript binning 1;
     let pixelsize_y := (pixelsize_y * IZR pb1 * IZR b1)%R in
     pb2 ← Detector.subscript pb 2;
     b2 ← Detector.subscript binning 2;
     let pixelsize_x := (pixelsize_x * IZR pb2 * IZR b2)%R in
     roi ← Detector.roi_or_full roi nb_pixel_y nb_pixel_x;
     sum_roi ← Detector.roi_or_full sum_roi nb_pixel_y nb_pixel_x;
     Ok {| Detector.attr_name := name;
           Detector.is_series := default false (Detector.kw_is_series kw);
           Detector.nb_pixel_x := nb_pixel_x; Detector.nb_pixel_y := nb_pixel_y;
           Detector.previous_binning := pb; Detector.binning := binning;
           Detector.pixelsize_x := pixelsize_x; Detector.pixelsize_y := pixelsize_y;
           Detector.counter := counter; Detector.roi := roi;
           Detector.sum_roi := sum_roi |}) = Ok a →
    Detector.attr_name a = name ∧ Detector.previous_binning a = pb
    ∧ ∃ H W size,
      Detector.sensor_shape name = Some (H, W)
      ∧ (size = 55e-06 ∨ size = 75e-06)%R
      ∧ Detector.binned_pixels kw (Detector.previous_binning a) (Z.of_nat W) (Z.of_nat H)
        = Ok (Detector.nb_pixel_x a, Detector.nb_pixel_y a)
      ∧ (∃ p1 b1, Detector.previous_binning a !! 1 = Some p1 ∧ binning !! 1 = Some b1
           ∧ Detector.pixelsize_y a = (size * IZR p1 * IZR b1)%R)
      ∧ (∃ p2 b2, Detector.previous_binning a !! 2 = Some p2 ∧ binning !! 2 = Some b2
           ∧ Detector.pixelsize_x a = (size * IZR p2 * IZR b2)%R)
      ∧ Detector.roi_or_full roi (Detector.nb_pixel_y a) (Detector.nb_pixel_x a)
        = Ok (Detector.roi a)
      ∧ Detector.roi_or_full sum_roi (Detector.nb_pixel_y a) (Detector.nb_pixel_x a)
        = Ok (Detector.sum_roi a)).
  { intros H0 W0 size c Hshape Hsize E.
    destruct (Detector.binned_pixels kw pb (Z.of_nat W0) (Z.of_nat H0))
      as [[nx ny] |] eqn:Eb; [| discriminate].
    cbn [mbind result_bind] in E. unfold Detector.subscript in E.
    destruct (pb !! 1) as [p1 |] eqn:E1; [| discriminate]. cbn [mbind result_bind] in E.
    destruct (binning !! 1) as [b1 |] eqn:E2; [| discriminate].
    cbn [mbind result_bind] in E.
    destruct (pb !! 2) as [p2 |] eqn:E3; [| discriminate]. cbn [mbind result_bind] in E.
    destruct (binning !! 2) as [b2 |] eqn:E4; [| discriminate].
    cbn [mbind result_bind] in E.
    destruct (Detector.roi_or_full roi ny nx) as [r |] eqn:Er; [| discriminate].
    cbn [mbind result_bind] in E.
    destruct (Detector.roi_or_full sum_roi ny nx) as [sr |] eqn:Es; [| discriminate].
    cbn [mbind result_bind] in E. injection E as <-.
    cbn [Detector.attr_name Detector.previous_binning Detector.nb_pixel_x
         Detector.nb_pixel_y Detector.pixelsize_x Detector.pixelsize_y Detector.roi
         Detector.sum_roi].
    split; [reflexivity |]. split; [reflexivity |].
    exists H0, W0, size. rewrite E1, E3.
    split; [exact Hshape |]. split; [exact Hsize |]. split; [exact Eb |].
    split; [exists p1, b1; auto |]. split; [exists p2, b2; auto |].
    split; assumption. }
  unfold Detector.sensor_shape in *.
  destruct (String.eqb name "Maxipix");
    [exact (G 516 516 _ _ eq_refl (or_introl eq_refl) H) |].
  destruct (String.eqb name "Eiger2M");
    [exact (G 2164 1030 _ _ eq_refl (or_intror eq_refl) H) |].
  destruct (String.eqb name "Eiger4M");
    [exact (G 2167 2070 _ _ eq_refl (or_intror eq_refl) H) |].
  destruct (String.eqb name "Timepix");
    [exact (G 256 256 _ _ eq_refl (or_introl eq_refl) H) |].
  destruct (String.eqb name "Merlin");
    [exact (G 515 515 _ _ eq_refl (or_introl eq_refl) H) |].
  discriminate H.
Qed.

Lemma bind_Raise_inv {A B : Type} (c : result A) (k : A → result B) (e : exn) :
  (c ≫= k) = Raise e → c = Raise e ∨ ∃ a, c = Ok a ∧ k a = Raise e.
Proof.
  destruct c as [a | e']; intros H; [right; eauto | left].
  now injection H as ->.
Qed.

Lemma deref_Raise (l : Detector.loc) (h : gmap nat (ndarray R)) (e : exn) :
  Detector.deref l h = Raise e → e = AssertionError.
Proof. unfold Detector.deref. destruct (h !! l); [discriminate | now intros [= <-]]. Qed.

Lemma raise_if_Raise (c : bool) (e e' : exn) : raise_if c e = Raise e' → e' = e.
Proof. destruct c; [now intros [= <-] | discriminate]. Qed.

Lemma store_setitem2_Raise (t : Detector.loc) (rows cols : Detector.index) (v : R)
    (h : gmap nat (ndarray R)) (e : exn) :
  Detector.store_setitem2 t rows cols v h = Raise e → e ≠ NotImplementedError.
Proof.
  unfold Detector.store_setitem2. intros H.
  apply bind_Raise_inv in H as [H | (a & _ & H)];
    [apply deref_Raise in H as ->; discriminate |].
  apply bind_Raise_inv in H as [H | (a' & _ & H)]; [| discriminate].
  unfold Detector.setitem2 in H.
  destruct (shape a) as [| nr [| nc [| ? ?]]]; try (injection H as <-; discriminate).
  apply bind_Raise_inv in H as [H | (rr & _ & H)];
    [apply index_range_Raise in H as ->; discriminate |].
  apply bind_Raise_inv in H as [H | (cr & _ & H)];
    [apply index_range_Raise in H as ->; discriminate | discriminate].
Qed.

Lemma assign_all_Raise (t : Detector.loc) (v : R)
    (table : list (Detector.index * Detector.index)) (h : gmap nat (ndarray R)) (e : exn) :
  assign_all t v table h = Raise e → e ≠ NotImplementedError.
Proof.
  revert h. induction table as [| [rows cols] table IH]; intros h H; [discriminate |].
  cbn [assign_all] in H.
  apply bind_Raise_inv in H as [H | (h1 & _ & H)];
    [now apply store_setitem2_Raise in H | now apply IH in H].
Qed.

Lemma store_set_above_Raise (t s : Detector.loc) (threshold v : R)
    (h : gmap nat (ndarray R)) (e : exn) :
  Detector.store_set_above t s threshold v h = Raise e → e ≠ NotImplementedError.
Proof.
  unfold Detector.store_set_above. intros H.
  apply bind_Raise_inv in H as [H | (a & _ & H)];
    [apply deref_Raise in H as ->; discriminate |].
  apply bind_Raise_inv in H as [H | (a' & _ & H)];
    [apply deref_Raise in H as ->; discriminate | discriminate].
Qed.

Lemma store_set_equal1_Raise (t s : Detector.loc) (v : R)
    (h : gmap nat (ndarray R)) (e : exn) :
  Detector.store_set_equal1 t s v h = Raise e → e ≠ NotImplementedError.
Proof.
  unfold Detector.store_set_equal1. intros H.
  apply bind_Raise_inv in H as [H | (a & _ & H)];
    [apply deref_Raise in H as ->; discriminate |].
  apply bind_Raise_inv in H as [H | (a' & _ & H)];
    [apply deref_Raise in H as ->; discriminate | discriminate].
Qed.

Lemma gaps_then_hot_pixels_Raise (data mask : Detector.loc)
    (td tm : list (Detector.index * Detector.index)) (threshold : R)
    (h : gmap nat (ndarray R)) (e : exn) :
  gaps_then_hot_pixels data mask td tm threshold h = Raise e → e ≠ NotImplementedError.
Proof.
  unfold gaps_then_hot_pixels. intros H.
  apply bind_Raise_inv in H as [H | (h1 & _ & H)]; [now apply assign_all_Raise in H |].
  apply bind_Raise_inv in H as [H | (h2 & _ & H)]; [now apply assign_all_Raise in H |].
  apply bind_Raise_inv in H as [H | (h3 & _ & H)];
    [now apply store_set_above_Raise in H | now apply store_set_above_Raise in H].
Qed.

(** Only the last branch of [mask_detector] raises [NotImplementedError]. *)
Lemma mask_detector_implemented (self : Detector.instance) (data mask : Detector.loc)
    (nb_img : R) (flatfield background hotpixels : option Detector.loc)
    (h : gmap nat (ndarray R)) :
  In (Detector.name self) ("Timepix"%string :: gap_detectors) →
  Detector.mask_detector self data mask nb_img flatfield background hotpixels h
  ≠ Raise NotImplementedError.
Proof.
  intros Hn H. unfold Detector.mask_detector in H.
  apply bind_Raise_inv in H as [H | (d & _ & H)];
    [apply deref_Raise in H; discriminate |].
  apply bind_Raise_inv in H as [H | (m & _ & H)];
    [apply deref_Raise in H; discriminate |].
  apply bind_Raise_inv in H as [H | (u1 & _ & H)];
    [apply raise_if_Raise in H; discriminate |].
  apply bind_Raise_inv in H as [H | (u2 & _ & H)];
    [apply raise_if_Raise in H; discriminate |].
  apply bind_Raise_inv in H as [H | ([data1 h1] & _ & H)].
  { destruct flatfield as [f |]; [| discriminate].
    apply bind_Raise_inv in H as [H | (x & _ & H)];
      [apply deref_Raise in H; discriminate |].
    apply bind_Raise_inv in H as [H | (y & _ & H)];
      [apply deref_Raise in H; discriminate |].
    apply bind_Raise_inv in H as [H | (z & _ & H)];
      [apply raise_if_Raise in H; discriminate | discriminate]. }
  apply bind_Raise_inv in H as [H | ([data2 h2] & _ & H)].
  { destruct background as [f |]; [| discriminate].
    apply bind_Raise_inv in H as [H | (x & _ & H)];
      [apply deref_Raise in H; discriminate |].
    apply bind_Raise_inv in H as [H | (y & _ & H)];
      [apply deref_Raise in H; discriminate |].
    apply bind_Raise_inv in H as [H | (z & _ & H)];
      [apply raise_if_Raise in H; discriminate | discriminate]. }
  apply bind_Raise_inv in H as [H | (h3 & _ & H)].
  { destruct hotpixels as [p |]; [| discriminate].
    apply bind_Raise_inv in H as [H | (x & _ & H)];
      [apply deref_Raise in H; discriminate |].
    apply bind_Raise_inv in H as [H | (y & _ & H)];
      [apply deref_Raise in H; discriminate |].
    apply bind_Raise_inv in H as [H | (z & _ & H)];
      [apply raise_if_Raise in H; discriminate |].
    apply bind_Raise_inv in H as [H | (h' & _ & H)];
      [now apply store_set_equal1_Raise in H | now apply store_set_equal1_Raise in H]. }
  apply bind_Raise_inv in H as [H | (h4 & _ & H)]; [| discriminate].
  simpl In in Hn. destruct Hn as [Ht | Hg].
  - rewrite <- Ht in H. discriminate H.
  - rewrite (gap_branch self data2 mask nb_img h3 Hg) in H.
    now apply gaps_then_hot_pixels_Raise in H.
Qed.

(** X27. The constructor of [Detector] returns only for the five names
    Maxipix, Eiger2M, Eiger4M, Timepix and Merlin, which are the five names
    that [mask_detector] has a branch for: on a detector made by the
    constructor, [mask_detector] never raises [NotImplementedError],
    whatever its arguments. *)
Theorem constructed_detector_is_implemented (name : string)
    (roi sum_roi binning : list Z) (kw : Detector.kwargs) (a : Detector.attributes) :
  Detector.__init__ name roi sum_roi binning kw = Ok a →
  Detector.attr_name a = name
  ∧ In name ["Maxipix"; "Eiger2M"; "Eiger4M"; "Timepix"; "Merlin"]%string
  ∧ ∀ data mask nb_img flatfield background hotpixels h,
      Detector.mask_detector (Detector.as_instance a) data mask nb_img
        flatfield background hotpixels h ≠ Raise NotImplementedError.
Proof.
  intros H. apply init_Ok in H as (_ & Hname & _ & Hh & Hw & size & Hshape & _).
  assert (Hin : In name ["Maxipix"; "Eiger2M"; "Eiger4M"; "Timepix"; "Merlin"]%string).
  { unfold Detector.sensor_shape in Hshape. simpl In.
    destruct (String.eqb_spec name "Maxipix"); [auto |].
    destruct (String.eqb_spec name "Eiger2M"); [auto |].
    destruct (String.eqb_spec name "Eiger4M"); [auto |].
    destruct (String.eqb_spec name "Timepix"); [auto 6 |].
    destruct (String.eqb_spec name "Merlin"); [auto 6 |].
    discriminate. }
  split; [exact Hname |]. split; [exact Hin |].
  intros data mask nb_img flatfield background hotpixels h.
  apply mask_detector_implemented.
  unfold Detector.as_instance, gap_detectors. cbn [Detector.name]. rewrite Hname.
  simpl In in *. tauto.
Qed.

Lemma constructed_detector_is_implemented_witness :
  ∃ a, detector "Eiger2M" = Ok a
    ∧ Detector.attr_name a = "Eiger2M"%string.
Proof.
  eexists. split; [reflexivity |].
  eapply (constructed_detector_is_implemented "Eiger2M" [] [] Detector.default_binning
            Detector.no_kwargs).
  reflexivity.
Defined.

(** X28. Whenever the constructor of [Detector] returns, [roi] and
    [sum_roi] have four items: an empty [roi] becomes the whole sensor
    [[0, nb_pixel_y, 0, nb_pixel_x]], and a [roi] of four items is stored as
    it is given, without any check against the sensor. The numbers of pixels
    are those of the keywords, or the nominal ones of the detector where a
    keyword is absent or zero, floor-divided by the previous binning; with
    no keyword at all they are the nominal sensor of the detector. *)
Theorem region_of_interest_defaults (name : string) (roi sum_roi binning : list Z)
    (kw : Detector.kwargs) (a : Detector.attributes) :
  Detector.__init__ name roi sum_roi binning kw = Ok a →
  length (Detector.roi a) = 4 ∧ length (Detector.sum_roi a) = 4
  ∧ (roi = [] → Detector.roi a = [0; Detector.nb_pixel_y a; 0; Detector.nb_pixel_x a]%Z)
  ∧ (roi ≠ [] → Detector.roi a = roi)
  ∧ ∃ H W p1 p2,
      Detector.sensor_shape name = Some (H, W)
      ∧ Detector.previous_binning a !! 1 = Some p1 ∧ p1 ≠ 0%Z
      ∧ Detector.previous_binning a !! 2 = Some p2 ∧ p2 ≠ 0%Z
      ∧ Detector.nb_pixel_y a
        = (Detector.or_int (Detector.kw_nb_pixel_y kw) (Z.of_nat H) / p1)%Z
      ∧ Detector.nb_pixel_x a
        = (Detector.or_int (Detector.kw_nb_pixel_x kw) (Z.of_nat W) / p2)%Z
      ∧ (Detector.kw_nb_pixel_x kw = Some 0%Z ∨ Detector.kw_nb_pixel_x kw = None →
         Detector.kw_nb_pixel_y kw = Some 0%Z ∨ Detector.kw_nb_pixel_y kw = None →
         Detector.kw_previous_binning kw = None →
         Detector.nb_pixel_y a = Z.of_nat H ∧ Detector.nb_pixel_x a = Z.of_nat W).
Proof.
  intros Hinit.
  apply init_Ok in Hinit
    as (_ & _ & Hpb & H & W & size & Hshape & _ & Hbin & _ & _ & Hroi & Hsum).
  destruct (roi_or_full_Ok _ _ _ _ Hroi) as (L1 & R1 & R2).
  destruct (roi_or_full_Ok _ _ _ _ Hsum) as (L2 & _).
  split; [exact L1 |]. split; [exact L2 |]. split; [exact R1 |]. split; [exact R2 |].
  destruct (binned_pixels_Ok _ _ _ _ _ _ Hbin) as (p1 & p2 & E1 & E2 & N1 & N2 & Ex & Ey).
  exists H, W, p1, p2. repeat (split; [assumption |]).
  intros Hx Hy Hnone. rewrite Hpb, Hnone in E1, E2. cbn in E1, E2.
  injection E1 as <-. injection E2 as <-. rewrite Ex, Ey, !Z.div_1_r.
  split; [destruct Hy as [-> | ->] | destruct Hx as [-> | ->]]; reflexivity.
Qed.

Lemma region_of_interest_defaults_witness :
  ∃ a, detector "Eiger2M" = Ok a
    ∧ Detector.roi a = [0; Detector.nb_pixel_y a; 0; Detector.nb_pixel_x a]%Z
    ∧ Detector.nb_pixel_y a = 2164%Z ∧ Detector.nb_pixel_x a = 1030%Z.
Proof.
  eexists. split; [reflexivity |].
  destruct (region_of_interest_defaults "Eiger2M" [] [] Detector.default_binning
              Detector.no_kwargs _ eq_refl)
    as (_ & _ & Hr & _ & H & W & p1 & p2 & Hs & _ & _ & _ & _ & _ & _ & Hn).
  injection Hs as <- <-.
  split; [exact (Hr eq_refl) |].
  exact (Hn (or_intror eq_refl) (or_intror eq_refl) eq_refl).
Defined.

(** X29. What the constructor of [Detector] refuses, in the order of its
    checks: a keyword of an unknown name raises [Exception] before the name
    of the detector is looked at; then a name that is not one of the five
    raises [ValueError]; then a previous binning of fewer than three items
    raises [IndexError], and one whose factor is zero along the horizontal
    axis (item 2) or, that one not being zero, along the vertical axis
    (item 1) raises [ZeroDivisionError]; and, with a previous binning whose
    two factors are not zero and a binning of three items, a [roi] whose
    length is neither 0 nor 4 raises [ValueError], and so does, after a
    [roi] of such a length, a [sum_roi] whose length is neither. *)
Theorem constructor_refusals (name : string) (roi sum_roi binning : list Z)
    (kw : Detector.kwargs) :
  let previous_binning := Detector.or_binning (Detector.kw_previous_binning kw) in
  (Detector.unknown kw ≠ [] →
   Detector.__init__ name roi sum_roi binning kw = Raise Exception)
  ∧ (Detector.unknown kw = [] → Detector.sensor_shape name = None →
     Detector.__init__ name roi sum_roi binning kw = Raise ValueError)
  ∧ (Detector.unknown kw = [] → Detector.sensor_shape name ≠ None →
     (length previous_binning < 3)%nat →
     Detector.__init__ name roi sum_roi binning kw = Raise IndexError)
  ∧ (Detector.unknown kw = [] → Detector.sensor_shape name ≠ None →
     (previous_binning !! 2 = Some 0%Z
      ∨ (∃ p2, previous_binning !! 2 = Some p2 ∧ p2 ≠ 0%Z)
        ∧ previous_binning !! 1 = Some 0%Z) →
     Detector.__init__ name roi sum_roi binning kw = Raise ZeroDivisionError)
  ∧ (Detector.unknown kw = [] → Detector.sensor_shape name ≠ None →
     (∃ p1, previous_binning !! 1 = Some p1 ∧ p1 ≠ 0%Z) →
     (∃ p2, previous_binning !! 2 = Some p2 ∧ p2 ≠ 0%Z) →
     (3 <= length binning)%nat →
     (length roi ≠ 0 → length roi ≠ 4 →
      Detector.__init__ name roi sum_roi binning kw = Raise ValueError)
     ∧ (length roi = 0 ∨ length roi = 4 →
        length sum_roi ≠ 0 → length sum_roi ≠ 4 →
        Detector.__init__ name roi sum_roi binning kw = Raise ValueError)).
Proof.
  intros pb. unfold Detector.__init__, Detector.sensor_shape. fold pb.
  assert (Hbad : ∀ r ny nx, length r ≠ 0 → length r ≠ 4 →
            Detector.roi_or_full r ny nx = Raise ValueError).
  { intros r ny nx H0 H4. unfold Detector.roi_or_full.
    destruct (Nat.eqb_spec (length r) 0); [contradiction |].
    destruct (Nat.eqb_spec (length r) 4); [contradiction | reflexivity]. }
  assert (Hgood : ∀ r ny nx, length r = 0 ∨ length r = 4 →
            ∃ r', Detector.roi_or_full r ny nx = Ok r').
  { intros r ny nx [H | H]; unfold Detector.roi_or_full; rewrite H; cbn; eauto. }
  split; [| split; [| split; [| split]]].
  - intros Hu. destruct (Detector.unknown kw); [contradiction | reflexivity].
  - intros -> Hs. cbn [length Nat.eqb negb raise_if mbind result_bind].
    destruct (String.eqb name "Maxipix"); [discriminate |].
    destruct (String.eqb name "Eiger2M"); [discriminate |].
    destruct (String.eqb name "Eiger4M"); [discriminate |].
    destruct (String.eqb name "Timepix"); [discriminate |].
    destruct (String.eqb name "Merlin"); [discriminate | reflexivity].
  - intros -> Hs Hl. cbn [length Nat.eqb negb raise_if mbind result_bind].
    assert (E2 : pb !! 2 = None) by (apply lookup_ge_None; lia).
    unfold Detector.binned_pixels, Detector.subscript. rewrite E2.
    destruct (String.eqb name "Maxipix"); [reflexivity |].
    destruct (String.eqb name "Eiger2M"); [reflexivity |].
    destruct (String.eqb name "Eiger4M"); [reflexivity |].
    destruct (String.eqb name "Timepix"); [reflexivity |].
    destruct (String.eqb name "Merlin"); [reflexivity | contradiction].
  - intros -> Hs Hz. cbn [length Nat.eqb negb raise_if mbind result_bind].
    unfold Detector.binned_pixels, Detector.subscript, Detector.floordiv.
    destruct Hz as [E2 | [(p2 & E2 & N2) E1]]; rewrite E2; cbn [mbind result_bind].
    + change (0 =? 0)%Z with true. cbv iota.
      destruct (String.eqb name "Maxipix"); [reflexivity |].
      destruct (String.eqb name "Eiger2M"); [reflexivity |].
      destruct (String.eqb name "Eiger4M"); [reflexivity |].
      destruct (String.eqb name "Timepix"); [reflexivity |].
      destruct (String.eqb name "Merlin"); [reflexivity | contradiction].
    + rewrite (proj2 (Z.eqb_neq p2 0) N2). cbn [mbind result_bind].
      rewrite E1. cbn [mbind result_bind]. change (0 =? 0)%Z with true. cbv iota.
      destruct (String.eqb name "Maxipix"); [reflexivity |].
      destruct (String.eqb name "Eiger2M"); [reflexivity |].
      destruct (String.eqb name "Eiger4M"); [reflexivity |].
      destruct (String.eqb name "Timepix"); [reflexivity |].
      destruct (String.eqb name "Merlin"); [reflexivity | contradiction].
  - intros -> Hs (p1 & E1 & N1) (p2 & E2 & N2) Hb.
    destruct binning as [| b0 [| b1 [| b2 binning]]]; cbn [length] in Hb; try lia.
    cbn [length Nat.eqb negb raise_if mbind result_bind].
    unfold Detector.binned_pixels, Detector.subscript, Detector.floordiv.
    rewrite E2, E1. cbn [mbind result_bind].
    rewrite (proj2 (Z.eqb_neq p2 0) N2), (proj2 (Z.eqb_neq p1 0) N1).
    cbn [mbind result_bind].
    change ([b0; b1; b2] ++ binning) with (b0 :: b1 :: b2 :: binning).
    change ((b0 :: b1 :: b2 :: binning) !! 1) with (Some b1).
    change ((b0 :: b1 :: b2 :: binning) !! 2) with (Some b2).
    split.
    + intros H0 H4.
      destruct (String.eqb name "Maxipix"); [cbn [mbind result_bind]; now rewrite (Hbad roi _ _ H0 H4) |].
      destruct (String.eqb name "Eiger2M"); [cbn [mbind result_bind]; now rewrite (Hbad roi _ _ H0 H4) |].
      destruct (String.eqb name "Eiger4M"); [cbn [mbind result_bind]; now rewrite (Hbad roi _ _ H0 H4) |].
      destruct (String.eqb name "Timepix"); [cbn [mbind result_bind]; now rewrite (Hbad roi _ _ H0 H4) |].
      destruct (String.eqb name "Merlin");
        [cbn [mbind result_bind]; now rewrite (Hbad roi _ _ H0 H4) | contradiction].
    + intros Hr H0 H4.
      assert (Hroi : ∀ ny nx (k : list Z → result Detector.attributes),
                (∀ r', k r' = Raise ValueError) →
                (Detector.roi_or_full roi ny nx ≫= k) = Raise ValueError).
      { intros ny nx k Hk. destruct (Hgood roi ny nx Hr) as [r' ->]. apply Hk. }
      destruct (String.eqb name "Maxipix");
        [cbn [mbind result_bind]; apply Hroi; intros r'; now rewrite (Hbad sum_roi _ _ H0 H4) |].
      destruct (String.eqb name "Eiger2M");
        [cbn [mbind result_bind]; apply Hroi; intros r'; now rewrite (Hbad sum_roi _ _ H0 H4) |].
      destruct (String.eqb name "Eiger4M");
        [cbn [mbind result_bind]; apply Hroi; intros r'; now rewrite (Hbad sum_roi _ _ H0 H4) |].
      destruct (String.eqb name "Timepix");
        [cbn [mbind result_bind]; apply Hroi; intros r'; now rewrite (Hbad sum_roi _ _ H0 H4) |].
      destruct (String.eqb name "Merlin");
        [cbn [mbind result_bind]; apply Hroi; intros r'; now rewrite (Hbad sum_roi _ _ H0 H4) | contradiction].
Qed.

Lemma constructor_refusals_witness :
  Detector.__init__ "Maxipix" [] [] Detector.default_binning
    {| Detector.kw_is_series := None; Detector.kw_nb_pixel_x := None;
       Detector.kw_nb_pixel_y := None;
       Detector.kw_previous_binning := Some [1; 0; 1]%Z; Detector.unknown := [] |}
  = Raise ZeroDivisionError.
Proof.
  apply (proj1 (proj2 (proj2 (proj2 (constructor_refusals "Maxipix" [] []
           Detector.default_binning
           {| Detector.kw_is_series := None; Detector.kw_nb_pixel_x := None;
              Detector.kw_nb_pixel_y := None;
              Detector.kw_previous_binning := Some [1; 0; 1]%Z;
              Detector.unknown := [] |}))))).
  - reflexivity.
  - discriminate.
  - right. split; [exists 1%Z; split; [reflexivity | discriminate] | reflexivity].
Defined.
